(** * Whisperrr python-service: preprocessing pipeline, transcoder, sniffer,
      job registry and confidence score

    A shallow embedding of [app/utils.py], [app/job_manager.py] and the
    response assembly of [app/whisper_service.py].

    Conventions of the embedding.
    - Python [float] values are exact rationals ([Q]); [max]/[min] keep
      Python's argument order and tie behaviour.
    - Python [str] and [bytes] are [string] (one [ascii] per byte).  Text
      is followed exactly as long as it is ASCII: there a character is a
      byte and [Py.lower], [Py.upper] and [Py.strip] are Python's; the
      statements that depend on this say so with [is_ascii].
    - Code that touches the file system, runs a subprocess, calls librosa or
      reports progress is written in a state-and-exception monad [M] over a
      [World] (files on disk and the trace of operations performed so far);
      what the outside world answers is read from an [Env] of oracles that are
      indexed by the length of the trace, so two calls with the same arguments
      may be answered differently.
    - [settings] (app/config.py) is a record of tunables taken as a
      parameter. *)

From Stdlib Require Import String Ascii List ZArith QArith Lia Bool.
From stdpp Require Import gmap strings pretty.
Import ListNotations.

Local Open Scope string_scope.
Local Open Scope Z_scope.

(** ** Python builtins used by the code *)

Module Py.

(** [a < b] on floats. *)
Definition Qltb (a b : Q) : bool :=
  match (a ?= b)%Q with Lt => true | _ => false end.

(** [min(a, b)]: the first argument unless the second is strictly smaller. *)
Definition min (a b : Q) : Q := if Qltb b a then b else a.

(** [max(a, b)]: the first argument unless the second is strictly larger. *)
Definition max (a b : Q) : Q := if Qltb a b then b else a.

(** [sum(xs)]: left fold from 0. *)
Definition sum (xs : list Q) : Q := fold_left Qplus xs 0%Q.

(** [round(x, ndigits)]: nearest multiple of [10^-ndigits], ties to even. *)
Definition round (x : Q) (ndigits : nat) : Q :=
  let scale := 10 ^ Z.of_nat ndigits in
  let num := Qnum x * scale in
  let den := Zpos (Qden x) in
  let q := num / den in
  let r := num mod den in
  let n := match (2 * r ?= den) with
           | Lt => q
           | Gt => q + 1
           | Eq => if Z.even q then q else q + 1
           end in
  Qmake n (Z.to_pos scale).

(** Truthiness of a string and of an optional string. *)
Definition truthy (s : string) : bool :=
  match s with EmptyString => false | _ => true end.

Definition truthy_opt (s : option string) : bool :=
  match s with Some s => truthy s | None => false end.

(** [a or b] on strings. *)
Definition or_else (a b : string) : string := if truthy a then a else b.

(** [s[i:j]] for [0 <= i <= j]. *)
Definition slice (i j : nat) (s : string) : string :=
  substring i (j - i) s.

(** [s.startswith(p)]. *)
Definition startswith (p s : string) : bool := String.prefix p s.

(** [p in s] on strings. *)
Fixpoint contains (p s : string) : bool :=
  String.prefix p s ||
  match s with
  | EmptyString => false
  | String _ s' => contains p s'
  end.

Definition lower_ascii (c : ascii) : ascii :=
  let n := nat_of_ascii c in
  if ((65 <=? n) && (n <=? 90))%nat then ascii_of_nat (n + 32) else c.

Definition upper_ascii (c : ascii) : ascii :=
  let n := nat_of_ascii c in
  if ((97 <=? n) && (n <=? 122))%nat then ascii_of_nat (n - 32) else c.

Fixpoint map_string (f : ascii -> ascii) (s : string) : string :=
  match s with
  | EmptyString => EmptyString
  | String c s' => String (f c) (map_string f s')
  end.

(** [s.lower()] and [s.upper()] for ASCII [s].  Python also changes the
    cased characters outside ASCII, which are left alone here. *)
Definition lower : string -> string := map_string lower_ascii.
Definition upper : string -> string := map_string upper_ascii.

(** [s.lstrip(chars)]. *)
Fixpoint lstrip (chars : list ascii) (s : string) : string :=
  match s with
  | String c s' => if existsb (Ascii.eqb c) chars then lstrip chars s' else s
  | EmptyString => EmptyString
  end.

Fixpoint rev_string (s : string) (acc : string) : string :=
  match s with
  | EmptyString => acc
  | String c s' => rev_string s' (String c acc)
  end.

Definition rstrip (chars : list ascii) (s : string) : string :=
  rev_string (lstrip chars (rev_string s "")) "".

(** The ASCII characters that [str.strip()] removes: tab, line feed,
    vertical tab, form feed, carriage return, the separators 28 to 31 and
    the space. *)
Definition whitespace : list ascii :=
  map ascii_of_nat [9; 10; 11; 12; 13; 28; 29; 30; 31; 32]%nat.

(** [s.strip()] for ASCII [s].  Python also removes the white space outside
    ASCII, which is left alone here. *)
Definition strip (s : string) : string :=
  rstrip whitespace (lstrip whitespace s).

(** [sep.join(parts)]. *)
Fixpoint join (sep : string) (parts : list string) : string :=
  match parts with
  | [] => ""
  | [p] => p
  | p :: ps => p ++ sep ++ join sep ps
  end.

(** [s.split(sep)] for a one-character separator. *)
Fixpoint split (sep : ascii) (s : string) : list string :=
  match s with
  | EmptyString => [""]
  | String c s' =>
      if Ascii.eqb c sep then "" :: split sep s'
      else match split sep s' with
           | [] => [String c ""]
           | p :: ps => String c p :: ps
           end
  end.

(** [s.rfind(c)] as an optional index. *)
Fixpoint rfind (c : ascii) (s : string) : option nat :=
  match s with
  | EmptyString => None
  | String d s' =>
      match rfind c s' with
      | Some i => Some (S i)
      | None => if Ascii.eqb c d then Some O else None
      end
  end.

(** [x in xs] for a list or set of strings. *)
Definition elem (x : string) (xs : list string) : bool :=
  existsb (String.eqb x) xs.

(** A bytes literal given by its byte values. *)
Definition bytes (l : list nat) : string :=
  fold_right (fun n s => String (ascii_of_nat n) s) "" l.

(** [str(n)] for an integer. *)
Definition str_of_Z (n : Z) : string := pretty n.

End Py.

(** ** Python's [re.sub] for the patterns the code uses *)

Module Re.

(** [re.sub(pat, repl, s)] for a literal, non-empty [pat]: the leftmost
    non-overlapping occurrences are replaced.  [skip] counts the characters
    of a match that are still to be passed over. *)
Fixpoint sub_literal_from (skip : nat) (pat repl s : string) : string :=
  match s with
  | EmptyString => EmptyString
  | String c s' =>
      match skip with
      | S k => sub_literal_from k pat repl s'
      | O =>
          if String.prefix pat s
          then repl ++ sub_literal_from (String.length pat - 1) pat repl s'
          else String c (sub_literal_from 0 pat repl s')
      end
  end.

Definition sub_literal : string -> string -> string -> string :=
  sub_literal_from 0.

(** [re.sub('[...]', repl, s)] for a character class given as a predicate. *)
Fixpoint sub_class (matches : ascii -> bool) (repl s : string) : string :=
  match s with
  | EmptyString => EmptyString
  | String c s' =>
      (if matches c then repl else String c EmptyString)
      ++ sub_class matches repl s'
  end.

(** [re.sub('c+', repl, s)]: every maximal run of [c] is replaced. *)
Fixpoint sub_run (c : ascii) (repl s : string) : string :=
  match s with
  | EmptyString => EmptyString
  | String d s' =>
      if Ascii.eqb d c then
        match s' with
        | String d' _ =>
            if Ascii.eqb d' c then sub_run c repl s'
            else repl ++ sub_run c repl s'
        | EmptyString => repl
        end
      else String d (sub_run c repl s')
  end.

End Re.

(** ** Exceptions

    Exceptions of Python and of third-party libraries ([foreign]) carry
    their text: [str(e)] is [exc_str].  The exceptions of
    [app/exceptions.py] are kept as the constructor arguments the code
    passes; what [str(e)] prints for them is not fixed here, so a
    [str(e)] stored in another exception is kept as [StrOf e]. *)

Inductive PyClass : Type :=
  | TimeoutExpired
  | FileNotFoundError
  | OSError
  | ValueError
  | OtherException.

Record foreign : Type := mkForeign { exc_class : PyClass; exc_str : string }.

Inductive exn : Type :=
  | Foreign (e : foreign)
  | InvalidAudioFormat (file_format : string) (supported_formats : list string)
  | FileTooLarge (file_size max_size : Z)
  | FileSystemError (message : string) (operation : option string)
      (file_path : option string) (original_error : option pystr)
  | AudioProcessingError (message : string) (original_error : pystr)
      (processing_step : string)
  | TranscriptionFailed (message : string) (original_error : pystr)
      (file_path : string)
with pystr : Type :=
  | Lit (s : string)
  | StrOf (e : exn).

(** [str(e)]. *)
Definition str (e : exn) : pystr :=
  match e with
  | Foreign f => Lit (exc_str f)
  | _ => StrOf e
  end.

(** Every literal text stored in an exception, nested ones included. *)
Fixpoint exn_texts (e : exn) : list string :=
  match e with
  | Foreign f => [exc_str f]
  | InvalidAudioFormat f _ => [f]
  | FileTooLarge _ _ => []
  | FileSystemError m _ _ o =>
      m :: match o with Some t => pystr_texts t | None => [] end
  | AudioProcessingError m o s => m :: s :: pystr_texts o
  | TranscriptionFailed m o _ => m :: pystr_texts o
  end
with pystr_texts (t : pystr) : list string :=
  match t with
  | Lit s => [s]
  | StrOf e => exn_texts e
  end.

Definition is_class (c : PyClass) (e : exn) : bool :=
  match e with
  | Foreign f =>
      match c, exc_class f with
      | TimeoutExpired, TimeoutExpired => true
      | FileNotFoundError, FileNotFoundError => true
      | OSError, OSError => true
      | ValueError, ValueError => true
      | OtherException, OtherException => true
      | _, _ => false
      end
  | _ => false
  end.

Definition is_audio_processing_error (e : exn) : bool :=
  match e with AudioProcessingError _ _ _ => true | _ => false end.

(** ** The world outside the interpreter *)

(** A decoded waveform (a numpy array in the code). *)
Definition Audio : Type := list Q.

Record CompletedProcess : Type := mkCompleted {
  returncode : Z;
  stdout : string;
  stderr : string
}.

(** Operations on the outside world, and the calls whose outcome the
    pipeline branches on, as they are recorded in the trace. *)
Inductive Event : Type :=
  | EvProgress (p : Q) (msg : string)       (* the caller's progress callback *)
  | EvRun (cmd : list string) (timeout : Z) (* subprocess.run and how it ended *)
      (result : foreign + CompletedProcess)
  | EvConverted (entry input : string)      (* a transcoder entry point has *)
      (ok : bool)                           (* returned (true) or raised *)
  | EvLoad (path : string) (ok : bool)      (* librosa.load, returned or raised *)
  | EvGetDuration (path : string)
  | EvGetSamplerate (path : string)
  | EvResample
  | EvNormalize
  | EvSfWrite (path : string)
  | EvUuid
  | EvMakedirs (path : string)
  | EvGetsize (path : string)
  | EvOpen (path : string)
  | EvRemove (path : string).

Record World : Type := mkWorld {
  fs : gmap string string;   (* files on disk and their bytes *)
  trace : list Event         (* operations performed, oldest first *)
}.

(** What one run of an external tool does: the bytes it leaves in its output
    file, if any, and how [subprocess.run] ends. *)
Record RunOutcome : Type := mkRun {
  run_writes : option string;
  run_result : foreign + CompletedProcess
}.

Inductive FsOp : Type := OpGetsize | OpOpen | OpRemove | OpMakedirs.

(** The answers of the outside world; the [nat] is the length of the trace
    when the question is asked. *)
Record Env : Type := mkEnv {
  run_tool : nat -> list string -> RunOutcome;
  (* json.loads(stdout.decode('utf-8')).get('format', {}).get('format_name', ''),
     [None] when any step raises *)
  probe_format_name : string -> option string;
  librosa_get_duration : nat -> string -> foreign + Q;
  librosa_get_samplerate : nat -> string -> foreign + Z;
  librosa_load : nat -> string -> foreign + (Audio * Z);
  librosa_resample : nat -> Audio -> Z -> Z -> foreign + Audio;
  librosa_normalize : nat -> Audio -> foreign + Audio;
  sf_write : nat -> string -> Audio -> Z -> foreign + string;
  uuid4 : nat -> string;
  os_fault : nat -> FsOp -> string -> option foreign
}.

(** [settings] of app/config.py. *)
Record Settings : Type := mkSettings {
  supported_formats : list string;
  supported_formats_set : list string;
  formats_requiring_conversion_set : list string;
  max_file_size_bytes : Z;
  upload_dir : string;
  target_sample_rate : Z;
  audio_channels : Z;
  ffprobe_timeout_seconds : Z;
  ffmpeg_conversion_timeout_seconds : Z;
  preprocessing_progress_max : Q;
  transcription_progress_min : Q;
  transcription_progress_max : Q
}.

(** ** State and exception monad

    [St S A] is a computation over a state [S] that returns an [A] or raises.
    [M] is the instance over the [World]; [preprocess_audio], whose [except]
    block reads a local variable that the [try] block reassigns, runs over a
    [Frame] of locals paired with the [World]. *)

Inductive PyResult (A : Type) : Type :=
  | Ok (a : A)
  | Raise (e : exn).
Arguments Ok {A} a.
Arguments Raise {A} e.

Definition St (S A : Type) : Type := S -> PyResult A * S.

Definition M : Type -> Type := St World.

Definition ret {S A} (a : A) : St S A := fun s => (Ok a, s).

Definition raise {S A} (e : exn) : St S A := fun s => (Raise e, s).

Definition bind {S A B} (m : St S A) (k : A -> St S B) : St S B :=
  fun s =>
    match m s with
    | (Ok a, s') => k a s'
    | (Raise e, s') => (Raise e, s')
    end.

(** [try: m except Exception as e: h e]. *)
Definition try_catch {S A} (m : St S A) (h : exn -> St S A) : St S A :=
  fun s =>
    match m s with
    | (Ok a, s') => (Ok a, s')
    | (Raise e, s') => h e s'
    end.

Declare Scope py_scope.
Delimit Scope py_scope with py.
Notation "x <- m ;; k" := (bind m (fun x => k))
  (at level 100, m at next level, right associativity) : py_scope.
Notation "m ;; k" := (bind m (fun _ => k))
  (at level 100, right associativity) : py_scope.
Local Open Scope py_scope.

(** The clock read by the oracles. *)
Definition now : M nat := fun w => (Ok (length (trace w)), w).

Definition log (e : Event) : M unit :=
  fun w => (Ok tt, mkWorld (fs w) (trace w ++ [e])).

Definition lookup_file (path : string) : M (option string) :=
  fun w => (Ok (fs w !! path), w).

Definition write_file (path content : string) : M unit :=
  fun w => (Ok tt, mkWorld (<[path := content]> (fs w)) (trace w)).

Definition delete_file (path : string) : M unit :=
  fun w => (Ok tt, mkWorld (delete path (fs w)) (trace w)).

Definition is_ok {A} (r : PyResult A) : bool :=
  match r with Ok _ => true | Raise _ => false end.

(** Run [m] and record how it ended. *)
Definition recorded {A} (m : M A) (ev : bool -> Event) : M A :=
  fun w =>
    match m w with
    | (r, w') => (r, mkWorld (fs w') (trace w' ++ [ev (is_ok r)]))
    end.

Definition lift {A} (r : foreign + A) : M A :=
  match r with
  | inl e => raise (Foreign e)
  | inr a => ret a
  end.

(** A progress callback, or [None]. *)
Definition Callback : Type := option (Q -> string -> M unit).

(** The callback of a caller that records what it is told. *)
Definition report : Q -> string -> M unit :=
  fun p msg => log (EvProgress p msg).

(** The part of a trace produced after a given world. *)
Definition since (w : World) (w' : World) : list Event :=
  drop (length (trace w)) (trace w').

(** ** app/utils.py *)

Module Utils.

Section WithSettings.

Variable settings : Settings.
Variable env : Env.

(** *** Operating-system and library calls *)

Definition os_path_exists (path : string) : M bool :=
  content <- lookup_file path ;;
  ret (match content with Some _ => true | None => false end).

(** A file-system call that the operating system may refuse. *)
Definition os_call (op : FsOp) (ev : Event) (path : string) : M unit :=
  t <- now ;;
  log ev ;;
  match os_fault env t op path with
  | Some e => raise (Foreign e)
  | None => ret tt
  end.

Definition no_such_file : exn :=
  Foreign (mkForeign FileNotFoundError "No such file or directory").

Definition os_path_getsize (path : string) : M Z :=
  os_call OpGetsize (EvGetsize path) path ;;
  content <- lookup_file path ;;
  match content with
  | Some bytes => ret (Z.of_nat (String.length bytes))
  | None => raise no_such_file
  end.

(** [with open(path, 'rb') as f: data = f.read(n)]. *)
Definition read_prefix (path : string) (n : nat) : M string :=
  os_call OpOpen (EvOpen path) path ;;
  content <- lookup_file path ;;
  match content with
  | Some bytes => ret (Py.slice 0 n bytes)
  | None => raise no_such_file
  end.

(** Any operation on a file object after its [with] block has ended. *)
Definition closed_file {A} : M A :=
  raise (Foreign (mkForeign ValueError "I/O operation on closed file")).

Definition os_remove (path : string) : M unit :=
  os_call OpRemove (EvRemove path) path ;;
  content <- lookup_file path ;;
  match content with
  | Some _ => delete_file path
  | None => raise no_such_file
  end.

Definition os_makedirs (path : string) : M unit :=
  os_call OpMakedirs (EvMakedirs path) path.

(** [os.path.join(a, b)]. *)
Definition os_path_join (a b : string) : string :=
  if Py.startswith "/" b then b
  else if negb (Py.truthy a) || Py.startswith "/" (Py.rev_string a "") then a ++ b
  else a ++ "/" ++ b.

(** [os.path.dirname(p)]. *)
Definition os_path_dirname (p : string) : string :=
  match Py.rfind "/" p with
  | None => ""
  | Some i =>
      let head := Py.slice 0 (S i) p in
      let stripped := Py.rstrip ["/"%char] head in
      if Py.truthy stripped then stripped else head
  end.

(** [subprocess.run(cmd, ..., timeout=timeout)].  The transcoding tool
    writes to the path that ends its command line. *)
Definition subprocess_run (cmd : list string) (timeout : Z)
  : M CompletedProcess :=
  t <- now ;;
  let o := run_tool env t cmd in
  log (EvRun cmd timeout (run_result o)) ;;
  match run_writes o with
  | Some content =>
      if String.eqb (List.hd "" cmd) "ffmpeg"
      then write_file (List.last cmd "") content
      else ret tt
  | None => ret tt
  end ;;
  lift (run_result o).

Definition librosa_get_duration_ (path : string) : M Q :=
  t <- now ;;
  log (EvGetDuration path) ;;
  lift (librosa_get_duration env t path).

Definition librosa_get_samplerate_ (path : string) : M Z :=
  t <- now ;;
  log (EvGetSamplerate path) ;;
  lift (librosa_get_samplerate env t path).

Definition librosa_load_ (path : string) : M (Audio * Z) :=
  t <- now ;;
  let r := librosa_load env t path in
  log (EvLoad path (match r with inr _ => true | inl _ => false end)) ;;
  lift r.

Definition librosa_resample_ (audio : Audio) (orig_sr target_sr : Z)
  : M Audio :=
  t <- now ;;
  log EvResample ;;
  lift (librosa_resample env t audio orig_sr target_sr).

Definition librosa_normalize_ (audio : Audio) : M Audio :=
  t <- now ;;
  log EvNormalize ;;
  lift (librosa_normalize env t audio).

(** [sf.write(path, audio, sr, format='WAV', subtype='PCM_16')]. *)
Definition sf_write_ (path : string) (audio : Audio) (sr : Z) : M unit :=
  t <- now ;;
  log (EvSfWrite path) ;;
  content <- lift (sf_write env t path audio sr) ;;
  write_file path content.

(** *** get_file_extension *)

(** [Path(p).name]: the last component that is neither empty nor [.]. *)
Definition path_name (p : string) : string :=
  List.last
    (List.filter (fun c => negb (String.eqb c "") && negb (String.eqb c "."))
       (Py.split "/" p))
    "".

(** [Path(p).suffix]. *)
Definition path_suffix (p : string) : string :=
  let name := path_name p in
  match Py.rfind "." name with
  | Some i =>
      if ((0 <? i) && (i <? String.length name - 1))%nat
      then Py.slice i (String.length name) name
      else ""
  | None => ""
  end.

Definition get_file_extension (filename : string) : string :=
  Py.lstrip ["."%char] (Py.lower (path_suffix filename)).

Definition validate_file_format (filename : string) : bool :=
  let extension := get_file_extension filename in
  Py.elem extension (supported_formats_set settings).

Definition validate_file_size (file_size : Z) : bool :=
  file_size <=? max_file_size_bytes settings.

(** *** detect_audio_format *)

Definition ffprobe_format_cmd (file_path : string) : list string :=
  ["ffprobe"; "-v"; "quiet"; "-print_format"; "json"; "-show_format";
   file_path].

(** The first [try] block: is there a file with content to look at? *)
Definition has_content (file_path : string) : M bool :=
  try_catch
    (ex <- os_path_exists file_path ;;
     if negb ex then ret false
     else
       file_size <- os_path_getsize file_path ;;
       if file_size =? 0 then ret false (* Empty file *) else ret true)
    (fun _ => ret false).

(** The ffprobe attempt; [Some tag] is a [return tag], [None] falls through
    to the signature table. *)
Definition detect_by_probe (file_path : string) : M (option string) :=
  try_catch
    (result <- subprocess_run (ffprobe_format_cmd file_path) 10 ;;
     if returncode result =? 0 then
       match probe_format_name env (stdout result) with
       | None => raise (Foreign (mkForeign ValueError "malformed probe output"))
       | Some raw =>
           let format_name := Py.lower raw in
           if Py.contains "m4a" format_name || Py.contains "mp4" format_name
           then
             let ext := get_file_extension file_path in
             if String.eqb ext "m4a" then ret (Some "m4a")
             else if Py.elem ext ["mp4"; "mov"; "m4v"] then ret (Some ext)
             else if Py.contains "audio" (Py.lower format_name)
                     || Py.contains "aac" (Py.lower format_name)
             then ret (Some "m4a")
             else ret (Some "mp4")
           else if Py.contains "matroska" format_name then
             let ext := get_file_extension file_path in
             ret (Some (if Py.elem ext ["mkv"; "webm"] then ext else "mkv"))
           else if Py.contains "avi" format_name then ret (Some "avi")
           else if Py.contains "flv" format_name then ret (Some "flv")
           else if Py.contains "wmv" format_name then ret (Some "wmv")
           else if Py.contains "3gp" format_name then ret (Some "3gp")
           else ret None
       end
     else ret None)
    (fun _ => ret None).

(** The signature table; [None] falls through to the extension. *)
Definition detect_by_signature (file_path : string) : M (option string) :=
  header <- read_prefix file_path 16 ;;
  if Py.startswith "ID3" header || String.eqb (Py.slice 1 4 header) "ID3"
  then ret (Some "mp3")
  else if Py.startswith "RIFF" header && String.eqb (Py.slice 8 12 header) "WAVE"
  then ret (Some "wav")
  else if Py.startswith "OggS" header then ret (Some "ogg")
  else if Py.startswith "fLaC" header then ret (Some "flac")
  else if String.eqb (Py.slice 4 8 header) "ftyp" then
    (* f.seek(0) and f.read(32) on the file the with block has closed *)
    closed_file (A := unit) ;;
    more_data <- closed_file (A := string) ;;
    if Py.contains "M4A" (Py.slice 8 16 more_data)
       || Py.contains "qt" (Py.slice 8 16 more_data)
    then
      let ext := get_file_extension file_path in
      ret (Some (if String.eqb ext "m4a" then "m4a"
                 else if String.eqb ext "mov" then "mov" else "mp4"))
    else
      let ext := get_file_extension file_path in
      if String.eqb ext "m4a" then ret (Some "m4a")
      else if Py.elem ext ["mp4"; "mov"; "m4v"; "3gp"] then ret (Some ext)
      else ret None
  else if Py.startswith (Py.bytes [48; 38; 178; 117]%nat) header
  then ret (Some "wma")
  else if Py.startswith "RIFF" header && String.eqb (Py.slice 8 12 header) "AVI "
  then ret (Some "avi")
  else if Py.startswith (Py.bytes [26; 69; 223; 163]%nat) header then
    let ext := get_file_extension file_path in
    if Py.elem ext ["mkv"; "webm"] then ret (Some ext) else ret None
  else if Py.startswith "FLV" header then ret (Some "flv")
  else if Py.startswith (Py.bytes [48; 38; 178; 117; 142; 102; 207; 17]%nat) header
  then ret (Some "wmv")
  else if Py.startswith (Py.bytes [255; 241]%nat) header
          || Py.startswith (Py.bytes [255; 249]%nat) header
  then ret (Some "aac")
  else ret None.

Definition detect_audio_format (file_path : string) : M (option string) :=
  usable <- has_content file_path ;;
  if negb usable then ret None
  else
    try_catch
      (probed <- detect_by_probe file_path ;;
       match probed with
       | Some tag => ret (Some tag)
       | None =>
           matched <- detect_by_signature file_path ;;
           match matched with
           | Some tag => ret (Some tag)
           | None => ret (Some (get_file_extension file_path))
           end
       end)
      (fun _ => ret (Some (get_file_extension file_path))).

(** *** validate_audio_file_integrity *)

Definition ffprobe_audio_cmd (file_path : string) : list string :=
  ["ffprobe"; "-v"; "error"; "-select_streams"; "a:0";
   "-show_entries"; "stream=codec_type"; "-of"; "json"; file_path].

Definition ffprobe_container_cmd (file_path : string) : list string :=
  ["ffprobe"; "-v"; "error"; "-show_format"; "-of"; "json"; file_path].

Definition validate_audio_file_integrity (file_path : string)
  : M (bool * option string) :=
  try_catch
    (result <- subprocess_run (ffprobe_audio_cmd file_path)
                 (ffprobe_timeout_seconds settings) ;;
     rejected <-
       (if negb (returncode result =? 0) then
          result_video <- subprocess_run (ffprobe_container_cmd file_path)
                            (ffprobe_timeout_seconds settings) ;;
          if negb (returncode result_video =? 0) then
            (* result_video.stderr.decode('utf-8', errors='ignore'), which
               keeps every byte of ASCII output *)
            let error_msg := stderr result_video in
            ret (Some ("File validation failed: " ++ Py.slice 0 200 error_msg))
          else ret None
        else ret None) ;;
     match rejected with
     | Some detail => ret (false, Some detail)
     | None =>
         t <- now ;;
         log (EvGetDuration file_path) ;;
         match librosa_get_duration env t file_path with
         | inl e =>
             ret (false,
                  Some ("File cannot be read as audio: "
                        ++ Py.slice 0 200 (exc_str e)))
         | inr _ => ret (true, None)
         end
     end)
    (fun e =>
       if is_class TimeoutExpired e then ret (false, Some "File validation timed out")
       else if is_class FileNotFoundError e then ret (true, None)
       else ret (true, None)).

(** *** create_temp_file, cleanup_temp_file, get_audio_info *)

Definition create_temp_file (suffix : option string) : M (string * string) :=
  try_catch
    (t <- now ;;
     log EvUuid ;;
     let unique_id := uuid4 env t in
     let filename :=
       match suffix with
       | Some sfx =>
           if Py.truthy sfx then "whisperrr_" ++ unique_id ++ "." ++ sfx
           else "whisperrr_" ++ unique_id
       | None => "whisperrr_" ++ unique_id
       end in
     let file_path := os_path_join (upload_dir settings) filename in
     os_makedirs (os_path_dirname file_path) ;;
     ret (file_path, filename))
    (fun e =>
       raise (FileSystemError "Failed to create temporary file"
                (Some "create_temp_file") None (Some (str e)))).

Definition cleanup_temp_file (file_path : string) : M unit :=
  try_catch
    (ex <- os_path_exists file_path ;;
     if ex then os_remove file_path else ret tt)
    (fun _ => ret tt).

Record AudioInfo : Type := mkAudioInfo {
  ai_duration : Q;
  ai_sample_rate : Z;
  ai_file_size : Z;
  ai_file_size_mb : Q
}.

Definition size_mb (file_size : Z) : Q :=
  Py.round (inject_Z file_size / inject_Z (1024 * 1024)) 2.

Definition get_audio_info (file_path : string) : M AudioInfo :=
  try_catch
    (duration <- librosa_get_duration_ file_path ;;
     sr <- librosa_get_samplerate_ file_path ;;
     file_size <- os_path_getsize file_path ;;
     ret (mkAudioInfo duration sr file_size (size_mb file_size)))
    (fun e =>
       raise (AudioProcessingError "Failed to get audio information"
                (str e) "get_audio_info")).

(** *** convert_audio_file and convert_video_to_audio

    The two entry points run the same statements and differ in their
    captions and messages, collected in a [Transcoder]. *)

Record Transcoder : Type := mkTranscoder {
  tc_step : string;          (* processing_step, the function's name *)
  tc_starting : string;
  tc_extracting : string;
  tc_processing : string;
  tc_finalizing : string;
  tc_completed : string;
  tc_failed : string;        (* message of a failed conversion *)
  tc_timed_out : string      (* start of the time-out message *)
}.

Definition audio_transcoder : Transcoder := {|
  tc_step := "convert_audio_file";
  tc_starting := "Starting audio file conversion...";
  tc_extracting := "Extracting audio stream...";
  tc_processing := "Processing audio conversion...";
  tc_finalizing := "Finalizing converted audio...";
  tc_completed := "Audio conversion completed";
  tc_failed := "Failed to convert audio file";
  tc_timed_out := "Audio conversion timed out (exceeded "
|}.

Definition video_transcoder : Transcoder := {|
  tc_step := "convert_video_to_audio";
  tc_starting := "Starting video to audio conversion...";
  tc_extracting := "Extracting audio from video...";
  tc_processing := "Processing video conversion...";
  tc_finalizing := "Finalizing audio extraction...";
  tc_completed := "Video to audio conversion completed";
  tc_failed := "Failed to convert video/music file to audio";
  tc_timed_out := "Video conversion timed out (exceeded "
|}.

(** [if progress_callback: progress_callback(p, msg)]. *)
Definition notify (progress_callback : Callback) (p : Q) (msg : string)
  : M unit :=
  match progress_callback with
  | Some f => f p msg
  | None => ret tt
  end.

Definition ffmpeg_cmd (input_path output_path : string) : list string :=
  ["ffmpeg"; "-i"; input_path; "-vn"; "-acodec"; "pcm_s16le";
   "-ar"; Py.str_of_Z (target_sample_rate settings);
   "-ac"; Py.str_of_Z (audio_channels settings);
   "-y"; output_path].

Definition transcode (tc : Transcoder) (input_path : string)
    (output_path : option string) (progress_callback : Callback) : M string :=
  recorded
   (try_catch
    (notify progress_callback 0.0 (tc_starting tc) ;;
     (* Generate output path if not provided *)
     output_path <-
       match output_path with
       | None => created <- create_temp_file (Some "wav") ;; ret (fst created)
       | Some p => ret p
       end ;;
     notify progress_callback 10.0 (tc_extracting tc) ;;
     notify progress_callback 30.0 (tc_processing tc) ;;
     result <- subprocess_run (ffmpeg_cmd input_path output_path)
                 (ffmpeg_conversion_timeout_seconds settings) ;;
     notify progress_callback 80.0 (tc_finalizing tc) ;;
     (if negb (returncode result =? 0) then
        let error_msg :=
          Py.or_else (stderr result)
            (Py.or_else (stdout result) "Unknown ffmpeg error") in
        raise (AudioProcessingError (tc_failed tc) (Lit error_msg) (tc_step tc))
      else ret tt) ;;
     (* Verify output file exists and has content *)
     ex <- os_path_exists output_path ;;
     unusable <-
       (if negb ex then ret true
        else sz <- os_path_getsize output_path ;; ret (sz =? 0)) ;;
     (if unusable then
        raise (AudioProcessingError
                 "Conversion produced empty or missing output file"
                 (Lit "Output file verification failed") (tc_step tc))
      else ret tt) ;;
     notify progress_callback 100.0 (tc_completed tc) ;;
     ret output_path)
    (fun e =>
       if is_class TimeoutExpired e then
         raise (AudioProcessingError
                  (tc_timed_out tc
                   ++ Py.str_of_Z (ffmpeg_conversion_timeout_seconds settings)
                   ++ " seconds)")
                  (Lit "FFmpeg conversion timeout") (tc_step tc))
       else if is_class FileNotFoundError e then
         raise (AudioProcessingError
                  "FFmpeg not found. Please ensure ffmpeg is installed."
                  (Lit "FFmpeg executable not found") (tc_step tc))
       else
         raise (AudioProcessingError (tc_failed tc) (str e) (tc_step tc))))
   (EvConverted (tc_step tc) input_path).

Definition convert_audio_file : string -> option string -> Callback -> M string :=
  transcode audio_transcoder.

Definition convert_video_to_audio : string -> option string -> Callback -> M string :=
  transcode video_transcoder.

(** *** preprocess_audio *)

(** The local variables of [preprocess_audio] that are reassigned. *)
Record Frame : Type := mkFrame {
  converted_file : option string;
  file_path : string
}.

Definition F : Type -> Type := St (Frame * World).

(** A call that does not touch the locals. *)
Definition in_world {A} (m : M A) : F A :=
  fun s =>
    match m (snd s) with
    | (r, w') => (r, (fst s, w'))
    end.

Definition get_converted_file : F (option string) :=
  fun s => (Ok (converted_file (fst s)), s).

Definition get_file_path : F string :=
  fun s => (Ok (file_path (fst s)), s).

Definition set_converted_file (v : option string) : F unit :=
  fun s => (Ok tt, (mkFrame v (file_path (fst s)), snd s)).

Definition set_file_path (v : string) : F unit :=
  fun s => (Ok tt, (mkFrame (converted_file (fst s)) v, snd s)).

Definition run_frame {A} (locals : Frame) (m : F A) : M A :=
  fun w =>
    match m (locals, w) with
    | (r, s') => (r, snd s')
    end.

(** The nested helper [update_progress] of [preprocess_audio]. *)
Definition update_progress (progress_callback : Callback)
    (progress : Q) (message : string) : M unit :=
  match progress_callback with
  | Some f =>
      (* Map preprocessing progress to 0-40% range *)
      let mapped_progress :=
        (progress * (preprocessing_progress_max settings / 100.0))%Q in
      f mapped_progress message
  | None => ret tt
  end.

Definition audio_extensions : list string :=
  ["mp3"; "wav"; "m4a"; "flac"; "ogg"; "wma"; "aac"].

(** [if converted_file and os.path.exists(converted_file)]. *)
Definition converted_file_on_disk : F (option string) :=
  converted <- get_converted_file ;;
  match converted with
  | Some c =>
      if Py.truthy c then
        ex <- in_world (os_path_exists c) ;;
        if ex then ret (Some c) else ret None
      else ret None
  | None => ret None
  end.

(** [update_progress] called from the body of [preprocess_audio]. *)
Definition progress_in_frame (progress_callback : Callback)
    (progress : Q) (message : string) : F unit :=
  in_world (update_progress progress_callback progress message).

(** The body of [preprocess_audio] is cut into the stages of the pipeline;
    [preprocess_audio] below runs them in one [try] block. *)

(** Lines 457-482: convert video formats, validate audio formats and convert
    the ones the prober rejects. *)
Definition convert_stage (progress_callback : Callback) : F unit :=
  let progress := progress_in_frame progress_callback in
  (* Check if file requires conversion (video/music formats) *)
  current <- get_file_path ;;
  let file_extension := get_file_extension current in
  let is_video_format :=
    Py.elem file_extension (formats_requiring_conversion_set settings) in
  let is_audio_format := Py.elem file_extension audio_extensions in
  progress 2.0%Q ("Detected file format: " ++ file_extension) ;;
  if is_video_format then
    (* For video formats: always convert *)
    progress 5.0%Q
      ("Converting " ++ Py.upper file_extension ++ " video to audio...") ;;
    converted <-
      in_world
        (convert_video_to_audio current None
           (Some (fun p m =>
                    update_progress progress_callback (5.0 + p * 0.25)%Q m))) ;;
    set_converted_file (Some converted) ;;
    set_file_path converted ;;
    progress 30.0%Q "Video conversion completed"
  else if is_audio_format then
    (* For audio formats: validate integrity and convert if problematic *)
    progress 5.0%Q "Validating audio file integrity..." ;;
    verdict <- in_world (validate_audio_file_integrity current) ;;
    let is_valid := fst verdict in
    let error_msg := snd verdict in
    if negb is_valid || Py.truthy_opt error_msg then
      progress 10.0%Q "Audio file has issues, converting to clean format..." ;;
      converted <-
        in_world
          (convert_audio_file current None
             (Some (fun p m =>
                      update_progress progress_callback (10.0 + p * 0.20)%Q m))) ;;
      set_converted_file (Some converted) ;;
      set_file_path converted ;;
      progress 30.0%Q "Audio conversion completed"
    else progress 10.0%Q "Audio file is valid"
  else ret tt.

(** Lines 484-498: read the audio properties and decode, with the rescue
    conversion when the first decode raises. *)
Definition load_stage (progress_callback : Callback) : F (Audio * Z) :=
  let progress := progress_in_frame progress_callback in
  (* Get audio info *)
  progress 30.0%Q "Analyzing audio properties..." ;;
  current <- get_file_path ;;
  audio_info <- in_world (get_audio_info current) ;;
  progress 32.0%Q "Loading audio data..." ;;
  (* Load audio *)
  try_catch
    (current <- get_file_path ;;
     loaded <- in_world (librosa_load_ current) ;;
     ret tt)
    (fun _ =>
       (* If loading fails, try converting the file *)
       converted <- get_converted_file ;;
       if negb (Py.truthy_opt converted) then
         (* Only convert if we haven't already *)
         progress 35.0%Q "Audio loading failed, converting file..." ;;
         current <- get_file_path ;;
         converted <-
           in_world
             (convert_audio_file current None
                (Some (fun p m =>
                         update_progress progress_callback (35.0 + p * 0.05)%Q m))) ;;
         set_converted_file (Some converted) ;;
         set_file_path converted
       else ret tt) ;;
  current <- get_file_path ;;
  in_world (librosa_load_ current).

(** Lines 500-506: cleanup converted file after loading. *)
Definition discard_stage : F unit :=
  on_disk <- converted_file_on_disk ;;
  current <- get_file_path ;;
  match on_disk with
  | Some c =>
      if negb (String.eqb c current) then
        try_catch
          (in_world (cleanup_temp_file c) ;;
           set_converted_file None (* Mark as cleaned up *))
          (fun _ => ret tt)
      else ret tt
  | None => ret tt
  end.

(** Lines 508-527: resample, normalize and write the canonical file. *)
Definition output_stage (progress_callback : Callback) (target_sr : Z)
    (loaded : Audio * Z) : F string :=
  let progress := progress_in_frame progress_callback in
  let audio := fst loaded in
  let sr := snd loaded in
  progress 36.0%Q "Processing audio..." ;;
  (* Resample if necessary *)
  resampled <-
    (if negb (sr =? target_sr) then
       progress 37.0%Q
         ("Resampling audio from " ++ Py.str_of_Z sr ++ "Hz to "
          ++ Py.str_of_Z target_sr ++ "Hz...") ;;
       audio <- in_world (librosa_resample_ audio sr target_sr) ;;
       ret (audio, target_sr)
     else ret (audio, sr)) ;;
  let audio := fst resampled in
  let sr := snd resampled in
  (* Normalize audio *)
  progress 38.0%Q "Normalizing audio levels..." ;;
  audio <- in_world (librosa_normalize_ audio) ;;
  (* Create output file *)
  progress 39.0%Q "Saving preprocessed audio..." ;;
  created <- in_world (create_temp_file (Some "wav")) ;;
  let output_path := fst created in
  (* Save as WAV (Whisper prefers WAV format) *)
  in_world (sf_write_ output_path audio sr) ;;
  progress 40.0%Q "Audio preprocessing completed, ready for transcription" ;;
  ret output_path.

(** Lines 529-540: the [except] block. *)
Definition failure_stage (e : exn) : F string :=
  (* Cleanup converted file on error *)
  on_disk <- converted_file_on_disk ;;
  match on_disk with
  | Some c => try_catch (in_world (cleanup_temp_file c)) (fun _ => ret tt)
  | None => ret tt
  end ;;
  raise (AudioProcessingError "Failed to preprocess audio" (str e)
           "preprocess_audio").

(** Lines 455-527: the [try] block, which runs the stages in order. *)
Definition pipeline (progress_callback : Callback) (target_sr : Z)
  : F string :=
  progress_in_frame progress_callback 0.0%Q "Validating file..." ;;
  convert_stage progress_callback ;;
  loaded <- load_stage progress_callback ;;
  discard_stage ;;
  output_stage progress_callback target_sr loaded.

Definition preprocess_audio (path : string) (target_sr : option Z)
    (progress_callback : Callback) : M string :=
  let target_sr :=
    match target_sr with
    | None => target_sample_rate settings
    | Some sr => sr
    end in
  (* converted_file = None *)
  run_frame (mkFrame None path)
    (try_catch (pipeline progress_callback target_sr) failure_stage).

(** *** validate_audio_file *)

Record ValidationInfo : Type := mkValidationInfo {
  vi_valid : bool;
  vi_format : option string;
  vi_file_size : Z;
  vi_file_size_mb : Q;
  vi_duration : option Q;
  vi_sample_rate : option Z
}.

Definition validate_audio_file (file_path : string) : M ValidationInfo :=
  try_catch
    (ex <- os_path_exists file_path ;;
     (if negb ex then
        raise (FileSystemError "File does not exist" None (Some file_path) None)
      else ret tt) ;;
     file_size <- os_path_getsize file_path ;;
     (if negb (validate_file_size file_size) then
        raise (FileTooLarge file_size (max_file_size_bytes settings))
      else ret tt) ;;
     detected_format <- detect_audio_format file_path ;;
     (* Validate format - check detected format first, then extension *)
     let extension := get_file_extension file_path in
     let format_to_check :=
       if Py.truthy_opt detected_format
       then default "" detected_format
       else extension in
     (if negb (Py.truthy format_to_check)
         || negb (Py.elem format_to_check (supported_formats_set settings))
      then
        raise (InvalidAudioFormat (Py.or_else format_to_check "unknown")
                 (supported_formats settings))
      else ret tt) ;;
     let is_video_format :=
       match detected_format with
       | Some d => Py.elem d (formats_requiring_conversion_set settings)
       | None => false
       end in
     if is_video_format then
       ret (mkValidationInfo true detected_format file_size (size_mb file_size)
              None None)
     else
       try_catch
         (audio_info <- get_audio_info file_path ;;
          ret (mkValidationInfo true detected_format file_size
                 (size_mb file_size)
                 (Some (ai_duration audio_info))
                 (Some (ai_sample_rate audio_info))))
         (fun _ =>
            ret (mkValidationInfo true detected_format file_size
                   (size_mb file_size) None None)))
    (fun e =>
       match e with
       | InvalidAudioFormat _ _ | FileTooLarge _ _ | FileSystemError _ _ _ _ =>
           (* Re-raise our custom exceptions *)
           raise e
       | _ =>
           raise (AudioProcessingError "Audio file validation failed" (str e)
                    "validate_audio_file")
       end).

(** *** safe_filename *)

(** [os.path.basename(p)] (POSIX): what follows the last [/]. *)
Definition os_path_basename (p : string) : string :=
  match Py.rfind "/" p with
  | Some i => Py.slice (S i) (String.length p) p
  | None => p
  end.

Definition backslash : ascii := ascii_of_nat 92.

(** The class [[a-zA-Z0-9._-]]. *)
Definition safe_char (c : ascii) : bool :=
  let n := nat_of_ascii c in
  (((97 <=? n) && (n <=? 122)) || ((65 <=? n) && (n <=? 90))
   || ((48 <=? n) && (n <=? 57))
   || (n =? 46) || (n =? 95) || (n =? 45))%nat.

Definition safe_filename (filename : string) : string :=
  if negb (Py.truthy filename) then "file"
  else
    (* Remove path separators and dangerous characters *)
    let safe := os_path_basename filename in
    (* Remove path traversal patterns *)
    let safe := Re.sub_literal "../" "" safe in
    let safe := Re.sub_literal (".." ++ String backslash "") "" safe in
    let safe := Re.sub_literal ".." "" safe in
    (* Remove or replace unsafe characters *)
    let safe := Re.sub_class (fun c => negb (safe_char c)) "_" safe in
    (* Remove multiple consecutive underscores *)
    let safe := Re.sub_run "_" "_" safe in
    (* Remove leading/trailing dots, underscores, and spaces *)
    let safe :=
      Py.rstrip ["."; " "; "_"]%char (Py.lstrip ["."; " "; "_"]%char safe) in
    (* Limit length *)
    let safe :=
      if (255 <? String.length safe)%nat then Py.slice 0 255 safe else safe in
    (* Ensure it's not empty after sanitization *)
    if negb (Py.truthy safe) then "file" else safe.

End WithSettings.

End Utils.

(** ** app/models.py: the response records, with the fields the code fills *)

Module Models.

Record TranscriptionSegment : Type := mkTranscriptionSegment {
  start_time : Q;
  end_time : Q;
  text : string;
  confidence : option Q
}.

Record TranscriptionResponse : Type := mkTranscriptionResponse {
  full_text : string;
  language : option string;
  duration : Q;
  segments : list TranscriptionSegment;
  confidence_score : option Q;
  model_used : option string;
  processing_time : Q
}.

End Models.

(** ** app/job_manager.py

    [datetime.utcnow()] is the [clock] argument; the per-job lock makes each
    method one step. *)

Module JobManager.

Import Models.

Inductive JobStatus : Type :=
  | PENDING
  | PROCESSING
  | COMPLETED
  | FAILED
  | CANCELLED.

Record Job : Type := mkJob {
  job_id : string;
  status : JobStatus;
  progress : Q;
  message : string;
  result : option TranscriptionResponse;
  error : option string;
  created_at : Z;
  updated_at : Z
}.

(** [Job.__init__]. *)
Definition init (job_id : string) (clock : Z) : Job := {|
  job_id := job_id;
  status := PENDING;
  progress := 0.0;
  message := "Job created";
  result := None;
  error := None;
  created_at := clock;
  updated_at := clock
|}.

Definition update_progress (self : Job) (new_progress : Q)
    (new_message : option string) (clock : Z) : Job := {|
  job_id := job_id self;
  status := status self;
  progress := Py.max 0.0 (Py.min 100.0 new_progress);
  message := if Py.truthy_opt new_message
             then default "" new_message else message self;
  result := result self;
  error := error self;
  created_at := created_at self;
  updated_at := clock
|}.

Definition set_status (self : Job) (new_status : JobStatus)
    (new_message : option string) (clock : Z) : Job := {|
  job_id := job_id self;
  status := new_status;
  progress := progress self;
  message := if Py.truthy_opt new_message
             then default "" new_message else message self;
  result := result self;
  error := error self;
  created_at := created_at self;
  updated_at := clock
|}.

Definition set_result (self : Job) (new_result : TranscriptionResponse)
    (clock : Z) : Job := {|
  job_id := job_id self;
  status := COMPLETED;
  progress := 100.0;
  message := "Transcription completed";
  result := Some new_result;
  error := error self;
  created_at := created_at self;
  updated_at := clock
|}.

Definition set_error (self : Job) (new_error : string) (clock : Z) : Job := {|
  job_id := job_id self;
  status := FAILED;
  progress := progress self;
  message := new_error;
  result := result self;
  error := Some new_error;
  created_at := created_at self;
  updated_at := clock
|}.

(** A method call on a job. *)
Inductive Mutation : Type :=
  | UpdateProgress (new_progress : Q) (new_message : option string)
  | SetStatus (new_status : JobStatus) (new_message : option string)
  | SetResult (new_result : TranscriptionResponse)
  | SetError (new_error : string).

Definition apply (self : Job) (call : Mutation * Z) : Job :=
  match call with
  | (UpdateProgress p m, clock) => update_progress self p m clock
  | (SetStatus st m, clock) => set_status self st m clock
  | (SetResult r, clock) => set_result self r clock
  | (SetError e, clock) => set_error self e clock
  end.

(** The job after a sequence of method calls, oldest first. *)
Definition after (self : Job) (calls : list (Mutation * Z)) : Job :=
  fold_left apply calls self.

(** The progress a client polling after each call would read. *)
Fixpoint observed (self : Job) (calls : list (Mutation * Z)) : list Q :=
  match calls with
  | [] => []
  | call :: rest => progress (apply self call) :: observed (apply self call) rest
  end.

(** *** JobManager

    A [Job] object is shared between the registry and whoever holds the job
    that [create_job] or [get_job] returned.  The objects live in [objects],
    by address; [_jobs] maps a job id to the address of its object.  A
    [datetime] is the number of microseconds since [datetime.min], the
    start of the year 1. *)

Record Manager : Type := mkManager {
  objects : list Job;
  _jobs : gmap string nat
}.

(** [JobManager.__init__]. *)
Definition new : Manager := mkManager [] empty.

(** [uuid4] is the value of [str(uuid.uuid4())]. *)
Definition create_job (self : Manager) (uuid4 : string) (clock : Z)
  : nat * Manager :=
  let job_id := uuid4 in
  let job := length (objects self) in
  (job,
   mkManager (objects self ++ [init job_id clock])
     (<[job_id := job]> (_jobs self))).

Definition get_job (self : Manager) (job_id : string) : option nat :=
  _jobs self !! job_id.

(** [self._jobs.pop(job_id, None)]. *)
Definition delete_job (self : Manager) (job_id : string) : Manager :=
  mkManager (objects self) (delete job_id (_jobs self)).

(** What date arithmetic gives: a value, or [OverflowError]. *)
Inductive Dated (A : Type) : Type :=
  | Returns (a : A)
  | RaisesOverflowError.

Arguments Returns {A} a.
Arguments RaisesOverflowError {A}.

(** [datetime.max], the last microsecond of the year 9999. *)
Definition datetime_max : Z := 3652059 * 86400 * 1000000 - 1.

(** [timedelta(seconds=n)] for an integer [n]: the constructor raises when
    the whole days of [n] exceed 999999999 in magnitude. *)
Definition timedelta_seconds (n : Z) : Dated Z :=
  if Z.abs (n / 86400) <=? 999999999
  then Returns (n * 1000000)
  else RaisesOverflowError.

(** [moment - delta]: raises when the result is not a [datetime]. *)
Definition datetime_sub (moment delta : Z) : Dated Z :=
  let result := moment - delta in
  if (0 <=? result) && (result <=? datetime_max)
  then Returns result
  else RaisesOverflowError.

(** [job_cleanup_max_age_seconds] is the setting of that name and [clock]
    is [datetime.utcnow()].  The cutoff is computed before the lock is
    taken, so a call that raises has changed nothing.  The ids in
    [to_delete] are keys of the dictionary, so no [del] raises. *)
Definition cleanup_old_jobs (job_cleanup_max_age_seconds : Z)
    (self : Manager) (max_age_seconds : option Z) (clock : Z)
  : Dated Manager :=
  let max_age_seconds :=
    match max_age_seconds with
    | None => job_cleanup_max_age_seconds
    | Some n => n
    end in
  match timedelta_seconds max_age_seconds with
  | RaisesOverflowError => RaisesOverflowError
  | Returns age =>
      match datetime_sub clock age with
      | RaisesOverflowError => RaisesOverflowError
      | Returns cutoff =>
          let to_delete :=
            omap (fun item : string * nat =>
                    match objects self !! snd item with
                    | Some job =>
                        if created_at job <? cutoff
                        then Some (fst item) else None
                    | None => None
                    end)
                 (map_to_list (_jobs self)) in
          Returns
            (mkManager (objects self)
               (fold_left (fun jobs job_id => delete job_id jobs) to_delete
                  (_jobs self)))
      end
  end.

(** A method call on the object at address [job]. *)
Definition call (self : Manager) (job : nat) (m : Mutation) (clock : Z)
  : Manager :=
  mkManager (alter (fun j => apply j (m, clock)) job (objects self))
    (_jobs self).

End JobManager.

(** ** app/whisper_service.py: progress rescaling and response assembly *)

Module WhisperService.

Import Models.

(** A segment dictionary of the engine's result. *)
Record SegmentDict : Type := mkSegmentDict {
  seg_start : Q;
  seg_end : Q;
  seg_text : string;
  seg_avg_logprob : option Q;
  seg_no_speech_prob : option Q
}.

(** The result dictionary; [None] is an absent key or a [None] value. *)
Record WhisperResult : Type := mkWhisperResult {
  wr_text : option string;
  wr_language : option string;
  wr_segments : option (list SegmentDict)
}.

(** [transcription_callback] of [transcribe_audio]: the percentage handed to
    the caller's callback. *)
Definition transcription_callback_progress (settings : Settings) (p : Q) : Q :=
  let progress_range :=
    (transcription_progress_max settings - transcription_progress_min settings)%Q in
  (transcription_progress_min settings + (p * progress_range / 100.0))%Q.

(** The list [confidences] of [_create_transcription_response]. *)
Definition confidences (segs : list SegmentDict) : list Q :=
  omap seg_avg_logprob segs.

(** The block that computes [confidence_score]. *)
Definition overall_confidence (whisper_result : WhisperResult) : option Q :=
  match wr_segments whisper_result with
  | Some (seg :: segs) =>
      let confidences := confidences (seg :: segs) in
      match confidences with
      | [] => None
      | _ :: _ =>
          let avg_logprob :=
            (Py.sum confidences / inject_Z (Z.of_nat (length confidences)))%Q in
          Some (Py.max 0 (Py.min 1 ((avg_logprob + 1) / 2)))
      end
  | _ => None
  end.

Definition _create_transcription_response (model_size : option string)
    (whisper_result : option WhisperResult)
    (file_info : option Utils.ValidationInfo) (processing_time : Q)
  : PyResult TranscriptionResponse :=
  match whisper_result with
  | None =>
      Raise (TranscriptionFailed "Transcription result is None"
               (Lit "whisper_result is None") "unknown")
  | Some whisper_result =>
      let text_from_result := wr_text whisper_result in
      let segments_data := default [] (wr_segments whisper_result) in
      let segments :=
        map (fun segment =>
               mkTranscriptionSegment (seg_start segment) (seg_end segment)
                 (Py.strip (seg_text segment)) None)
            segments_data in
      let confidence_score := overall_confidence whisper_result in
      let duration :=
        match file_info with
        | Some info => default 0.0%Q (Utils.vi_duration info)
        | None => 0.0%Q
        end in
      let final_text :=
        if Py.truthy_opt text_from_result
        then Py.strip (default "" text_from_result) else "" in
      let final_text :=
        if negb (Py.truthy final_text)
           && match segments with [] => false | _ => true end
        then
          Py.join " "
            (map (fun seg => Py.strip (text seg))
               (List.filter (fun seg => Py.truthy (text seg)) segments))
        else final_text in
      Ok (mkTranscriptionResponse final_text (wr_language whisper_result)
            duration segments confidence_score model_size
            (Py.round processing_time 3))
  end.

(** *** _get_compute_type and _transcribe_sync *)

(** The tunables of [settings] that the service reads besides the ones of
    [Settings]. *)
Record ServiceSettings : Type := mkServiceSettings {
  model_size : string;
  compute_type : string;
  beam_size : Z;
  default_task : string;
  segment_progress_max : Q;
  segment_progress_base : Q;
  segment_progress_multiplier : Q;
  cleanup_temp_files : bool
}.

(** [_device] is [self._device]. *)
Definition _get_compute_type (config : ServiceSettings) (_device : string)
  : string :=
  let configured_type := Py.lower (compute_type config) in
  if String.eqb _device "cuda" then
    if Py.elem configured_type ["float16"; "float32"] then configured_type
    else "float16"
  else
    if Py.elem configured_type ["int8"; "float32"] then configured_type
    else "int8".

(** A segment and the info object of the engine; [None] is an attribute
    that the object does not have. *)
Record EngineSegment : Type := mkEngineSegment {
  es_start : option Q;
  es_end : option Q;
  es_text : option string;
  es_avg_logprob : option Q;
  es_no_speech_prob : option Q
}.

Record EngineInfo : Type := mkEngineInfo {
  ei_language : option string;
  ei_language_probability : option Q
}.

(** [self._model.transcribe(file_path, beam_size=..., temperature=...,
    task=...)] followed by [list(segments_generator)]: the segments and the
    info object (which may be [None]), or what either step raises.  The
    [nat] is the length of the trace when the engine is called. *)
Definition Engine : Type :=
  nat -> string -> Z -> Q -> string ->
  foreign + (list EngineSegment * option EngineInfo).

(** What [_transcribe_sync] returns: the dictionary that
    [_create_transcription_response] reads, and its fourth key. *)
Record SyncResult : Type := mkSyncResult {
  sr_result : WhisperResult;
  sr_language_probability : option Q
}.

(** [getattr(seg, "text", "").strip()]. *)
Definition segment_text (seg : EngineSegment) : string :=
  Py.strip (default "" (es_text seg)).

(** The percentage reported for the segment at [idx]. *)
Definition segment_progress (config : ServiceSettings) (idx : nat) : Q :=
  Py.min (segment_progress_max config)
    (segment_progress_base config
     + inject_Z (Z.of_nat idx) * segment_progress_multiplier config)%Q.

(** The first loop over the segments, from index [idx] on. *)
Fixpoint collect_segments (config : ServiceSettings)
    (progress_callback : Callback) (idx : nat) (segments : list EngineSegment)
  : M (list (EngineSegment * string)) :=
  match segments with
  | [] => ret []
  | seg :: rest =>
      let seg_text := segment_text seg in
      (if (idx mod 10 =? 0)%nat then
         Utils.notify progress_callback (segment_progress config idx)
           ("Transcribed " ++ Py.str_of_Z (Z.of_nat idx + 1)
            ++ " segment(s)...")
       else ret tt) ;;
      collected <- collect_segments config progress_callback (S idx) rest ;;
      ret ((seg, seg_text) :: collected)
  end.

(** One turn of the second loop: the dictionary of a segment. *)
Definition segment_dict (item : EngineSegment * string) : SegmentDict :=
  let seg := fst item in
  let seg_text := snd item in
  let seg_text :=
    if negb (Py.truthy seg_text) then segment_text seg else seg_text in
  mkSegmentDict (default 0.0%Q (es_start seg)) (default 0.0%Q (es_end seg))
    seg_text (es_avg_logprob seg) (es_no_speech_prob seg).

Definition _transcribe_sync (config : ServiceSettings) (engine : Engine)
    (file_path : string) (language : option string) (temperature : Q)
    (task : string) (progress_callback : Callback) : M SyncResult :=
  Utils.notify progress_callback 0.0 "Initializing Whisper model..." ;;
  Utils.notify progress_callback 5.0 "Starting audio transcription..." ;;
  t <- now ;;
  transcribed <-
    lift (engine t file_path (beam_size config) temperature
            (default_task config)) ;;
  let segments := fst transcribed in
  let info := snd transcribed in
  match info with
  | None =>
      raise (TranscriptionFailed "Transcription returned None info object"
               (Lit "info is None") file_path)
  | Some info =>
      Utils.notify progress_callback 10.0 "Processing audio segments..." ;;
      segments_with_text <-
        collect_segments config progress_callback 0 segments ;;
      Utils.notify progress_callback 95.0
        "Formatting transcription results..." ;;
      let language_value := ei_language info in
      let language_prob_value := ei_language_probability info in
      (* Build segments list *)
      let segments_dict_list := map segment_dict segments_with_text in
      let text_parts :=
        List.filter Py.truthy (map seg_text segments_dict_list) in
      let full_text :=
        match text_parts with
        | [] => ""
        | _ => Py.join " " text_parts
        end in
      let result :=
        mkSyncResult
          (mkWhisperResult (Some full_text) language_value
             (Some segments_dict_list))
          language_prob_value in
      Utils.notify progress_callback 100.0
        "Transcription completed successfully" ;;
      ret result
  end.

(** *** load_model and transcribe_audio

    [async] code is read as one coroutine running alone: an [await] is a
    call.  [ModelNotLoaded] and [ModelLoadFailed] are the two exceptions of
    app/exceptions.py that only the service raises; both leave
    [transcribe_audio] before its [try] block is entered. *)

Inductive ServiceError : Type :=
  | ModelNotLoaded (message : string)
  | ModelLoadFailed (message model_size : string)
      (original_error : option pystr)
  | Raised (e : exn).

(** The attributes of the service that its methods assign. *)
Record Service : Type := mkService {
  _model : option Engine;
  _model_size : option string;
  _model_load_time : option Q;
  _is_loading : bool;
  _active_transcriptions : Z;
  _device : string;
  _compute_type : string
}.

(** The dictionary [load_model] returns. *)
Record LoadReport : Type := mkLoadReport {
  lr_success : bool;
  lr_model_size : string;
  lr_load_time_seconds : Q;
  lr_memory_usage_mb : Q;
  lr_message : string
}.

(** [try: m finally: f]. *)
Definition finally {S A} (m : St S A) (f : St S unit) : St S A :=
  fun s =>
    match m s with
    | (r, s') =>
        match f s' with
        | (Ok _, s'') => (r, s'')
        | (Raise e, s'') => (Raise e, s'')
        end
    end.

Section WithService.

Variable settings : Settings.
Variable config : ServiceSettings.
Variable env : Env.
(* WhisperModel(model_size, device=, compute_type=) *)
Variable WhisperModel : nat -> string -> string -> string -> foreign + Engine.
(* time.time(): the second index tells the readings of one call apart *)
Variable time_time : nat -> nat -> Q.
(* get_memory_usage() of app/utils.py, which reads the process through psutil *)
Variable get_memory_usage : nat -> Q.
(* isinstance(e, WhisperrrException); the classes are declared in
   app/exceptions.py *)
Variable isinstance_WhisperrrException : exn -> bool.

Definition with_loading (self : Service) (flag : bool) : Service :=
  mkService (_model self) (_model_size self) (_model_load_time self) flag
    (_active_transcriptions self) (_device self) (_compute_type self).

Definition with_active (self : Service) (n : Z) : Service :=
  mkService (_model self) (_model_size self) (_model_load_time self)
    (_is_loading self) n (_device self) (_compute_type self).

Definition load_model (requested : option string) (s : Service * World)
  : (ServiceError + LoadReport) * (Service * World) :=
  let self := fst s in
  let w := snd s in
  let t := length (trace w) in
  let size :=
    match requested with
    | None => model_size config
    | Some size => size
    end in
  (* Check if model is already loaded *)
  if match _model self with Some _ => true | None => false end
     && match _model_size self with
        | Some loaded => String.eqb loaded size
        | None => false
        end
     && negb (_is_loading self)
  then
    (inr (mkLoadReport true size 0.0 (get_memory_usage t)
            ("Model " ++ size ++ " already loaded")), s)
  else if _is_loading self then
    (* Prevent concurrent loading *)
    (inl (ModelLoadFailed "Model is already being loaded" size None), s)
  else
    let start_time := time_time t 0%nat in
    match WhisperModel t size (_device self) (_compute_type self) with
    | inr model =>
        let load_time := (time_time t 2%nat - start_time)%Q in
        (inr (mkLoadReport true size (Py.round load_time 3)
                (get_memory_usage t)
                ("Model " ++ size ++ " loaded successfully")),
         (mkService (Some model) (Some size) (Some (time_time t 1%nat)) false
            (_active_transcriptions self) (_device self) (_compute_type self),
          w))
    | inl e =>
        (inl (ModelLoadFailed ("Failed to load model " ++ size) size
                (Some (str (Foreign e)))),
         (with_loading self false, w))
    end.

(** [self._model.transcribe] when [self._model] is [None]. *)
Definition no_engine : Engine :=
  fun _ _ _ _ _ =>
    inl (mkForeign OtherException
           "'NoneType' object has no attribute 'transcribe'").

(** The [try] block of [transcribe_audio], with its two [except] clauses. *)
Definition transcribe_guarded (self : Service) (start_time : Q)
    (file_path : string) (language : option string) (temperature : Q)
    (task : string) (progress_callback : Callback)
  : M Models.TranscriptionResponse :=
  try_catch
    ((* Validate audio file *)
     Utils.notify progress_callback 0.0 "Validating file format..." ;;
     file_info <- Utils.validate_audio_file settings env file_path ;;
     (* file_info is a record here, never None *)
     (* Preprocess audio: processed_file stays None when this raises *)
     processed_file <-
       Utils.preprocess_audio settings env file_path None progress_callback ;;
     finally
       (let transcription_callback :=
          Some (fun p m =>
                  Utils.notify progress_callback
                    (transcription_callback_progress settings p) m) in
        result <-
          _transcribe_sync config
            (match _model self with Some engine => engine | None => no_engine end)
            processed_file language temperature task transcription_callback ;;
        t <- now ;;
        let processing_time := (time_time t 1%nat - start_time)%Q in
        (* Convert result to response model *)
        fun w =>
          (_create_transcription_response (_model_size self)
             (Some (sr_result result)) (Some file_info) processing_time, w))
       ((* Cleanup processed file *)
        if Py.truthy processed_file && cleanup_temp_files config
        then Utils.cleanup_temp_file env processed_file
        else ret tt))
    (fun e =>
       if isinstance_WhisperrrException e
       then
         (* Re-raise Whisperrr exceptions as-is *)
         raise e
       else
         raise (TranscriptionFailed "Transcription failed" (str e) file_path)).

Definition transcribe_audio (file_path : string)
    (requested : option string) (language : option string) (temperature : Q)
    (task : string) (progress_callback : Callback) (s : Service * World)
  : (ServiceError + Models.TranscriptionResponse) * (Service * World) :=
  match _model (fst s) with
  | None => (inl (ModelNotLoaded "No model is currently loaded"), s)
  | Some _ =>
      let switch :=
        match requested with
        | Some size =>
            Py.truthy size
            && negb match _model_size (fst s) with
                    | Some loaded => String.eqb size loaded
                    | None => false
                    end
        | None => false
        end in
      let loaded :=
        if switch
        then
          (* Load different model if requested *)
          match load_model requested s with
          | (inl err, s') => (Some err, s')
          | (inr _, s') => (None, s')
          end
        else (None, s) in
      match loaded with
      | (Some err, s') => (inl err, s')
      | (None, (self, w)) =>
          let start_time := time_time (length (trace w)) 0%nat in
          let self := with_active self (_active_transcriptions self + 1) in
          match
            transcribe_guarded self start_time file_path language temperature
              task progress_callback w
          with
          | (r, w') =>
              (match r with
               | Ok response => inr response
               | Raise e => inl (Raised e)
               end,
               (with_active self (_active_transcriptions self - 1), w'))
          end
      end
  end.

End WithService.

End WhisperService.

(** ** Reading a trace *)

(** The percentages handed to the caller's callback, oldest first. *)
Fixpoint percentages (evs : list Event) : list Q :=
  match evs with
  | [] => []
  | EvProgress p _ :: rest => p :: percentages rest
  | _ :: rest => percentages rest
  end.

Fixpoint nondecreasing (qs : list Q) : bool :=
  match qs with
  | a :: (b :: _) as rest => Qle_bool a b && nondecreasing rest
  | _ => true
  end.

(** [process_transcription_job] of app/main.py hands the pipeline the
    callback [job.update_progress]: each reported pair becomes one call. *)
Fixpoint progress_calls (evs : list Event) : list (JobManager.Mutation * Z) :=
  match evs with
  | [] => []
  | EvProgress p msg :: rest =>
      (JobManager.UpdateProgress p (Some msg), 0) :: progress_calls rest
  | _ :: rest => progress_calls rest
  end.

Definition is_progress (ev : Event) : bool :=
  match ev with EvProgress _ _ => true | _ => false end.

Definition is_removal (ev : Event) : bool :=
  match ev with EvRemove _ => true | _ => false end.

Definition is_tool_run (ev : Event) : bool :=
  match ev with EvRun _ _ _ => true | _ => false end.

(** The files a trace removes. *)
Definition removals (evs : list Event) : list Event :=
  List.filter is_removal evs.

(** The external-tool invocations of a trace. *)
Definition tool_runs (evs : list Event) : list Event :=
  List.filter is_tool_run evs.

(** Some tool invocation of the trace ran out of time. *)
Definition timed_out (evs : list Event) : Prop :=
  exists cmd tmo e,
    In (EvRun cmd tmo (inl e)) evs /\ exc_class e = TimeoutExpired.

(** Some tool invocation of the trace found no executable. *)
Definition tool_missing (evs : list Event) : Prop :=
  exists cmd tmo e,
    In (EvRun cmd tmo (inl e)) evs /\ exc_class e = FileNotFoundError.

(** The decode and conversion attempts of a run, in order. *)
Inductive Attempt : Type :=
  | Conversion (entry : string) (ok : bool)
  | Decode (ok : bool).

Definition attempt_of (ev : Event) : option Attempt :=
  match ev with
  | EvConverted entry _ ok => Some (Conversion entry ok)
  | EvLoad _ ok => Some (Decode ok)
  | _ => None
  end.

Fixpoint attempts (evs : list Event) : list Attempt :=
  match evs with
  | [] => []
  | ev :: rest =>
      match attempt_of ev with
      | Some a => a :: attempts rest
      | None => attempts rest
      end
  end.

(** A callback that only reports: it returns, leaves the files alone and
    adds nothing but progress events to the trace. *)
Definition passive (cb : Callback) : Prop :=
  match cb with
  | None => True
  | Some f =>
      forall p msg w, exists evs,
        f p msg w = (Ok tt, mkWorld (fs w) (trace w ++ evs))
        /\ forallb is_progress evs = true
  end.

(** The locals agree: a recorded converted file is the current file. *)
Definition tied (s : Utils.Frame * World) : Prop :=
  forall c,
    Utils.converted_file (fst s) = Some c -> Utils.file_path (fst s) = c.

(** What [subprocess.run] leaves on disk. *)
Definition files_after_run (env : Env) (cmd : list string) (w : World)
  : gmap string string :=
  match run_writes (run_tool env (length (trace w)) cmd) with
  | Some content =>
      if String.eqb (List.hd "" cmd) "ffmpeg"
      then <[List.last cmd "" := content]> (fs w)
      else fs w
  | None => fs w
  end.

(** What [preprocess_audio] raises when [e] reaches its [except] block. *)
Definition preprocess_error (e : exn) : exn :=
  AudioProcessingError "Failed to preprocess audio" (str e) "preprocess_audio".

(** The last report of a successful [preprocess_audio]. *)
Definition completed_report (settings : Settings) : Event :=
  EvProgress (40.0 * (preprocessing_progress_max settings / 100.0))%Q
    "Audio preprocessing completed, ready for transcription".

(** What a failed call of a transcoder entry point looks like: [step] is the
    entry point's name and [failed] its failure message.  The error is an
    [AudioProcessingError] of that step; after a nonzero exit it wraps the
    tool's whole stderr (else stdout, else a fixed text); after a zero exit
    with a missing or empty output file it wraps a fixed text. *)
Definition failure_contract (env : Env) (step failed : string)
    (w : World) (run : PyResult string * World) : Prop :=
  let evs := since w (snd run) in
  (forall e, fst run = Raise e ->
     exists m o, e = AudioProcessingError m o step)
  /\ (forall cmd tmo cp,
        In (EvRun cmd tmo (inr cp)) evs -> returncode cp <> 0 ->
        fst run
        = Raise (AudioProcessingError failed
                   (StrOf (AudioProcessingError failed
                             (Lit (Py.or_else (stderr cp)
                                     (Py.or_else (stdout cp)
                                        "Unknown ffmpeg error")))
                             step))
                   step))
  /\ (forall cmd tmo cp,
        In (EvRun cmd tmo (inr cp)) evs -> returncode cp = 0 ->
        (fs (snd run) !! List.last cmd "" = None
         \/ fs (snd run) !! List.last cmd "" = Some "") ->
        (forall t p, os_fault env t OpGetsize p = None) ->
        fst run
        = Raise (AudioProcessingError failed
                   (StrOf (AudioProcessingError
                             "Conversion produced empty or missing output file"
                             (Lit "Output file verification failed") step))
                   step)).

(** ** The specification's words *)

(** Clamping into [[lo, hi]]. *)
Definition clamp (lo hi x : Q) : Q :=
  if Qlt_le_dec x lo then lo else if Qlt_le_dec hi x then hi else x.

(** The arithmetic mean. *)
Definition mean (xs : list Q) : Q :=
  (fold_right Qplus 0%Q xs / inject_Z (Z.of_nat (length xs)))%Q.

(** The log-probabilities that the segments carry, in the order of the
    segments; a segment without one contributes nothing. *)
Fixpoint carried_logprobs (segs : list WhisperService.SegmentDict) : list Q :=
  match segs with
  | [] => []
  | seg :: rest =>
      match WhisperService.seg_avg_logprob seg with
      | Some logprob => logprob :: carried_logprobs rest
      | None => carried_logprobs rest
      end
  end.

(** A percentage a client may be shown. *)
Definition in_range (q : Q) : Prop := (0 <= q <= 100)%Q.

(** ** Weakest preconditions over traces

    [wpt m s Q]: running [m] from state [s] extends the trace by some events
    [evs], and the result, the final state and [evs] satisfy [Q]. *)

Class HasTrace (S : Type) : Type := trace_of : S -> list Event.

#[global] Instance world_trace : HasTrace World := trace.

#[global] Instance frame_trace : HasTrace (Utils.Frame * World) :=
  fun s => trace (snd s).

Definition wpt {S} `{HasTrace S} {A} (m : St S A) (s : S)
    (Q : PyResult A -> S -> list Event -> Prop) : Prop :=
  exists evs,
    trace_of (snd (m s)) = (trace_of s ++ evs)%list
    /\ Q (fst (m s)) (snd (m s)) evs.

(** ** Reading a string *)

(** Every character of [s] satisfies [P]. *)
Definition all_chars (P : ascii -> bool) (s : string) : Prop :=
  Forall (fun c => P c = true) (list_ascii_of_string s).

(** [s] is ASCII text.  For such text a character is a byte, decoding it
    as UTF-8 changes nothing, and [Py.lower] and [Py.strip] are Python's
    [lower] and [strip]. *)
Definition is_ascii (s : string) : bool :=
  forallb (fun c => (nat_of_ascii c <? 128)%nat) (list_ascii_of_string s).

(** The texts of the engine's segments are ASCII. *)
Definition ascii_texts (segments : list WhisperService.EngineSegment) : bool :=
  forallb (fun seg => is_ascii (default "" (WhisperService.es_text seg)))
    segments.

(** ** Reading the outside world *)

(** A tool run from which [detect_audio_format] learns nothing: the tool
    cannot be run, or it exits with a nonzero status. *)
Definition no_verdict (result : foreign + CompletedProcess) : Prop :=
  match result with
  | inl _ => True
  | inr cp => returncode cp <> 0
  end.

(** The operating system refuses nothing. *)
Definition no_faults (env : Env) : Prop :=
  forall t op path, os_fault env t op path = None.

(** The probe never gives an answer. *)
Definition probe_is_silent (env : Env) : Prop :=
  forall t cmd, no_verdict (run_result (run_tool env t cmd)).

(** ** Reading progress *)

(** The share of the job's percentage scale that [preprocess_audio] uses:
    its last checkpoint, 40, rescaled by [update_progress]. *)
Definition preprocessing_ceiling (settings : Settings) : Q :=
  (40.0 * (preprocessing_progress_max settings / 100.0))%Q.

(** ** Sample settings, environments and worlds *)

Module Sample.

Definition settings : Settings := {|
  supported_formats := ["mp3"; "wav"; "m4a"; "flac"; "ogg"; "mp4"; "mov"];
  supported_formats_set := ["mp3"; "wav"; "m4a"; "flac"; "ogg"; "mp4"; "mov"];
  formats_requiring_conversion_set := ["mp4"; "mov"; "avi"; "mkv"];
  max_file_size_bytes := 1048576000;
  upload_dir := "/tmp/whisperrr";
  target_sample_rate := 16000;
  audio_channels := 1;
  ffprobe_timeout_seconds := 30;
  ffmpeg_conversion_timeout_seconds := 300;
  preprocessing_progress_max := 40.0;
  transcription_progress_min := 40.0;
  transcription_progress_max := 100.0
|}.

Definition wav_bytes : string := "RIFF$   WAVEfmt ".

Definition completed (code : Z) (err : string) : foreign + CompletedProcess :=
  inr (mkCompleted code "" err).

(** Every tool and library call succeeds; ffmpeg writes a WAV file. *)
Definition healthy : Env := {|
  run_tool := fun _ cmd =>
    if String.eqb (List.hd "" cmd) "ffmpeg"
    then mkRun (Some wav_bytes) (completed 0 "")
    else mkRun None (completed 0 "");
  probe_format_name := fun _ => None;
  librosa_get_duration := fun _ _ => inr 5.0%Q;
  librosa_get_samplerate := fun _ _ => inr 44100;
  librosa_load := fun _ _ => inr ([0.5%Q; (-0.25)%Q], 44100);
  librosa_resample := fun _ audio _ _ => inr audio;
  librosa_normalize := fun _ audio => inr audio;
  sf_write := fun _ _ _ _ => inr wav_bytes;
  uuid4 := fun t => "job" ++ pretty (Z.of_nat t);
  os_fault := fun _ _ _ => None
|}.

(** As [healthy], but librosa cannot decode the uploaded file itself. *)
Definition undecodable_upload (upload : string) : Env := {|
  run_tool := run_tool healthy;
  probe_format_name := probe_format_name healthy;
  librosa_get_duration := librosa_get_duration healthy;
  librosa_get_samplerate := librosa_get_samplerate healthy;
  librosa_load := fun t path =>
    if String.eqb path upload
    then inl (mkForeign OtherException "NoBackendError")
    else librosa_load healthy t path;
  librosa_resample := librosa_resample healthy;
  librosa_normalize := librosa_normalize healthy;
  sf_write := sf_write healthy;
  uuid4 := uuid4 healthy;
  os_fault := os_fault healthy
|}.

(** As [healthy], but every subprocess ends the way [result] says and writes
    nothing. *)
Definition every_run (result : foreign + CompletedProcess) : Env := {|
  run_tool := fun _ _ => mkRun None result;
  probe_format_name := probe_format_name healthy;
  librosa_get_duration := librosa_get_duration healthy;
  librosa_get_samplerate := librosa_get_samplerate healthy;
  librosa_load := librosa_load healthy;
  librosa_resample := librosa_resample healthy;
  librosa_normalize := librosa_normalize healthy;
  sf_write := sf_write healthy;
  uuid4 := uuid4 healthy;
  os_fault := os_fault healthy
|}.

(** As [healthy], but librosa cannot read anything. *)
Definition deaf : Env := {|
  run_tool := run_tool healthy;
  probe_format_name := probe_format_name healthy;
  librosa_get_duration := fun _ _ =>
    inl (mkForeign OtherException "NoBackendError");
  librosa_get_samplerate := fun _ _ =>
    inl (mkForeign OtherException "NoBackendError");
  librosa_load := fun _ _ =>
    inl (mkForeign OtherException "NoBackendError");
  librosa_resample := librosa_resample healthy;
  librosa_normalize := librosa_normalize healthy;
  sf_write := sf_write healthy;
  uuid4 := uuid4 healthy;
  os_fault := os_fault healthy
|}.

(** As [healthy], but librosa runs out of memory once the trace is longer
    than [moment]. *)
Definition decodes_until (moment : nat) : Env := {|
  run_tool := run_tool healthy;
  probe_format_name := probe_format_name healthy;
  librosa_get_duration := librosa_get_duration healthy;
  librosa_get_samplerate := librosa_get_samplerate healthy;
  librosa_load := fun t path =>
    if (t <=? moment)%nat
    then librosa_load healthy t path
    else inl (mkForeign OtherException "MemoryError");
  librosa_resample := librosa_resample healthy;
  librosa_normalize := librosa_normalize healthy;
  sf_write := sf_write healthy;
  uuid4 := uuid4 healthy;
  os_fault := os_fault healthy
|}.

(** A callback that raises from the percentage [threshold] on. *)
Definition failing_from (threshold : Q) : Q -> string -> M unit :=
  fun p _ =>
    if Qle_bool threshold p
    then raise (Foreign (mkForeign OtherException "boom"))
    else ret tt.

(** A disk holding one uploaded file. *)
Definition disk (path content : string) : World :=
  mkWorld {[ path := content ]} [].

Definition ffmpeg_note : string :=
  "[out#0/wav @ 0x5581] Nothing was written into output file".

Definition timeout_error : foreign :=
  mkForeign TimeoutExpired "Command 'ffprobe' timed out after 30 seconds".

Definition missing_tool_error : foreign :=
  mkForeign FileNotFoundError "[Errno 2] No such file or directory: 'ffprobe'".

(** As [settings], but uploads may not exceed four bytes. *)
Definition tiny_limit : Settings := {|
  supported_formats := supported_formats settings;
  supported_formats_set := supported_formats_set settings;
  formats_requiring_conversion_set := formats_requiring_conversion_set settings;
  max_file_size_bytes := 4;
  upload_dir := upload_dir settings;
  target_sample_rate := target_sample_rate settings;
  audio_channels := audio_channels settings;
  ffprobe_timeout_seconds := ffprobe_timeout_seconds settings;
  ffmpeg_conversion_timeout_seconds := ffmpeg_conversion_timeout_seconds settings;
  preprocessing_progress_max := preprocessing_progress_max settings;
  transcription_progress_min := transcription_progress_min settings;
  transcription_progress_max := transcription_progress_max settings
|}.

Definition service : WhisperService.ServiceSettings := {|
  WhisperService.model_size := "base";
  WhisperService.compute_type := "INT8";
  WhisperService.beam_size := 5;
  WhisperService.default_task := "transcribe";
  WhisperService.segment_progress_max := 90.0;
  WhisperService.segment_progress_base := 10.0;
  WhisperService.segment_progress_multiplier := 0.5;
  WhisperService.cleanup_temp_files := true
|}.

(** Two segments of speech around a blank one. *)
Definition spoken : list WhisperService.EngineSegment :=
  [ WhisperService.mkEngineSegment (Some 0.0%Q) (Some 2.5%Q)
      (Some " Hello there. ") (Some (-0.25)%Q) (Some 0.01%Q);
    WhisperService.mkEngineSegment (Some 2.5%Q) (Some 3.0%Q)
      (Some "   ") None None;
    WhisperService.mkEngineSegment (Some 3.0%Q) (Some 5.0%Q)
      (Some " General Kenobi.") (Some (-0.5)%Q) (Some 0.02%Q) ].

Definition english : WhisperService.EngineInfo :=
  WhisperService.mkEngineInfo (Some "en") (Some 0.98%Q).

(** An engine that always gives the same answer. *)
Definition answering
    (answer : foreign
              + (list WhisperService.EngineSegment
                 * option WhisperService.EngineInfo))
  : WhisperService.Engine :=
  fun _ _ _ _ _ => answer.


(** Loading a model always succeeds; every model hears [spoken]. *)
Definition model_store
  : nat -> string -> string -> string -> foreign + WhisperService.Engine :=
  fun _ _ _ _ => inr (answering (inr (spoken, Some english))).

(** A clock that starts each call at the length of the trace and advances
    one second per reading. *)
Definition clock : nat -> nat -> Q :=
  fun t reading => inject_Z (Z.of_nat (t + reading)).

Definition memory : nat -> Q := fun _ => 512.0%Q.

(** The exceptions that app/utils.py and the service raise themselves. *)
Definition own_exception (e : exn) : bool :=
  match e with
  | Foreign _ => false
  | _ => true
  end.

(** A service on the CPU with the base model loaded and nothing running. *)
Definition ready : WhisperService.Service := {|
  WhisperService._model := Some (answering (inr (spoken, Some english)));
  WhisperService._model_size := Some "base";
  WhisperService._model_load_time := Some 0.0%Q;
  WhisperService._is_loading := false;
  WhisperService._active_transcriptions := 0;
  WhisperService._device := "cpu";
  WhisperService._compute_type := "int8"
|}.
End Sample.

(** * Theorems *)

Local Open Scope list_scope.

(** ** Arithmetic of [min] and [max] *)

Lemma Qltb_true (a b : Q) : Py.Qltb a b = true <-> (a < b)%Q.
Proof.
  unfold Py.Qltb. rewrite Qlt_alt.
  destruct (a ?= b)%Q; split; intros H; congruence.
Qed.

Lemma Qltb_false (a b : Q) : Py.Qltb a b = false <-> (b <= a)%Q.
Proof.
  unfold Py.Qltb. rewrite Qle_alt.
  rewrite <- (Qcompare_antisym a b).
  destruct (a ?= b)%Q; simpl; split; intros H; congruence.
Qed.

Lemma max_min_clamp (lo hi x : Q) :
  (lo <= hi)%Q -> (Py.max lo (Py.min hi x) == clamp lo hi x)%Q.
Proof.
  intros Hlh. unfold Py.max, Py.min, clamp.
  destruct (Py.Qltb x hi) eqn:E1.
  - apply Qltb_true in E1.
    destruct (Py.Qltb lo x) eqn:E2.
    + apply Qltb_true in E2.
      destruct (Qlt_le_dec x lo) as [H|H]; [exfalso; eapply Qlt_irrefl, Qlt_trans; eauto|].
      destruct (Qlt_le_dec hi x) as [H'|H']; [exfalso; eapply Qlt_irrefl, Qlt_trans; eauto|].
      reflexivity.
    + apply Qltb_false in E2.
      destruct (Qlt_le_dec x lo) as [H|H]; [reflexivity|].
      destruct (Qlt_le_dec hi x) as [H'|H']; [exfalso; eapply Qlt_irrefl, Qlt_trans; eauto|].
      apply Qle_antisym; assumption.
  - apply Qltb_false in E1.
    destruct (Py.Qltb lo hi) eqn:E2.
    + apply Qltb_true in E2.
      destruct (Qlt_le_dec x lo) as [H|H].
      { exfalso. eapply Qlt_irrefl, Qlt_le_trans; [|apply E1]. eapply Qlt_trans; eauto. }
      destruct (Qlt_le_dec hi x) as [H'|H']; [reflexivity|].
      apply Qle_antisym; assumption.
    + apply Qltb_false in E2.
      assert (Heq : (lo == hi)%Q) by (apply Qle_antisym; assumption).
      destruct (Qlt_le_dec x lo) as [H|H]; [reflexivity|].
      destruct (Qlt_le_dec hi x) as [H'|H']; [assumption|].
      rewrite Heq. apply Qle_antisym; assumption.
Qed.

Lemma clamp_bounds (lo hi x : Q) :
  (lo <= hi)%Q -> (lo <= clamp lo hi x <= hi)%Q.
Proof.
  intros Hlh. unfold clamp.
  destruct (Qlt_le_dec x lo) as [H|H].
  - split; [apply Qle_refl | assumption].
  - destruct (Qlt_le_dec hi x) as [H'|H'].
    + split; [assumption | apply Qle_refl].
    + split; assumption.
Qed.

Lemma clamp_compat (lo hi x y : Q) :
  (x == y)%Q -> (clamp lo hi x == clamp lo hi y)%Q.
Proof.
  intros Hxy. unfold clamp.
  destruct (Qlt_le_dec x lo) as [H1|H1], (Qlt_le_dec y lo) as [H2|H2];
    try reflexivity.
  - exfalso. rewrite Hxy in H1. eapply Qlt_irrefl, Qlt_le_trans; eauto.
  - exfalso. rewrite Hxy in H1. eapply Qlt_irrefl, Qlt_le_trans; eauto.
  - destruct (Qlt_le_dec hi x) as [H3|H3], (Qlt_le_dec hi y) as [H4|H4];
      try reflexivity; try assumption.
    + exfalso. rewrite Hxy in H3. eapply Qlt_irrefl, Qlt_le_trans; eauto.
    + exfalso. rewrite Hxy in H3. eapply Qlt_irrefl, Qlt_le_trans; eauto.
Qed.

Lemma max_min_bounds (lo hi x : Q) :
  (lo <= hi)%Q -> (lo <= Py.max lo (Py.min hi x) <= hi)%Q.
Proof.
  intros Hlh. rewrite (max_min_clamp lo hi x Hlh). apply clamp_bounds, Hlh.
Qed.

(** ** Job progress *)

Section JobProgress.

Import JobManager.

Lemma update_progress_in_range j p m c :
  in_range (progress (update_progress j p m c)).
Proof.
  unfold in_range. simpl.
  pose proof (max_min_bounds 0.0 100.0 p) as H.
  assert (Hle : (0.0 <= 100.0)%Q) by (unfold Qle; simpl; lia).
  destruct (H Hle) as [H1 H2]. split.
  - eapply Qle_trans; [|apply H1]. unfold Qle; simpl; lia.
  - eapply Qle_trans; [apply H2|]. unfold Qle; simpl; lia.
Qed.

Lemma apply_in_range j call :
  in_range (progress j) -> in_range (progress (apply j call)).
Proof.
  intros Hj. destruct call as [[p m | st m | r | e] c]; simpl apply.
  - apply update_progress_in_range.
  - exact Hj.
  - unfold in_range; simpl. split; unfold Qle; simpl; lia.
  - exact Hj.
Qed.

Lemma after_in_range calls : forall j,
  in_range (progress j) -> in_range (progress (after j calls)).
Proof.
  induction calls as [|call calls IH]; intros j Hj; simpl.
  - exact Hj.
  - apply IH, apply_in_range, Hj.
Qed.

Lemma observed_in_range calls : forall j,
  in_range (progress j) -> List.Forall in_range (observed j calls).
Proof.
  induction calls as [|call calls IH]; intros j Hj; simpl.
  - constructor.
  - constructor; [|apply IH]; apply apply_in_range, Hj.
Qed.

Lemma init_in_range job_id clock : in_range (progress (init job_id clock)).
Proof. unfold in_range; simpl. split; unfold Qle; simpl; lia. Qed.

(** C10.  A new job has progress 0; [update_progress] stores its argument
    clamped into [[0, 100]]; [set_result] stores 100; so after any sequence
    of method calls, and at every moment a client may poll, the stored
    progress lies in [[0, 100]]. *)
Theorem job_progress_stays_in_range
    (job_id : string) (clock : Z) (calls : list (Mutation * Z)) :
  (progress (init job_id clock) == 0)%Q
  /\ (forall j p m c,
        in_range (progress (update_progress j p m c))
        /\ ((p < 0)%Q -> (progress (update_progress j p m c) == 0)%Q)
        /\ ((100 < p)%Q -> (progress (update_progress j p m c) == 100)%Q)
        /\ ((0 <= p <= 100)%Q -> (progress (update_progress j p m c) == p)%Q))
  /\ (forall j r c, (progress (set_result j r c) == 100)%Q)
  /\ in_range (progress (after (init job_id clock) calls))
  /\ List.Forall in_range (observed (init job_id clock) calls).
Proof.
  split; [reflexivity|].
  split.
  { intros j p m c. split; [apply update_progress_in_range|].
    assert (Hle : (0.0 <= 100.0)%Q) by (unfold Qle; simpl; lia).
    assert (H0 : (0.0 == 0)%Q) by reflexivity.
    assert (H100 : (100.0 == 100)%Q) by reflexivity.
    pose proof (max_min_clamp 0.0 100.0 p Hle) as Hc.
    simpl progress. unfold clamp in Hc.
    repeat split; intros Hp; rewrite Hc.
    - destruct (Qlt_le_dec p 0.0) as [H|H]; [exact H0|].
      exfalso. rewrite H0 in H. eapply Qlt_irrefl, Qlt_le_trans; eauto.
    - destruct (Qlt_le_dec p 0.0) as [H|H].
      { exfalso. rewrite H0 in H. eapply Qlt_irrefl, Qlt_trans; [apply H|].
        eapply Qlt_trans; [|apply Hp]. reflexivity. }
      destruct (Qlt_le_dec 100.0 p) as [H'|H']; [exact H100|].
      exfalso. rewrite H100 in H'. eapply Qlt_irrefl, Qlt_le_trans; eauto.
    - destruct Hp as [Hp1 Hp2].
      destruct (Qlt_le_dec p 0.0) as [H|H].
      { exfalso. rewrite H0 in H. eapply Qlt_irrefl, Qlt_le_trans; eauto. }
      destruct (Qlt_le_dec 100.0 p) as [H'|H']; [|reflexivity].
      exfalso. rewrite H100 in H'. eapply Qlt_irrefl, Qlt_le_trans; eauto. }
  split; [intros; reflexivity|].
  split.
  - apply after_in_range, init_in_range.
  - apply observed_in_range, init_in_range.
Qed.

End JobProgress.

(** ** Confidence *)

Section Confidence.

Import Models WhisperService.

Lemma sum_fold_right (xs : list Q) : forall acc,
  (fold_left Qplus xs acc == acc + fold_right Qplus 0%Q xs)%Q.
Proof.
  induction xs as [|x xs IH]; intros acc; simpl.
  - ring.
  - rewrite IH. ring.
Qed.

Lemma sum_mean (xs : list Q) :
  (Py.sum xs / inject_Z (Z.of_nat (length xs)) == mean xs)%Q.
Proof.
  unfold Py.sum, mean. rewrite sum_fold_right. 
  rewrite Qplus_0_l. reflexivity.
Qed.

Lemma confidences_nil (segs : list SegmentDict) :
  confidences segs = [] <-> (forall seg, In seg segs -> seg_avg_logprob seg = None).
Proof.
  unfold confidences. induction segs as [|s segs IH]; simpl.
  - split; [intros _ seg [] | reflexivity].
  - destruct (seg_avg_logprob s) eqn:E; simpl.
    + split; [discriminate|]. intros H. specialize (H s (or_introl eq_refl)). congruence.
    + rewrite IH. split.
      * intros H seg [<-|Hin]; [assumption | apply H, Hin].
      * intros H seg Hin. apply H. right. exact Hin.
Qed.

Lemma confidences_are_carried (segs : list SegmentDict) :
  confidences segs = carried_logprobs segs.
Proof.
  unfold confidences. induction segs as [|seg segs IH]; [reflexivity|].
  cbn [omap list_omap carried_logprobs].
  destruct (seg_avg_logprob seg); cbn; rewrite <- IH; reflexivity.
Qed.

(** C9.  [_create_transcription_response] returns; if some segment has a
    log-probability, [confidence_score] is the mean of the log-probabilities
    that the segments carry, mapped by [(avg + 1) / 2] and clamped into
    [[0, 1]], hence in [[0, 1]]; if no segment has one, it is [None]. *)
Theorem confidence_is_clamped_mean_logprob
    (model_size : option string) (whisper_result : WhisperResult)
    (file_info : option Utils.ValidationInfo) (processing_time : Q) :
  let segs := default [] (wr_segments whisper_result) in
  let logprobs := carried_logprobs segs in
  exists response,
    _create_transcription_response model_size (Some whisper_result)
      file_info processing_time = Ok response
    /\ ((exists seg lp, In seg segs /\ seg_avg_logprob seg = Some lp) ->
        exists c,
          confidence_score response = Some c
          /\ (c == clamp 0 1 ((mean logprobs + 1) / 2))%Q
          /\ (0 <= c <= 1)%Q)
    /\ ((forall seg, In seg segs -> seg_avg_logprob seg = None) ->
        confidence_score response = None).
Proof.
  intros segs logprobs.
  assert (Hcarried : logprobs = confidences segs)
    by (symmetry; apply confidences_are_carried).
  clearbody logprobs. subst logprobs.
  set (logprobs := confidences segs).
  eexists. split; [reflexivity|].
  simpl confidence_score. unfold overall_confidence.
  subst logprobs segs.
  destruct (wr_segments whisper_result) as [[|s segs]|]; simpl default.
  - split; [intros (seg & lp & [] & _) | reflexivity].
  - split.
    + intros (seg & lp & Hin & Hlp).
      destruct (confidences (s :: segs)) as [|q qs] eqn:E.
      { pose proof (proj1 (confidences_nil _) E seg Hin) as Hn. congruence. }
      eexists. split; [reflexivity|].
      assert (H01 : (0 <= 1)%Q) by (unfold Qle; simpl; lia).
      split.
      * rewrite (max_min_clamp 0 1 _ H01).
        apply clamp_compat.
        rewrite (sum_mean (q :: qs)). reflexivity.
      * apply max_min_bounds, H01.
    + intros Hnone. rewrite (proj2 (confidences_nil _) Hnone). reflexivity.
  - split; [intros (seg & lp & [] & _) | reflexivity].
Qed.

(** Two segments with log-probabilities -0.25 and -0.5 around one without:
    the mean is -0.375 and the confidence 0.3125. *)
Lemma confidence_of_three_segments :
  let segs :=
    [ mkSegmentDict 0.0 2.5 "Hello there." (Some (-0.25)%Q) (Some 0.01%Q);
      mkSegmentDict 2.5 3.0 "" None None;
      mkSegmentDict 3.0 5.0 "General Kenobi." (Some (-0.5)%Q) (Some 0.02%Q) ] in
  exists response,
    _create_transcription_response (Some "base"%string)
      (Some (mkWhisperResult (Some "Hello there. General Kenobi."%string)
               (Some "en"%string) (Some segs)))
      None 1.5 = Ok response
    /\ confidence_score response = Some (1250 # 4000)
    /\ (1250 # 4000 == 0.3125)%Q.
Proof. cbv zeta. eexists. split; [reflexivity|]. split; reflexivity. Qed.

End Confidence.

(** ** Rules of the trace logic *)

Section Rules.

Context {S : Type} `{HasTrace S}.

Lemma wpt_ret {A} (a : A) (s : S) Q :
  Q (Ok a) s [] -> wpt (ret a) s Q.
Proof. intros HQ. exists []. rewrite app_nil_r. auto. Qed.

Lemma wpt_raise {A} (e : exn) (s : S) (Q : PyResult A -> S -> list Event -> Prop) :
  Q (Raise e) s [] -> wpt (raise e) s Q.
Proof. intros HQ. exists []. rewrite app_nil_r. auto. Qed.

Lemma wpt_bind {A B} (m : St S A) (k : A -> St S B) (s : S) Q :
  wpt m s (fun r s' evs =>
             match r with
             | Ok a => wpt (k a) s' (fun r' s'' evs' => Q r' s'' (evs ++ evs'))
             | Raise e => Q (Raise e) s' evs
             end) ->
  wpt (bind m k) s Q.
Proof.
  unfold wpt, bind. intros (evs & Htr & HQ).
  destruct (m s) as [[a|e] s']; simpl in *.
  - destruct HQ as (evs' & Htr' & HQ). exists (evs ++ evs').
    rewrite Htr', Htr, app_assoc. auto.
  - exists evs. auto.
Qed.

Lemma wpt_try_catch {A} (m : St S A) (h : exn -> St S A) (s : S) Q :
  wpt m s (fun r s' evs =>
             match r with
             | Ok a => Q (Ok a) s' evs
             | Raise e => wpt (h e) s' (fun r' s'' evs' => Q r' s'' (evs ++ evs'))
             end) ->
  wpt (try_catch m h) s Q.
Proof.
  unfold wpt, try_catch. intros (evs & Htr & HQ).
  destruct (m s) as [[a|e] s']; simpl in *.
  - exists evs. auto.
  - destruct HQ as (evs' & Htr' & HQ). exists (evs ++ evs').
    rewrite Htr', Htr, app_assoc. auto.
Qed.

Lemma wpt_mono {A} (m : St S A) (s : S) (Q Q' : PyResult A -> S -> list Event -> Prop) :
  wpt m s Q -> (forall r s' evs, Q r s' evs -> Q' r s' evs) -> wpt m s Q'.
Proof. intros (evs & Htr & HQ) Himp. exists evs. auto. Qed.

End Rules.

Lemma wpt_now (w : World) Q :
  Q (Ok (length (trace w))) w [] -> wpt now w Q.
Proof. intros HQ. exists []. simpl. unfold trace_of, world_trace. rewrite app_nil_r. auto. Qed.

Lemma wpt_log (e : Event) (w : World) Q :
  Q (Ok tt) (mkWorld (fs w) (trace w ++ [e])) [e] -> wpt (log e) w Q.
Proof. intros HQ. exists [e]. auto. Qed.

Lemma wpt_lookup_file (path : string) (w : World) Q :
  Q (Ok (fs w !! path)) w [] -> wpt (lookup_file path) w Q.
Proof. intros HQ. exists []. simpl. unfold trace_of, world_trace. rewrite app_nil_r. auto. Qed.

Lemma wpt_write_file (path content : string) (w : World) Q :
  Q (Ok tt) (mkWorld (<[path := content]> (fs w)) (trace w)) [] ->
  wpt (write_file path content) w Q.
Proof. intros HQ. exists []. simpl. unfold trace_of, world_trace. simpl. rewrite app_nil_r. auto. Qed.

Lemma wpt_delete_file (path : string) (w : World) Q :
  Q (Ok tt) (mkWorld (delete path (fs w)) (trace w)) [] ->
  wpt (delete_file path) w Q.
Proof. intros HQ. exists []. simpl. unfold trace_of, world_trace. simpl. rewrite app_nil_r. auto. Qed.

Lemma wpt_recorded {A} (m : M A) (ev : bool -> Event) (w : World) Q :
  wpt m w (fun r w' evs =>
             Q r (mkWorld (fs w') (trace w' ++ [ev (is_ok r)]))
               (evs ++ [ev (is_ok r)])) ->
  wpt (recorded m ev) w Q.
Proof.
  unfold wpt, recorded. intros (evs & Htr & HQ).
  destruct (m w) as [r w']; simpl in *.
  exists (evs ++ [ev (is_ok r)]). unfold trace_of, world_trace in *. simpl.
  split; [rewrite Htr, app_assoc; reflexivity | exact HQ].
Qed.

Lemma wpt_in_world {A} (m : M A) (s : Utils.Frame * World) Q :
  wpt m (snd s) (fun r w' evs => Q r (fst s, w') evs) ->
  wpt (Utils.in_world m) s Q.
Proof.
  unfold wpt, Utils.in_world. intros (evs & Htr & HQ).
  destruct (m (snd s)) as [r w']; simpl in *. exists evs. auto.
Qed.

Lemma wpt_run_frame {A} (locals : Utils.Frame) (m : Utils.F A) (w : World) Q :
  wpt m (locals, w) (fun r s' evs => Q r (snd s') evs) ->
  wpt (Utils.run_frame locals m) w Q.
Proof.
  unfold wpt, Utils.run_frame. intros (evs & Htr & HQ).
  destruct (m (locals, w)) as [r s']; simpl in *. exists evs. auto.
Qed.

Lemma wpt_get_converted_file (s : Utils.Frame * World) Q :
  Q (Ok (Utils.converted_file (fst s))) s [] -> wpt Utils.get_converted_file s Q.
Proof. intros HQ. exists []. simpl. rewrite app_nil_r. auto. Qed.

Lemma wpt_get_file_path (s : Utils.Frame * World) Q :
  Q (Ok (Utils.file_path (fst s))) s [] -> wpt Utils.get_file_path s Q.
Proof. intros HQ. exists []. simpl. rewrite app_nil_r. auto. Qed.

Lemma wpt_set_converted_file v (s : Utils.Frame * World) Q :
  Q (Ok tt) (Utils.mkFrame v (Utils.file_path (fst s)), snd s) [] ->
  wpt (Utils.set_converted_file v) s Q.
Proof. intros HQ. exists []. simpl. unfold trace_of, frame_trace. simpl. rewrite app_nil_r. auto. Qed.

Lemma wpt_set_file_path v (s : Utils.Frame * World) Q :
  Q (Ok tt) (Utils.mkFrame (Utils.converted_file (fst s)) v, snd s) [] ->
  wpt (Utils.set_file_path v) s Q.
Proof. intros HQ. exists []. simpl. unfold trace_of, frame_trace. simpl. rewrite app_nil_r. auto. Qed.

(** From a [wpt] fact to the run itself. *)
Lemma wpt_run {A} (m : M A) (w : World) Q :
  wpt m w Q -> Q (fst (m w)) (snd (m w)) (since w (snd (m w))).
Proof.
  intros (evs & Htr & HQ). unfold since.
  unfold trace_of, world_trace in Htr. rewrite Htr, drop_app_length. exact HQ.
Qed.

Lemma wpt_lift {A} (r : foreign + A) (w : World) Q :
  match r with
  | inl e => Q (Raise (Foreign e)) w []
  | inr a => Q (Ok a) w []
  end ->
  wpt (lift r) w Q.
Proof. destruct r; intros HQ; [apply wpt_raise | apply wpt_ret]; exact HQ. Qed.

Ltac case_on x :=
  lazymatch x with
  | match ?y with _ => _ end => case_on y
  | _ => destruct x eqn:?
  end.

Ltac wp_step :=
  lazymatch goal with
  | |- wpt (bind _ _) _ _ => apply wpt_bind
  | |- wpt (try_catch _ _) _ _ => apply wpt_try_catch
  | |- wpt (ret _) _ _ => apply wpt_ret
  | |- wpt (raise _) _ _ => apply wpt_raise
  | |- wpt now _ _ => apply wpt_now
  | |- wpt (log _) _ _ => apply wpt_log
  | |- wpt (lookup_file _) _ _ => apply wpt_lookup_file
  | |- wpt (write_file _ _) _ _ => apply wpt_write_file
  | |- wpt (delete_file _) _ _ => apply wpt_delete_file
  | |- wpt (lift _) _ _ => apply wpt_lift
  | |- wpt (recorded _ _) _ _ => apply wpt_recorded
  | |- wpt (Utils.in_world _) _ _ => apply wpt_in_world
  | |- wpt (Utils.run_frame _ _) _ _ => apply wpt_run_frame
  | |- wpt Utils.get_converted_file _ _ => apply wpt_get_converted_file
  | |- wpt Utils.get_file_path _ _ => apply wpt_get_file_path
  | |- wpt (Utils.set_converted_file _) _ _ => apply wpt_set_converted_file
  | |- wpt (Utils.set_file_path _) _ _ => apply wpt_set_file_path
  | |- wpt (if ?c then _ else _) _ _ => case_on c
  | |- wpt (match ?x with _ => _ end) _ _ => case_on x
  | |- match ?x with _ => _ end => case_on x
  end; cbv beta iota zeta; cbn [fst snd fs trace].

Ltac wp_unfold :=
  lazymatch goal with
  | |- wpt (Utils.os_call _ _ _ _) _ _ => unfold Utils.os_call
  | |- wpt (Utils.os_path_exists _) _ _ => unfold Utils.os_path_exists
  | |- wpt (Utils.os_path_getsize _ _) _ _ => unfold Utils.os_path_getsize
  | |- wpt (Utils.read_prefix _ _ _) _ _ => unfold Utils.read_prefix
  | |- wpt (Utils.os_remove _ _) _ _ => unfold Utils.os_remove
  | |- wpt (Utils.os_makedirs _ _) _ _ => unfold Utils.os_makedirs
  | |- wpt (Utils.subprocess_run _ _ _) _ _ => unfold Utils.subprocess_run
  | |- wpt (Utils.closed_file) _ _ => unfold Utils.closed_file
  | |- wpt (Utils.create_temp_file _ _ _) _ _ => unfold Utils.create_temp_file
  | |- wpt (Utils.cleanup_temp_file _ _) _ _ => unfold Utils.cleanup_temp_file
  | |- wpt (Utils.librosa_get_duration_ _ _) _ _ => unfold Utils.librosa_get_duration_
  | |- wpt (Utils.librosa_get_samplerate_ _ _) _ _ => unfold Utils.librosa_get_samplerate_
  | |- wpt (Utils.librosa_load_ _ _) _ _ => unfold Utils.librosa_load_
  | |- wpt (Utils.librosa_resample_ _ _ _ _) _ _ => unfold Utils.librosa_resample_
  | |- wpt (Utils.librosa_normalize_ _ _) _ _ => unfold Utils.librosa_normalize_
  | |- wpt (Utils.sf_write_ _ _ _ _) _ _ => unfold Utils.sf_write_
  | |- wpt (report _ _) _ _ => unfold report
  end.

Ltac wp := repeat first [wp_step | wp_unfold].

Lemma is_class_true (c : PyClass) (e : foreign) :
  is_class c (Foreign e) = true <-> exc_class e = c.
Proof. simpl. destruct c, (exc_class e); split; congruence. Qed.

Lemma is_class_false (c : PyClass) (e : foreign) :
  is_class c (Foreign e) = false <-> exc_class e <> c.
Proof. simpl. destruct c, (exc_class e); split; congruence. Qed.

Lemma wpt_subprocess_run (env : Env) (cmd : list string) (tmo : Z) (w : World) Q :
  (let result := run_result (run_tool env (length (trace w)) cmd) in
   Q (match result with inl e => Raise (Foreign e) | inr cp => Ok cp end)
     (mkWorld (files_after_run env cmd w) (trace w ++ [EvRun cmd tmo result]))
     [EvRun cmd tmo result]) ->
  wpt (Utils.subprocess_run env cmd tmo) w Q.
Proof.
  cbv zeta. intros HQ. unfold Utils.subprocess_run, files_after_run in *.
  wp; cbn [app] in *; assumption.
Qed.

Lemma wpt_passive (f : Q -> string -> M unit) (p : Q) (msg : string) (w : World) Q :
  passive (Some f) ->
  (forall evs, forallb is_progress evs = true ->
     Q (Ok tt) (mkWorld (fs w) (trace w ++ evs)) evs) ->
  wpt (f p msg) w Q.
Proof.
  intros Hp HQ. destruct (Hp p msg w) as (evs & Hrun & Hevs).
  exists evs. rewrite Hrun. split; [reflexivity | apply HQ, Hevs].
Qed.

Lemma wpt_notify (cb : Callback) (p : Q) (msg : string) (w : World) Q :
  passive cb ->
  (forall evs, forallb is_progress evs = true ->
     Q (Ok tt) (mkWorld (fs w) (trace w ++ evs)) evs) ->
  wpt (Utils.notify cb p msg) w Q.
Proof.
  intros Hp HQ. destruct cb as [f|]; simpl.
  - apply wpt_passive; assumption.
  - apply wpt_ret. specialize (HQ [] eq_refl). rewrite app_nil_r in HQ.
    destruct w; exact HQ.
Qed.

Lemma passive_report : passive (Some report).
Proof. intros p msg w. exists [EvProgress p msg]. split; reflexivity. Qed.

Lemma passive_update_progress (settings : Settings) (cb : Callback)
    (f : Q -> Q) :
  passive cb ->
  passive (Some (fun p m => Utils.update_progress settings cb (f p) m)).
Proof.
  intros Hp p msg w. unfold Utils.update_progress. destruct cb as [g|].
  - apply Hp.
  - exists []. rewrite app_nil_r. destruct w. split; reflexivity.
Qed.

Lemma wpt_update_progress (settings : Settings) (cb : Callback) (p : Q)
    (msg : string) (w : World) Q :
  passive cb ->
  (forall evs, forallb is_progress evs = true ->
     Q (Ok tt) (mkWorld (fs w) (trace w ++ evs)) evs) ->
  wpt (Utils.update_progress settings cb p msg) w Q.
Proof.
  intros Hp HQ. unfold Utils.update_progress. destruct cb as [f|].
  - apply wpt_passive; assumption.
  - apply wpt_ret. specialize (HQ [] eq_refl). rewrite app_nil_r in HQ.
    destruct w; exact HQ.
Qed.

Ltac wp_call :=
  lazymatch goal with
  | |- wpt (Utils.subprocess_run _ _ _) _ _ =>
      apply wpt_subprocess_run; cbv zeta
  | |- wpt (Utils.notify _ _ _) _ _ =>
      apply wpt_notify; [assumption | intros ? ?]
  | |- wpt (Utils.update_progress _ _ _ _) _ _ =>
      apply wpt_update_progress; [assumption | intros ? ?]
  end; cbn [fst snd fs trace].

Ltac wp_go := repeat first [wp_step | wp_call | wp_unfold].

(** ** Tactics for closed statements on sample inputs *)

Ltac conjuncts := repeat lazymatch goal with |- _ /\ _ => split end.

Ltac find_event := solve [repeat first [left; reflexivity | right]].

(** ** Integrity prober *)

Ltac run_events H :=
  let cmd := fresh "cmd" in
  let tmo := fresh "tmo" in
  let e := fresh "e" in
  let Hin := fresh "Hin" in
  let Hcls := fresh "Hcls" in
  destruct H as (cmd & tmo & e & Hin & Hcls);
  cbn [In app] in Hin;
  repeat match type of Hin with
         | _ \/ _ => destruct Hin as [Hin|Hin]
         | False => destruct Hin
         end;
  try discriminate Hin;
  try (injection Hin as ? ? ?; subst).

(** C7.  [validate_audio_file_integrity]: when a probe invocation of the
    call times out the result is [(False, "File validation timed out")], and
    when a probe invocation finds no executable the result is
    [(True, None)]: an absent tool is never reported as a failure. *)
Theorem integrity_probe_timeout_and_missing_tool
    (settings : Settings) (env : Env) (path : string) (w : World) :
  let run := Utils.validate_audio_file_integrity settings env path w in
  (timed_out (since w (snd run)) ->
     fst run = Ok (false, Some "File validation timed out"%string))
  /\ (tool_missing (since w (snd run)) -> fst run = Ok (true, None)).
Proof.
  cbv zeta.
  apply (wpt_run (Utils.validate_audio_file_integrity settings env path) w
           (fun r w' evs =>
              (timed_out evs -> r = Ok (false, Some "File validation timed out"%string))
              /\ (tool_missing evs -> r = Ok (true, None)))).
  unfold Utils.validate_audio_file_integrity.
  wp_go; cbn [app];
    repeat match goal with
           | H : is_class _ (Foreign _) = true |- _ => apply is_class_true in H
           | H : is_class _ (Foreign _) = false |- _ => apply is_class_false in H
           end;
    (split; intros Hev; run_events Hev; try reflexivity; try congruence).
Qed.

Section ProberSamples.

Import Sample.

Lemma integrity_probe_witness :
  fst (Utils.validate_audio_file_integrity settings
         (every_run (inl timeout_error)) "/in/a.mp3" (disk "/in/a.mp3" "ID3"))
  = Ok (false, Some "File validation timed out"%string)
  /\ fst (Utils.validate_audio_file_integrity settings
            (every_run (inl missing_tool_error)) "/in/a.mp3"
            (disk "/in/a.mp3" "ID3"))
     = Ok (true, None).
Proof.
  split.
  - pose proof (integrity_probe_timeout_and_missing_tool settings
                  (every_run (inl timeout_error)) "/in/a.mp3"
                  (disk "/in/a.mp3" "ID3")) as H.
    cbv zeta in H. apply (proj1 H).
    exists (Utils.ffprobe_audio_cmd "/in/a.mp3"), 30, timeout_error.
    split; [vm_compute; left; reflexivity | reflexivity].
  - pose proof (integrity_probe_timeout_and_missing_tool settings
                  (every_run (inl missing_tool_error)) "/in/a.mp3"
                  (disk "/in/a.mp3" "ID3")) as H.
    cbv zeta in H. apply (proj2 H).
    exists (Utils.ffprobe_audio_cmd "/in/a.mp3"), 30, missing_tool_error.
    split; [vm_compute; left; reflexivity | reflexivity].
Defined.

End ProberSamples.

(** ** Sniffer *)

Lemma tool_runs_app (a b : list Event) :
  tool_runs (a ++ b) = tool_runs a ++ tool_runs b.
Proof. apply List.filter_app. Qed.

Lemma has_content_spec (env : Env) (path : string) (w : World) :
  wpt (Utils.has_content env path) w
    (fun r w' evs =>
       exists b, r = Ok b
         /\ tool_runs evs = []
         /\ fs w' = fs w
         /\ (fs w !! path = None \/ fs w !! path = Some ""%string -> b = false)
         /\ (forall content,
               fs w !! path = Some content -> content <> ""%string ->
               os_fault env (length (trace w)) OpGetsize path = None ->
               b = true)).
Proof.
  unfold Utils.has_content. wp_go; cbn [app];
    (eexists; split; [reflexivity|]; split; [reflexivity|]; split; [reflexivity|]).
  all: split; [intros [Hf|Hf] | intros content Hf Hne Hfault]; try congruence.
  all: try (rewrite Hf in *; simplify_eq; simpl in *; try congruence; try lia).
  match goal with
  | H : (Z.of_nat (String.length ?c) =? 0) = true, Hne : ?c <> ""%string |- _ =>
      destruct c; [congruence | apply Z.eqb_eq in H; simpl in H; lia]
  end.
Qed.

Lemma detect_by_probe_spec (env : Env) (path : string) (w : World) :
  wpt (Utils.detect_by_probe env path) w
    (fun r w' evs => exists answer, r = Ok answer).
Proof.
  unfold Utils.detect_by_probe.
  wp_go; eexists; reflexivity.
Qed.

Lemma sniffer_runs
    (env : Env) (path : string) (w : World) :
  let run := Utils.detect_audio_format env path w in
  (exists answer, fst run = Ok answer)
  /\ (fs w !! path = None \/ fs w !! path = Some ""%string ->
      fst run = Ok None /\ tool_runs (since w (snd run)) = [])
  /\ (forall content,
        fs w !! path = Some content -> content <> ""%string ->
        os_fault env (length (trace w)) OpGetsize path = None ->
        exists tag, fst run = Ok (Some tag)).
Proof.
  cbv zeta.
  apply (wpt_run (Utils.detect_audio_format env path) w
           (fun r w' evs =>
              (exists answer, r = Ok answer)
              /\ (fs w !! path = None \/ fs w !! path = Some ""%string ->
                  r = Ok None /\ tool_runs evs = [])
              /\ (forall content,
                    fs w !! path = Some content -> content <> ""%string ->
                    os_fault env (length (trace w)) OpGetsize path = None ->
                    exists tag, r = Ok (Some tag)))).
  unfold Utils.detect_audio_format.
  wp_step.
  eapply wpt_mono; [apply has_content_spec|].
  intros r w' evs (b & -> & Hruns & Hfs & Hno & Hyes).
  destruct b; cbv beta iota; cbn [negb].
  - (* there is content to look at *)
    wp_step. wp_step.
    eapply wpt_mono; [apply detect_by_probe_spec|].
    intros r1 w1 evs1 (answer & ->).
    unfold Utils.detect_by_signature.
    wp_go.
    all: (split; [eexists; reflexivity|]);
         (split; [intros Hf; specialize (Hno Hf); discriminate
                 | intros; eexists; reflexivity]).
  - wp_step. rewrite app_nil_r.
    split; [eexists; reflexivity|].
    split; [intros _; split; [reflexivity | exact Hruns]|].
    intros content Hc Hne Hfault. specialize (Hyes content Hc Hne Hfault). discriminate.
Qed.

Lemma sniffer_falls_back_to_extension (env : Env) (path : string) (w : World) :
  let w1 := snd (Utils.has_content env path w) in
  let w2 := snd (Utils.detect_by_probe env path w1) in
  fst (Utils.has_content env path w) = Ok true ->
  fst (Utils.detect_by_probe env path w1) = Ok None ->
  (forall tag, fst (Utils.detect_by_signature env path w2) <> Ok (Some tag)) ->
  fst (Utils.detect_audio_format env path w)
  = Ok (Some (Utils.get_file_extension path)).
Proof.
  cbv zeta. unfold Utils.detect_audio_format, bind, try_catch, ret.
  destruct (Utils.has_content env path w) as [r0 w1]; cbn [fst snd].
  intros ->. cbn [negb].
  destruct (Utils.detect_by_probe env path w1) as [r1 w2]; cbn [fst snd].
  intros ->.
  destruct (Utils.detect_by_signature env path w2) as [[[tag|]|e] w3];
    cbn [fst snd]; intros Hsig; try reflexivity.
  exfalso. apply (Hsig tag). reflexivity.
Qed.

(** C8, amended.  [detect_audio_format] never raises; for a missing or
    empty file it returns [None] without invoking any tool; for a file with
    content whose size can be read it returns a string, never [None]; and
    when neither the probe nor the signature table yields a tag that string
    is the file name's extension, the empty string when there is none. *)
Theorem sniffer_never_raises_and_falls_back_to_extension
    (env : Env) (path : string) (w : World) :
  let run := Utils.detect_audio_format env path w in
  (exists answer, fst run = Ok answer)
  /\ (fs w !! path = None \/ fs w !! path = Some ""%string ->
      fst run = Ok None /\ tool_runs (since w (snd run)) = [])
  /\ (forall content,
        fs w !! path = Some content -> content <> ""%string ->
        os_fault env (length (trace w)) OpGetsize path = None ->
        exists tag, fst run = Ok (Some tag))
  /\ (let w1 := snd (Utils.has_content env path w) in
      let w2 := snd (Utils.detect_by_probe env path w1) in
      fst (Utils.has_content env path w) = Ok true ->
      fst (Utils.detect_by_probe env path w1) = Ok None ->
      (forall tag,
         fst (Utils.detect_by_signature env path w2) <> Ok (Some tag)) ->
      fst run = Ok (Some (Utils.get_file_extension path))).
Proof.
  cbv zeta.
  destruct (sniffer_runs env path w) as (Htotal & Hshort & Hcontent).
  split; [exact Htotal|]. split; [exact Hshort|]. split; [exact Hcontent|].
  apply sniffer_falls_back_to_extension.
Qed.

Section SnifferSamples.

Import Sample.

(** C8 as stated fails: a file with content, no usable probe answer, no
    known signature and no extension is sniffed as the empty string. *)
Lemma sniffer_returns_empty_string :
  let w := disk "/in/blob" "plain text, not media" in
  let env := every_run (completed 1 "Invalid data found") in
  Utils.get_file_extension "/in/blob" = ""%string
  /\ fst (Utils.detect_by_probe env "/in/blob" w) = Ok None
  /\ fst (Utils.detect_by_signature env "/in/blob" w) = Ok None
  /\ fst (Utils.detect_audio_format env "/in/blob" w) = Ok (Some ""%string)
  /\ fst (Utils.detect_audio_format env "/in/blob" w) <> Ok None.
Proof.
  cbv zeta. conjuncts; try (vm_compute; reflexivity).
  vm_compute. discriminate.
Qed.

End SnifferSamples.
(** ** File validation *)

Lemma has_content_empty (env : Env) (path : string) (w : World) :
  fs w !! path = Some ""%string ->
  wpt (Utils.has_content env path) w
    (fun r w' evs => r = Ok false /\ evs = [EvGetsize path] /\ fs w' = fs w).
Proof.
  intros Hempty. unfold Utils.has_content.
  wp_go; cbn [app]; rewrite ?Hempty in *; simplify_eq; try discriminate; auto.
Qed.

Lemma detect_empty_spec (env : Env) (path : string) (w : World) :
  fs w !! path = Some ""%string ->
  wpt (Utils.detect_audio_format env path) w
    (fun r w' evs => r = Ok None /\ evs = [EvGetsize path] /\ fs w' = fs w).
Proof.
  intros Hempty. unfold Utils.detect_audio_format.
  wp_step.
  eapply wpt_mono; [apply has_content_empty, Hempty|].
  intros r w' evs (-> & -> & Hfs). cbv beta iota; cbn [negb].
  wp_step. auto.
Qed.

Lemma get_audio_info_spec (env : Env) (path : string) (w : World) :
  wpt (Utils.get_audio_info env path) w
    (fun r w' evs => tool_runs evs = [] /\ fs w' = fs w).
Proof.
  unfold Utils.get_audio_info, Utils.librosa_get_duration_,
    Utils.librosa_get_samplerate_.
  wp_go; cbn [app]; auto.
Qed.

(** C6, amended.  For a zero-byte file whose size can be read and a
    non-negative size limit: [detect_audio_format] returns [None] and
    [validate_audio_file] invokes no external tool; validation raises
    [InvalidAudioFormat], after two size queries and nothing else, exactly
    when the extension is empty or unsupported, and otherwise returns a
    valid record with no detected format. *)
Theorem zero_byte_file_is_judged_by_its_extension
    (settings : Settings) (env : Env) (path : string) (w : World) :
  fs w !! path = Some ""%string ->
  (forall t, os_fault env t OpGetsize path = None) ->
  0 <= max_file_size_bytes settings ->
  let sniff := Utils.detect_audio_format env path w in
  let run := Utils.validate_audio_file settings env path w in
  let ext := Utils.get_file_extension path in
  (fst sniff = Ok None /\ tool_runs (since w (snd sniff)) = [])
  /\ tool_runs (since w (snd run)) = []
  /\ (if Py.truthy ext && Py.elem ext (supported_formats_set settings)
      then exists info,
             fst run = Ok info
             /\ Utils.vi_valid info = true
             /\ Utils.vi_format info = None
      else fst run
           = Raise (InvalidAudioFormat (Py.or_else ext "unknown")
                      (supported_formats settings))
           /\ since w (snd run) = [EvGetsize path; EvGetsize path]).
Proof.
  intros Hempty Hfault Hmax. cbv zeta. split.
  { apply (wpt_run (Utils.detect_audio_format env path) w
             (fun r w' evs => r = Ok None /\ tool_runs evs = [])).
    eapply wpt_mono; [apply detect_empty_spec, Hempty|].
    intros r w' evs (-> & -> & _). auto. }
  apply (wpt_run (Utils.validate_audio_file settings env path) w
           (fun r w' evs =>
              tool_runs evs = []
              /\ (if Py.truthy (Utils.get_file_extension path)
                     && Py.elem (Utils.get_file_extension path)
                          (supported_formats_set settings)
                  then exists info,
                         r = Ok info
                         /\ Utils.vi_valid info = true
                         /\ Utils.vi_format info = None
                  else r = Raise (InvalidAudioFormat
                                    (Py.or_else (Utils.get_file_extension path)
                                       "unknown")
                                    (supported_formats settings))
                       /\ evs = [EvGetsize path; EvGetsize path]))).
  unfold Utils.validate_audio_file.
  wp_go; rewrite ?Hfault in *;
    repeat match goal with
           | H : context [match fs w !! path with _ => _ end] |- _ =>
               rewrite Hempty in H; simpl in H
           | s : string |- _ => assert (s = ""%string) by congruence; subst s
           end;
    try congruence.
  all: try solve
    [ exfalso; unfold Utils.validate_file_size in *; simpl in *;
      match goal with H : negb _ = true |- _ =>
        apply negb_true_iff, Z.leb_gt in H; lia end ].
  - (* the size is within the limit *)
    eapply wpt_mono; [apply detect_empty_spec; cbn [fs]; assumption|].
    intros r w' evs (-> & -> & Hfs). cbv beta iota zeta.
    cbn [Py.truthy_opt default].
    destruct (Py.truthy (Utils.get_file_extension path)) eqn:Hext;
      destruct (Py.elem (Utils.get_file_extension path)
                  (supported_formats_set settings)) eqn:Hsup;
      cbn [negb orb andb].
    + wp_go.
      * eapply wpt_mono; [apply get_audio_info_spec|].
        intros r1 w1 evs1 (Hruns & _).
        destruct r1 as [info|e]; cbv beta iota; wp_go; cbn [app];
          rewrite ?tool_runs_app, ?Hruns; cbn;
          (split; [rewrite ?app_nil_r; try reflexivity; try exact Hruns
                  | eexists; split; [reflexivity | split; reflexivity]]).
    + wp_go; cbn [app]. split; [reflexivity|]. split; reflexivity.
    + wp_go; cbn [app]. split; [reflexivity|]. split; reflexivity.
    + wp_go; cbn [app]. split; [reflexivity|]. split; reflexivity.
Qed.

Section ValidationSamples.

Import Sample.

Lemma zero_byte_witness :
  let w := disk "/in/empty.mp3" "" in
  let sniff := Utils.detect_audio_format healthy "/in/empty.mp3" w in
  let run := Utils.validate_audio_file settings healthy "/in/empty.mp3" w in
  let ext := Utils.get_file_extension "/in/empty.mp3" in
  (fst sniff = Ok None /\ tool_runs (since w (snd sniff)) = [])
  /\ tool_runs (since w (snd run)) = []
  /\ (if Py.truthy ext && Py.elem ext (supported_formats_set settings)
      then exists info,
             fst run = Ok info
             /\ Utils.vi_valid info = true
             /\ Utils.vi_format info = None
      else fst run
           = Raise (InvalidAudioFormat (Py.or_else ext "unknown")
                      (supported_formats settings))
           /\ since w (snd run)
              = [EvGetsize "/in/empty.mp3"; EvGetsize "/in/empty.mp3"]).
Proof.
  cbv zeta.
  apply (zero_byte_file_is_judged_by_its_extension settings healthy
           "/in/empty.mp3" (disk "/in/empty.mp3" "")).
  - vm_compute. reflexivity.
  - intros t. reflexivity.
  - vm_compute. discriminate.
Defined.

(** C6 as stated fails: a zero-byte file named [empty.mp3] passes
    validation even when librosa cannot read it. *)
Lemma zero_byte_mp3_passes_validation :
  let w := disk "/in/empty.mp3" "" in
  let run := Utils.validate_audio_file settings deaf "/in/empty.mp3" w in
  fs w !! "/in/empty.mp3"%string = Some ""%string
  /\ fst (Utils.detect_audio_format deaf "/in/empty.mp3" w) = Ok None
  /\ fst run
     = Ok (Utils.mkValidationInfo true None 0 (Py.round 0 2) None None)
  /\ (forall fmt supported,
        fst run <> Raise (InvalidAudioFormat fmt supported)).
Proof.
  cbv zeta. conjuncts; try (vm_compute; reflexivity).
  intros fmt supported. vm_compute. discriminate.
Qed.

End ValidationSamples.

(** ** Transcoder *)

Lemma progress_only_no_run (evs : list Event) cmd tmo res :
  forallb is_progress evs = true -> In (EvRun cmd tmo res) evs -> False.
Proof.
  intros Hall Hin. rewrite forallb_forall in Hall.
  specialize (Hall _ Hin). discriminate.
Qed.

Ltac split_in H :=
  repeat match type of H with
         | In _ (_ ++ _) => apply in_app_or in H; destruct H as [H|H]
         | In _ (_ :: _) => destruct H as [H|H]
         | In _ [] => destruct H
         end.

Lemma transcode_failure_contract
    (settings : Settings) (env : Env) (tc : Utils.Transcoder)
    (input : string) (output : option string) (cb : Callback) (w : World) :
  passive cb ->
  failure_contract env (Utils.tc_step tc) (Utils.tc_failed tc) w
    (Utils.transcode settings env tc input output cb w).
Proof.
  intros Hcb. unfold failure_contract. cbv zeta.
  apply (wpt_run (Utils.transcode settings env tc input output cb) w
    (fun r w' evs =>
  (forall e, r = Raise e ->
     exists m o, e = AudioProcessingError m o (Utils.tc_step tc))
  /\ (forall cmd tmo cp,
        In (EvRun cmd tmo (inr cp)) evs -> returncode cp <> 0 ->
        r
        = Raise (AudioProcessingError (Utils.tc_failed tc)
                   (StrOf (AudioProcessingError (Utils.tc_failed tc)
                             (Lit (Py.or_else (stderr cp)
                                     (Py.or_else (stdout cp)
                                        "Unknown ffmpeg error"%string)))
                             (Utils.tc_step tc)))
                   (Utils.tc_step tc)))
  /\ (forall cmd tmo cp,
        In (EvRun cmd tmo (inr cp)) evs -> returncode cp = 0 ->
        (fs w' !! List.last cmd ""%string = None
         \/ fs w' !! List.last cmd ""%string = Some ""%string) ->
        (forall t p, os_fault env t OpGetsize p = None) ->
        r
        = Raise (AudioProcessingError (Utils.tc_failed tc)
                   (StrOf (AudioProcessingError
                             "Conversion produced empty or missing output file"
                             (Lit "Output file verification failed") (Utils.tc_step tc)))
                   (Utils.tc_step tc))))).
  unfold Utils.transcode.
  wp_go.
  all: cbn [is_ok app].
  all: split;
    [ intros e0 He0; first [discriminate He0 | injection He0 as <-; eauto] | ].
  all: split; intros cmd tmo cp Hin Hrc; [| intros Hout Hnofault];
    split_in Hin; try discriminate Hin;
    try (exfalso; revert Hin; apply progress_only_no_run; assumption);
    try (injection Hin as ? ? ?; subst);
    try discriminate; try reflexivity.
  all: repeat match goal with
       | H : negb (_ =? 0) = false |- _ =>
           apply negb_false_iff, Z.eqb_eq in H
       | H : negb (_ =? 0) = true |- _ =>
           apply negb_true_iff, Z.eqb_neq in H
       | H : os_fault _ _ _ _ = Some _ |- _ =>
           rewrite Hnofault in H; discriminate H
       end;
    try contradiction; try reflexivity.
  all: cbn [List.last Utils.ffmpeg_cmd] in Hout.
  all: repeat match goal with
       | H : negb ?b = false |- _ => apply negb_false_iff in H
       | H : negb ?b = true |- _ => apply negb_true_iff in H
       end.
  all: exfalso; destruct Hout as [Hout|Hout];
    match goal with
    | Hl : _ !! _ = Some ?c |- _ =>
        pose proof (eq_trans (eq_sym Hout) Hl) as Hc;
        first [discriminate Hc | injection Hc as <-]
    end.
  all: match goal with
       | H : (Z.of_nat (String.length _) =? 0) = false |- _ => discriminate H
       end.
Qed.

Lemma transcode_raises_its_own
    (settings : Settings) (env : Env) (tc : Utils.Transcoder)
    (input : string) (output : option string) (cb : Callback) (w : World)
    (e : exn) :
  fst (Utils.transcode settings env tc input output cb w) = Raise e ->
  exists m o, e = AudioProcessingError m o (Utils.tc_step tc).
Proof.
  unfold Utils.transcode, recorded, try_catch.
  match goal with
  | |- context [bind ?m ?k w] => destruct (bind m k w) as [[out|cause] w']
  end; cbn [fst snd].
  - discriminate.
  - destruct (is_class TimeoutExpired cause);
      [|destruct (is_class FileNotFoundError cause)];
      unfold raise; cbn [fst]; intros [= <-]; eauto.
Qed.


Section TranscoderSamples.

Import Sample.


(** What the nonzero-exit clause gives on that input: the whole stderr. *)
Lemma nonzero_exit_keeps_whole_diagnostic :
  fst (Utils.convert_audio_file settings
         (every_run (completed 1 "moov atom not found")) "/in/a.mp3" None
         (Some report) (disk "/in/a.mp3" "ID3"))
  = Raise (AudioProcessingError "Failed to convert audio file"
             (StrOf (AudioProcessingError "Failed to convert audio file"
                       (Lit "moov atom not found") "convert_audio_file"))
             "convert_audio_file").
Proof. vm_compute. reflexivity. Qed.

(** Why the callback must only report: one that raises while the conversion
    is being finalised replaces the tool's diagnostic with its own text. *)
Lemma raising_callback_replaces_the_diagnostic :
  fst (Utils.convert_audio_file settings
         (every_run (completed 1 "moov atom not found")) "/in/a.mp3" None
         (Some (failing_from 80.0)) (disk "/in/a.mp3" "ID3"))
  = Raise (AudioProcessingError "Failed to convert audio file" (Lit "boom")
             "convert_audio_file").
Proof. vm_compute. reflexivity. Qed.

End TranscoderSamples.

Lemma prefix_head (c : ascii) (p t : string) :
  String.prefix (String c p) t = true -> String.prefix (String c "") t = true.
Proof.
  destruct t as [|d t]; simpl; [discriminate|].
  destruct (ascii_dec c d); [intros _; destruct t; reflexivity | discriminate].
Qed.

Lemma contains_head (c : ascii) (p t : string) :
  Py.contains (String c p) t = true -> Py.contains (String c "") t = true.
Proof.
  induction t as [|d t IH]; intros H.
  - simpl in H. discriminate.
  - cbn [Py.contains] in *. apply orb_true_iff in H as [H|H].
    + rewrite (prefix_head _ _ _ H). reflexivity.
    + rewrite (IH H). apply orb_true_r.
Qed.

Lemma first_byte_absent_spec (c : ascii) (d : string) (texts : list string) :
  forallb (fun t => negb (Py.contains (String c "") t)) texts = true ->
  forall n, (1 <= n)%nat ->
    existsb (Py.contains (Py.slice 0 n (String c d))) texts = false.
Proof.
  intros Habsent n Hn.
  destruct n as [|n]; [lia|].
  unfold Py.slice. cbn [Nat.sub substring].
  induction texts as [|t texts IH]; [reflexivity|].
  cbn [forallb existsb] in *. apply andb_true_iff in Habsent as [Ht Hrest].
  rewrite (IH Hrest), orb_false_r.
  destruct (Py.contains (String c (substring 0 n d)) t) eqn:E; [|reflexivity].
  apply contains_head in E. rewrite E in Ht. discriminate.
Qed.


(** ** The preprocessing pipeline: attempts *)

Lemma attempts_app (a b : list Event) :
  attempts (a ++ b) = attempts a ++ attempts b.
Proof.
  induction a as [|ev a IH]; simpl; [reflexivity|].
  destruct (attempt_of ev); simpl; rewrite IH; reflexivity.
Qed.

Lemma attempts_progress (evs : list Event) :
  forallb is_progress evs = true -> attempts evs = [].
Proof.
  induction evs as [|ev evs IH]; simpl; [reflexivity|].
  intros H. apply andb_true_iff in H as [Hev Hrest].
  destruct ev; try discriminate. simpl. apply IH, Hrest.
Qed.

Lemma removals_app (a b : list Event) :
  removals (a ++ b) = removals a ++ removals b.
Proof. apply List.filter_app. Qed.

Lemma removals_progress (evs : list Event) :
  forallb is_progress evs = true -> removals evs = [].
Proof.
  induction evs as [|ev evs IH]; simpl; [reflexivity|].
  intros H. apply andb_true_iff in H as [Hev Hrest].
  destruct ev; try discriminate. simpl. apply IH, Hrest.
Qed.

(** Normalise [attempts] and [removals] of a trace built by the rules. *)
Ltac attempts_norm :=
  rewrite ?attempts_app, ?removals_app;
  repeat match goal with
         | H : forallb is_progress ?e = true |- context [attempts ?e] =>
             rewrite (attempts_progress e H)
         | H : forallb is_progress ?e = true |- context [removals ?e] =>
             rewrite (removals_progress e H)
         | H : attempts ?e = _ |- context [attempts ?e] => rewrite H
         | H : removals ?e = _ |- context [removals ?e] => rewrite H
         end;
  cbn [attempts attempt_of removals List.filter is_removal app].

Lemma wpt_progress_in_frame (settings : Settings) (cb : Callback) (p : Q)
    (msg : string) (s : Utils.Frame * World) Q :
  passive cb ->
  (forall evs, forallb is_progress evs = true ->
     Q (Ok tt) (fst s, mkWorld (fs (snd s)) (trace (snd s) ++ evs)) evs) ->
  wpt (Utils.progress_in_frame settings cb p msg) s Q.
Proof.
  intros Hp HQ. unfold Utils.progress_in_frame.
  apply wpt_in_world, wpt_update_progress; assumption.
Qed.

Ltac wp_stage :=
  lazymatch goal with
  | |- wpt (Utils.progress_in_frame _ _ _ _) _ _ =>
      apply wpt_progress_in_frame; [assumption | intros ? ?]
  end; cbn [fst snd fs trace].

Ltac wp_all := repeat first [wp_step | wp_call | wp_stage | wp_unfold].

Lemma transcode_attempts
    (settings : Settings) (env : Env) (tc : Utils.Transcoder)
    (input : string) (output : option string) (cb : Callback) (w : World) :
  passive cb ->
  wpt (Utils.transcode settings env tc input output cb) w
    (fun r w' evs =>
       attempts evs = [Conversion (Utils.tc_step tc) (is_ok r)]
       /\ removals evs = []).
Proof.
  intros Hcb. unfold Utils.transcode.
  wp_all; attempts_norm; split; reflexivity.
Qed.

Lemma integrity_attempts (settings : Settings) (env : Env) (path : string)
    (w : World) :
  wpt (Utils.validate_audio_file_integrity settings env path) w
    (fun r w' evs =>
       attempts evs = [] /\ removals evs = []
       /\ exists verdict, r = Ok verdict).
Proof.
  unfold Utils.validate_audio_file_integrity.
  wp_all; attempts_norm;
    (split; [reflexivity | split; [reflexivity | eexists; reflexivity]]).
Qed.

Lemma get_audio_info_attempts (env : Env) (path : string) (w : World) :
  wpt (Utils.get_audio_info env path) w
    (fun r w' evs => attempts evs = [] /\ removals evs = []).
Proof.
  unfold Utils.get_audio_info. wp_all; attempts_norm; split; reflexivity.
Qed.

Lemma cleanup_attempts (env : Env) (path : string) (w : World) :
  wpt (Utils.cleanup_temp_file env path) w
    (fun r w' evs => attempts evs = [] /\ r = Ok tt).
Proof.
  unfold Utils.cleanup_temp_file. wp_all; attempts_norm; auto.
Qed.

Lemma load_attempts (env : Env) (path : string) (w : World) :
  wpt (Utils.librosa_load_ env path) w
    (fun r w' evs => attempts evs = [Decode (is_ok r)] /\ removals evs = []).
Proof.
  unfold Utils.librosa_load_. wp_all; attempts_norm; split; reflexivity.
Qed.

Ltac wp_spec :=
  lazymatch goal with
  | |- wpt (Utils.convert_video_to_audio _ _ _ _ _) _ _ =>
      eapply wpt_mono;
      [ apply transcode_attempts, passive_update_progress; assumption
      | intros ? ? ? [? ?] ]
  | |- wpt (Utils.convert_audio_file _ _ _ _ _) _ _ =>
      eapply wpt_mono;
      [ apply transcode_attempts, passive_update_progress; assumption
      | intros ? ? ? [? ?] ]
  | |- wpt (Utils.validate_audio_file_integrity _ _ _) _ _ =>
      eapply wpt_mono;
      [ apply integrity_attempts | intros ? ? ? [? [? [? ->]]] ]
  | |- wpt (Utils.get_audio_info _ _) _ _ =>
      eapply wpt_mono; [ apply get_audio_info_attempts | intros ? ? ? [? ?] ]
  | |- wpt (Utils.cleanup_temp_file _ _) _ _ =>
      eapply wpt_mono; [ apply cleanup_attempts | intros ? ? ? [? ->] ]
  | |- wpt (Utils.librosa_load_ _ _) _ _ =>
      eapply wpt_mono; [ apply load_attempts | intros ? ? ? [? ?] ]
  end; cbv beta iota zeta; cbn [fst snd fs trace].

Ltac wp_pipeline := repeat first [wp_step | wp_call | wp_stage | wp_spec | wp_unfold].

Lemma convert_stage_attempts (settings : Settings) (env : Env) (cb : Callback)
    (s : Utils.Frame * World) :
  passive cb ->
  Utils.converted_file (fst s) = None ->
  wpt (Utils.convert_stage settings env cb) s
    (fun r s' evs =>
       (attempts evs = []
        /\ (r = Ok tt -> Utils.converted_file (fst s') = None))
       \/ (exists entry ok, attempts evs = [Conversion entry ok])).
Proof.
  intros Hcb Hnone. unfold Utils.convert_stage.
  wp_pipeline; cbn [is_ok] in *; attempts_norm.
  all: try (right; eexists _, _; reflexivity).
  all: try (left; split; [reflexivity | intros; first [assumption | discriminate]]).
Qed.

Lemma load_stage_attempts (settings : Settings) (env : Env) (cb : Callback)
    (s : Utils.Frame * World) :
  passive cb ->
  wpt (Utils.load_stage settings env cb) s
    (fun r s' evs =>
       (attempts evs = [] /\ is_ok r = false)
       \/ (exists b, attempts evs = [Decode true; Decode b] /\ is_ok r = b)
       \/ (Py.truthy_opt (Utils.converted_file (fst s)) = true
           /\ exists b, attempts evs = [Decode false; Decode b] /\ is_ok r = b)
       \/ (Py.truthy_opt (Utils.converted_file (fst s)) = false
           /\ (attempts evs
               = [Decode false; Conversion "convert_audio_file" false]
               /\ is_ok r = false
               \/ exists b,
                    attempts evs
                    = [Decode false; Conversion "convert_audio_file" true;
                       Decode b]
                    /\ is_ok r = b))).
Proof.
  intros Hcb. unfold Utils.load_stage.
  wp_pipeline; cbn [is_ok] in *; attempts_norm.
  all: repeat match goal with
       | H : negb _ = true |- _ => apply negb_true_iff in H
       | H : negb _ = false |- _ => apply negb_false_iff in H
       end.
  all: first
    [ left; split; reflexivity
    | right; left; eexists; split; reflexivity
    | right; right; left; split; [assumption | eexists; split; reflexivity]
    | right; right; right; split;
      [assumption | left; split; reflexivity]
    | right; right; right; split;
      [assumption | right; eexists; split; reflexivity] ].
Qed.

Lemma discard_stage_attempts (env : Env) (s : Utils.Frame * World) :
  wpt (Utils.discard_stage env) s
    (fun r s' evs => attempts evs = [] /\ r = Ok tt).
Proof.
  unfold Utils.discard_stage, Utils.converted_file_on_disk.
  wp_pipeline; cbn [is_ok] in *; attempts_norm; auto.
Qed.

Lemma output_stage_attempts (settings : Settings) (env : Env) (cb : Callback)
    (target_sr : Z) (loaded : Audio * Z) (s : Utils.Frame * World) :
  passive cb ->
  wpt (Utils.output_stage settings env cb target_sr loaded) s
    (fun r s' evs => attempts evs = []).
Proof.
  intros Hcb. unfold Utils.output_stage.
  wp_pipeline; cbn [is_ok] in *; attempts_norm; reflexivity.
Qed.

Lemma failure_stage_attempts (env : Env) (e : exn) (s : Utils.Frame * World) :
  wpt (Utils.failure_stage env e) s
    (fun r s' evs =>
       attempts evs = []
       /\ r = Raise (AudioProcessingError "Failed to preprocess audio" (str e)
                       "preprocess_audio")).
Proof.
  unfold Utils.failure_stage, Utils.converted_file_on_disk.
  wp_pipeline; cbn [is_ok] in *; attempts_norm; auto.
Qed.

Lemma temp_name_is_truthy (dir id sfx : string) :
  Py.truthy (Utils.os_path_join dir ("whisperrr_" ++ id ++ "." ++ sfx)%string)
  = true.
Proof.
  change ("whisperrr_" ++ id ++ "." ++ sfx)%string
    with (String "w" ("hisperrr_" ++ id ++ "." ++ sfx)%string).
  unfold Utils.os_path_join.
  destruct (Py.startswith "/" _); [reflexivity|].
  destruct (negb (Py.truthy dir) || _); destruct dir; reflexivity.
Qed.

Lemma transcode_names
    (settings : Settings) (env : Env) (tc : Utils.Transcoder)
    (input : string) (cb : Callback) (w : World) :
  passive cb ->
  wpt (Utils.transcode settings env tc input None cb) w
    (fun r w' evs =>
       attempts evs = [Conversion (Utils.tc_step tc) (is_ok r)]
       /\ forall p, r = Ok p -> Py.truthy p = true).
Proof.
  intros Hcb. unfold Utils.transcode.
  wp_all; attempts_norm; (split; [reflexivity|]).
  all: intros p Hp; first [discriminate Hp | injection Hp as <-].
  all: cbn [fst]; apply temp_name_is_truthy.
Qed.

Ltac wp_named :=
  lazymatch goal with
  | |- wpt (Utils.convert_video_to_audio _ _ _ None _) _ _ =>
      eapply wpt_mono;
      [ apply transcode_names, passive_update_progress; assumption
      | intros ? ? ? [? ?] ]
  | |- wpt (Utils.convert_audio_file _ _ _ None _) _ _ =>
      eapply wpt_mono;
      [ apply transcode_names, passive_update_progress; assumption
      | intros ? ? ? [? ?] ]
  end; cbv beta iota zeta; cbn [fst snd fs trace].

Lemma convert_stage_records (settings : Settings) (env : Env) (cb : Callback)
    (s : Utils.Frame * World) :
  passive cb ->
  Utils.converted_file (fst s) = None ->
  wpt (Utils.convert_stage settings env cb) s
    (fun r s' evs =>
       (attempts evs = []
        /\ (r = Ok tt -> Utils.converted_file (fst s') = None))
       \/ (exists entry ok,
             attempts evs = [Conversion entry ok]
             /\ (r = Ok tt ->
                 Py.truthy_opt (Utils.converted_file (fst s')) = true))).
Proof.
  intros Hcb Hnone. unfold Utils.convert_stage.
  repeat first [wp_step | wp_call | wp_stage | wp_named | wp_spec | wp_unfold];
    cbn [is_ok] in *; attempts_norm.
  all: try (left; split; [reflexivity | intros; first [assumption | discriminate]]).
  all: right; eexists _, _; (split; [reflexivity|]).
  all: intros Hok; try discriminate Hok.
  all: cbn [Utils.converted_file Py.truthy_opt]; auto.
Qed.

(** How the attempts of the conversion stage, [before], and of the decoding
    stage, [decoding], combine. *)
Lemma attempts_of_a_run (before decoding : list Attempt) (converted : bool)
    (loaded : bool) (outcome : PyResult string) :
  (before = [] /\ converted = false)
  \/ (exists entry ok, before = [Conversion entry ok] /\ converted = true) ->
  (decoding = [] /\ loaded = false)
  \/ (exists b, decoding = [Decode true; Decode b] /\ loaded = b)
  \/ (converted = true
      /\ exists b, decoding = [Decode false; Decode b] /\ loaded = b)
  \/ (converted = false
      /\ (decoding = [Decode false; Conversion "convert_audio_file" false]
          /\ loaded = false
          \/ exists b,
               decoding
               = [Decode false; Conversion "convert_audio_file" true; Decode b]
               /\ loaded = b)) ->
  (loaded = false -> exists e, outcome = Raise (preprocess_error e)) ->
  let tried := before ++ decoding in
  (forall rest,
     tried = Decode false :: rest ->
     rest = [Conversion "convert_audio_file" true; Decode true]
     \/ (rest = [Conversion "convert_audio_file" true; Decode false]
         /\ exists e, outcome = Raise (preprocess_error e))
     \/ (rest = [Conversion "convert_audio_file" false]
         /\ exists e, outcome = Raise (preprocess_error e)))
  /\ (forall rest,
        tried = Decode true :: rest ->
        rest = [Decode true]
        \/ (rest = [Decode false]
            /\ exists e, outcome = Raise (preprocess_error e)))
  /\ (forall entry ok rest,
        tried = Conversion entry ok :: rest ->
        rest = []
        \/ exists first second,
             rest = [Decode first; Decode second]
             /\ (second = false ->
                 exists e, outcome = Raise (preprocess_error e))).
Proof.
  intros Hbefore Hdecoding Hfails. cbv zeta.
  destruct Hbefore as [[-> ->]|(entry0 & ok0 & -> & ->)];
    destruct Hdecoding
      as [[-> ->]|[(b & -> & ->)|[(Hc & b & -> & ->)|(Hc & [[-> ->]|(b & -> & ->)])]]];
    try discriminate Hc; cbn [app].
  all: split; [intros rest Hrest|split; [intros rest Hrest|intros entry ok rest Hrest]].
  all: try discriminate Hrest.
  all: injection Hrest as <-; subst.
  all: try (destruct b).
  all: auto 10.
  all: try (right; eexists _, _; split; [reflexivity|]; intros Hb;
            first [discriminate Hb | apply Hfails; reflexivity]).
Qed.

(** C4, amended.  [preprocess_audio], with a callback that only reports,
    decodes the waveform at lines 491 and 498.  When the first decode of a
    run raises and nothing was converted before it, what follows is exactly
    one call of [convert_audio_file] and, if that returns, exactly one more
    decode; if that decode or the rescue conversion raises, the pipeline
    raises its [AudioProcessingError].  No run attempts more than two
    decodes, or a conversion after a conversion: when the first decode
    returns, one more decode follows and nothing is converted; when a
    conversion came first, two decodes at most follow. *)
Theorem decode_rescue_follows_the_first_decode
    (settings : Settings) (env : Env) (path : string) (target_sr : option Z)
    (cb : Callback) (w : World) :
  passive cb ->
  let run := Utils.preprocess_audio settings env path target_sr cb w in
  let tried := attempts (since w (snd run)) in
  (forall rest,
     tried = Decode false :: rest ->
     rest = [Conversion "convert_audio_file" true; Decode true]
     \/ (rest = [Conversion "convert_audio_file" true; Decode false]
         /\ exists e, fst run = Raise (preprocess_error e))
     \/ (rest = [Conversion "convert_audio_file" false]
         /\ exists e, fst run = Raise (preprocess_error e)))
  /\ (forall rest,
        tried = Decode true :: rest ->
        rest = [Decode true]
        \/ (rest = [Decode false]
            /\ exists e, fst run = Raise (preprocess_error e)))
  /\ (forall entry ok rest,
        tried = Conversion entry ok :: rest ->
        rest = []
        \/ exists first second,
             rest = [Decode first; Decode second]
             /\ (second = false ->
                 exists e, fst run = Raise (preprocess_error e))).
Proof.
  intros Hcb. cbv zeta.
  apply (wpt_run (Utils.preprocess_audio settings env path target_sr cb) w
    (fun r w' evs =>
       (forall rest,
          attempts evs = Decode false :: rest ->
          rest = [Conversion "convert_audio_file" true; Decode true]
          \/ (rest = [Conversion "convert_audio_file" true; Decode false]
              /\ exists e, r = Raise (preprocess_error e))
          \/ (rest = [Conversion "convert_audio_file" false]
              /\ exists e, r = Raise (preprocess_error e)))
       /\ (forall rest,
             attempts evs = Decode true :: rest ->
             rest = [Decode true]
             \/ (rest = [Decode false]
                 /\ exists e, r = Raise (preprocess_error e)))
       /\ (forall entry ok rest,
             attempts evs = Conversion entry ok :: rest ->
             rest = []
             \/ exists first second,
                  rest = [Decode first; Decode second]
                  /\ (second = false ->
                      exists e, r = Raise (preprocess_error e))))).
  unfold Utils.preprocess_audio, Utils.pipeline.
  wp_step. wp_step. wp_step. wp_stage. wp_step.
  eapply wpt_mono; [apply convert_stage_records; [assumption | reflexivity]|].
  intros r1 s1 evs1 Hconv.
  destruct r1 as [[]|e1]; cbv beta iota.
  - wp_step.
    eapply wpt_mono; [apply load_stage_attempts; assumption|].
    intros r2 s2 evs2 Hload.
    assert (Hbefore :
              (attempts evs1 = []
               /\ Py.truthy_opt (Utils.converted_file (fst s1)) = false)
              \/ (exists entry ok,
                    attempts evs1 = [Conversion entry ok]
                    /\ Py.truthy_opt (Utils.converted_file (fst s1)) = true)).
    { destruct Hconv as [[Hc Hnone]|(entry & ok & Hc & Hsome)].
      - left. split; [exact Hc|]. rewrite (Hnone eq_refl). reflexivity.
      - right. exists entry, ok. split; [exact Hc | exact (Hsome eq_refl)]. }
    destruct r2 as [loaded|e2]; cbv beta iota.
    + wp_step.
      eapply wpt_mono; [apply discard_stage_attempts|].
      intros r3 s3 evs3 [Hdisc ->]. cbv beta iota.
      eapply wpt_mono; [apply output_stage_attempts; assumption|].
      intros r4 s4 evs4 Hout.
      destruct r4 as [out|e4]; cbv beta iota.
      * attempts_norm. rewrite !app_nil_r.
        apply (attempts_of_a_run _ _ _ true (Ok out) Hbefore Hload).
        intros Hb; discriminate Hb.
      * eapply wpt_mono; [apply failure_stage_attempts|].
        intros r5 s5 evs5 [Hfail ->].
        attempts_norm. rewrite !app_nil_r.
        apply (attempts_of_a_run _ _ _ true _ Hbefore Hload).
        intros Hb; discriminate Hb.
    + eapply wpt_mono; [apply failure_stage_attempts|].
      intros r5 s5 evs5 [Hfail ->].
      attempts_norm. rewrite !app_nil_r.
      apply (attempts_of_a_run _ _ _ false _ Hbefore Hload).
      intros _. eexists. reflexivity.
  - eapply wpt_mono; [apply failure_stage_attempts|].
    intros r5 s5 evs5 [Hfail ->].
    attempts_norm. rewrite ?app_nil_r.
    destruct Hconv as [[Hc _]|(entry & ok & Hc & _)]; rewrite Hc.
    + apply (attempts_of_a_run [] [] false false);
        [left; split; reflexivity | left; split; reflexivity
        | intros _; eexists; reflexivity].
    + apply (attempts_of_a_run [Conversion entry ok] [] true false);
        [right; eexists _, _; split; reflexivity | left; split; reflexivity
        | intros _; eexists; reflexivity].
Qed.

Section RescueSamples.

Import Sample.

Lemma decode_rescue_witness :
  let w := disk "/in/talk.wav" wav_bytes in
  let run :=
    Utils.preprocess_audio settings (undecodable_upload "/in/talk.wav")
      "/in/talk.wav" None (Some report) w in
  let tried := attempts (since w (snd run)) in
  tried = [Decode false; Conversion "convert_audio_file" true; Decode true]
  /\ (forall rest,
        tried = Decode false :: rest ->
        rest = [Conversion "convert_audio_file" true; Decode true]
        \/ (rest = [Conversion "convert_audio_file" true; Decode false]
            /\ exists e, fst run = Raise (preprocess_error e))
        \/ (rest = [Conversion "convert_audio_file" false]
            /\ exists e, fst run = Raise (preprocess_error e)))
  /\ (forall rest,
        tried = Decode true :: rest ->
        rest = [Decode true]
        \/ (rest = [Decode false]
            /\ exists e, fst run = Raise (preprocess_error e)))
  /\ (forall entry ok rest,
        tried = Conversion entry ok :: rest ->
        rest = []
        \/ exists first second,
             rest = [Decode first; Decode second]
             /\ (second = false ->
                 exists e, fst run = Raise (preprocess_error e))).
Proof.
  cbv zeta. split; [vm_compute; reflexivity|].
  apply (decode_rescue_follows_the_first_decode settings
           (undecodable_upload "/in/talk.wav") "/in/talk.wav" None
           (Some report) (disk "/in/talk.wav" wav_bytes) passive_report).
Defined.

(** C4 as stated fails: the first decode returns and the decode that
    follows it raises.  A decode has raised, nothing was converted before
    it, and no rescue conversion is attempted: the pipeline raises at
    once. *)
Lemma failed_redecode_is_not_rescued :
  let w := disk "/in/talk.wav" wav_bytes in
  let run :=
    Utils.preprocess_audio settings (decodes_until 11) "/in/talk.wav" None
      (Some report) w in
  attempts (since w (snd run)) = [Decode true; Decode false]
  /\ fst run
     = Raise (preprocess_error (Foreign (mkForeign OtherException "MemoryError"))).
Proof. cbv zeta. split; vm_compute; reflexivity. Qed.

(** Why the callback must only report: one that raises when it is told of
    the failed decode ends the run before the rescue conversion. *)
Lemma raising_callback_stops_the_rescue :
  let w := disk "/in/talk.wav" wav_bytes in
  let run :=
    Utils.preprocess_audio settings (undecodable_upload "/in/talk.wav")
      "/in/talk.wav" None (Some (failing_from 14.0)) w in
  attempts (since w (snd run)) = [Decode false]
  /\ fst run
     = Raise (preprocess_error (Foreign (mkForeign OtherException "boom"))).
Proof. cbv zeta. split; vm_compute; reflexivity. Qed.

End RescueSamples.

(** ** The preprocessing pipeline: what it reports *)

Lemma update_progress_rescales (settings : Settings) (p : Q) (msg : string)
    (w : World) :
  Utils.update_progress settings (Some report) p msg w
  = (Ok tt,
     mkWorld (fs w)
       (trace w
        ++ [EvProgress (p * (preprocessing_progress_max settings / 100.0))%Q
              msg])).
Proof. reflexivity. Qed.

Lemma wpt_report_in_frame (settings : Settings) (p : Q) (msg : string)
    (s : Utils.Frame * World) Q :
  (let ev := EvProgress (p * (preprocessing_progress_max settings / 100.0))%Q
               msg in
   Q (Ok tt) (fst s, mkWorld (fs (snd s)) (trace (snd s) ++ [ev])) [ev]) ->
  wpt (Utils.progress_in_frame settings (Some report) p msg) s Q.
Proof.
  cbv zeta. intros HQ. exists [EvProgress (p * (preprocessing_progress_max settings / 100.0))%Q msg].
  split; [reflexivity | exact HQ].
Qed.

Lemma output_stage_final (settings : Settings) (env : Env) (target_sr : Z)
    (loaded : Audio * Z) (s : Utils.Frame * World) :
  wpt (Utils.output_stage settings env (Some report) target_sr loaded) s
    (fun r s' evs =>
       is_ok r = true ->
       exists earlier, evs = earlier ++ [completed_report settings]).
Proof.
  unfold Utils.output_stage.
  repeat first
    [ apply wpt_report_in_frame; cbv zeta; cbn [fst snd fs trace]
    | wp_step | wp_call | wp_unfold ].
  all: cbn [is_ok app]; intros Hok; try discriminate Hok.
  all: match goal with
       | |- exists earlier, ?l = _ =>
           exists (removelast l); cbn [removelast]; reflexivity
       end.
Qed.

Lemma two_fifths (m : Q) : (40.0 * (m / 100.0) == (2 # 5) * m)%Q.
Proof. field. Qed.

(** C3, what the code does.  Every successful run of [preprocess_audio]
    with a reporting callback ends by reporting [40.0 * (max / 100.0)],
    two fifths of [preprocessing_progress_max], not the upper bound
    itself. *)
Theorem final_preprocessing_report
    (settings : Settings) (env : Env) (path : string) (target_sr : option Z)
    (w : World) (out : string) :
  let run :=
    Utils.preprocess_audio settings env path target_sr (Some report) w in
  let final := (40.0 * (preprocessing_progress_max settings / 100.0))%Q in
  fst run = Ok out ->
  (exists earlier,
     since w (snd run)
     = earlier
       ++ [EvProgress final
             "Audio preprocessing completed, ready for transcription"])
  /\ (final == (2 # 5) * preprocessing_progress_max settings)%Q.
Proof.
  cbv zeta. intros Hout. split; [|apply two_fifths].
  revert Hout.
  apply (wpt_run (Utils.preprocess_audio settings env path target_sr (Some report)) w
    (fun r w' evs =>
       r = Ok out ->
       exists earlier, evs = earlier ++ [completed_report settings])).
  pose proof passive_report as Hcb.
  unfold Utils.preprocess_audio, Utils.pipeline.
  wp_step. wp_step. wp_step. wp_stage. wp_step.
  eapply wpt_mono; [apply convert_stage_attempts; [assumption | reflexivity]|].
  intros r1 s1 evs1 _.
  destruct r1 as [[]|e1]; cbv beta iota.
  - wp_step.
    eapply wpt_mono; [apply load_stage_attempts; assumption|].
    intros r2 s2 evs2 _.
    destruct r2 as [loaded|e2]; cbv beta iota.
    + wp_step.
      eapply wpt_mono; [apply discard_stage_attempts|].
      intros r3 s3 evs3 [_ ->]. cbv beta iota.
      eapply wpt_mono; [apply output_stage_final|].
      intros r4 s4 evs4 Hfinal.
      destruct r4 as [out'|e4]; cbv beta iota.
      * intros _. destruct (Hfinal eq_refl) as (earlier & ->).
        eexists. rewrite !app_assoc. reflexivity.
      * eapply wpt_mono; [apply failure_stage_attempts|].
        intros r5 s5 evs5 [_ ->]. discriminate.
    + eapply wpt_mono; [apply failure_stage_attempts|].
      intros r5 s5 evs5 [_ ->]. discriminate.
  - eapply wpt_mono; [apply failure_stage_attempts|].
    intros r5 s5 evs5 [_ ->]. discriminate.
Qed.

Section ReportSamples.

Import Sample.

Lemma final_preprocessing_report_witness :
  let run :=
    Utils.preprocess_audio settings healthy "/in/clip.mp4" None (Some report)
      (disk "/in/clip.mp4" "video bytes") in
  let final := (40.0 * (preprocessing_progress_max settings / 100.0))%Q in
  (exists earlier,
     since (disk "/in/clip.mp4" "video bytes") (snd run)
     = earlier
       ++ [EvProgress final
             "Audio preprocessing completed, ready for transcription"])
  /\ (final == (2 # 5) * preprocessing_progress_max settings)%Q.
Proof.
  cbv zeta.
  apply (final_preprocessing_report settings healthy "/in/clip.mp4" None
           (disk "/in/clip.mp4" "video bytes")
           "/tmp/whisperrr/whisperrr_job27.wav").
  vm_compute. reflexivity.
Defined.

(** With the sample settings the preprocessing sub-range ends at 40, the
    last report of a successful run is 16, and transcription starts at 40. *)
Lemma sample_final_report :
  (40.0 * (preprocessing_progress_max settings / 100.0) == 16)%Q
  /\ ~ (40.0 * (preprocessing_progress_max settings / 100.0)
        == preprocessing_progress_max settings)%Q
  /\ (WhisperService.transcription_callback_progress settings 0 == 40)%Q
  /\ (WhisperService.transcription_callback_progress settings 100 == 100)%Q.
Proof.
  split; [reflexivity|]. split; [intros H; discriminate H|].
  split; reflexivity.
Qed.

(** C2, at the failing input: a WAV upload that the prober accepts and
    librosa cannot decode until it has been converted.  The rescue
    conversion reports up to 16 and the next checkpoint reports 14.4. *)
Theorem progress_goes_backwards_after_rescue :
  let before := disk "/in/talk.wav" wav_bytes in
  let run :=
    Utils.preprocess_audio settings (undecodable_upload "/in/talk.wav")
      "/in/talk.wav" None (Some report) before in
  let emitted := percentages (since before (snd run)) in
  let job := JobManager.init "job" 0 in
  fst run = Ok "/tmp/whisperrr/whisperrr_job30.wav"%string
  /\ attempts (since before (snd run))
     = [Decode false; Conversion "convert_audio_file" true; Decode true]
  /\ map Qred emitted
     = [0; 4 # 5; 2; 4; 12; 64 # 5; 14; 14; 71 # 5; 73 # 5; 78 # 5; 16;
        72 # 5; 74 # 5; 76 # 5; 78 # 5; 16]%Q
  /\ nondecreasing emitted = false
  /\ nondecreasing
       (JobManager.observed job (progress_calls (since before (snd run))))
     = false.
Proof. cbv zeta. conjuncts; vm_compute; reflexivity. Qed.

End ReportSamples.

(** ** The preprocessing pipeline: scratch files *)

Lemma convert_stage_keeps (settings : Settings) (env : Env) (cb : Callback)
    (s : Utils.Frame * World) :
  passive cb ->
  tied s ->
  wpt (Utils.convert_stage settings env cb) s
    (fun r s' evs => removals evs = [] /\ (is_ok r = true -> tied s')).
Proof.
  intros Hcb Htied. unfold Utils.convert_stage.
  wp_pipeline; cbn [is_ok] in *; attempts_norm.
  all: split; [reflexivity|]; intros Hok; try discriminate Hok.
  all: try exact Htied.
  all: intros c Hc; cbn in *; congruence.
Qed.

Lemma load_stage_keeps (settings : Settings) (env : Env) (cb : Callback)
    (s : Utils.Frame * World) :
  passive cb ->
  tied s ->
  wpt (Utils.load_stage settings env cb) s
    (fun r s' evs => removals evs = [] /\ (is_ok r = true -> tied s')).
Proof.
  intros Hcb Htied. unfold Utils.load_stage.
  wp_pipeline; cbn [is_ok] in *; attempts_norm.
  all: split; [reflexivity|]; intros Hok; try discriminate Hok.
  all: try exact Htied.
  all: intros c Hc; cbn in *; congruence.
Qed.

Lemma discard_stage_keeps (env : Env) (s : Utils.Frame * World) :
  tied s ->
  wpt (Utils.discard_stage env) s
    (fun r s' evs => removals evs = [] /\ r = Ok tt).
Proof.
  intros Htied. unfold Utils.discard_stage, Utils.converted_file_on_disk.
  wp_pipeline; cbn [is_ok] in *; attempts_norm; try (split; reflexivity);
    exfalso;
    match goal with
    | Hc : Utils.converted_file _ = Some ?c,
      H : negb (String.eqb ?c _) = true |- _ =>
        rewrite (Htied c Hc), String.eqb_refl in H; discriminate H
    end.
Qed.

Lemma output_stage_keeps (settings : Settings) (env : Env) (cb : Callback)
    (target_sr : Z) (loaded : Audio * Z) (s : Utils.Frame * World) :
  passive cb ->
  wpt (Utils.output_stage settings env cb target_sr loaded) s
    (fun r s' evs => removals evs = []).
Proof.
  intros Hcb. unfold Utils.output_stage.
  wp_pipeline; cbn [is_ok] in *; attempts_norm; reflexivity.
Qed.

(** X21.  The cleanup after the decode never runs: a run of [preprocess_audio]
    that returns has removed no file. *)
Lemma returning_run_removes_nothing
    (settings : Settings) (env : Env) (path : string) (target_sr : option Z)
    (cb : Callback) (w : World) :
  passive cb ->
  let run := Utils.preprocess_audio settings env path target_sr cb w in
  is_ok (fst run) = true -> removals (since w (snd run)) = [].
Proof.
  intros Hcb. cbv zeta.
  apply (wpt_run (Utils.preprocess_audio settings env path target_sr cb) w
    (fun r w' evs => is_ok r = true -> removals evs = [])).
  unfold Utils.preprocess_audio, Utils.pipeline.
  wp_step. wp_step. wp_step. wp_stage. wp_step.
  eapply wpt_mono;
    [apply convert_stage_keeps; [assumption | intros c Hc; discriminate Hc]|].
  intros r1 s1 evs1 [Hrm1 Htied1].
  destruct r1 as [[]|e1]; cbv beta iota.
  - wp_step.
    eapply wpt_mono; [apply load_stage_keeps; [assumption | apply Htied1; reflexivity]|].
    intros r2 s2 evs2 [Hrm2 Htied2].
    destruct r2 as [loaded|e2]; cbv beta iota.
    + wp_step.
      eapply wpt_mono; [apply discard_stage_keeps; apply Htied2; reflexivity|].
      intros r3 s3 evs3 [Hrm3 ->]. cbv beta iota.
      eapply wpt_mono; [apply output_stage_keeps; assumption|].
      intros r4 s4 evs4 Hrm4.
      destruct r4 as [out|e4]; cbv beta iota.
      * intros _. attempts_norm. reflexivity.
      * eapply wpt_mono; [apply failure_stage_attempts|].
        intros r5 s5 evs5 [_ ->]. discriminate.
    + eapply wpt_mono; [apply failure_stage_attempts|].
      intros r5 s5 evs5 [_ ->]. discriminate.
  - eapply wpt_mono; [apply failure_stage_attempts|].
    intros r5 s5 evs5 [_ ->]. discriminate.
Qed.

Section ScratchFileSamples.

Import Sample.

(** C1, at the failing input: an MP4 upload that converts and decodes.  The
    pipeline returns the canonical file and the converted scratch file it
    created is still on disk; nothing was removed. *)
Theorem converted_file_outlives_successful_run :
  let before := disk "/in/clip.mp4" "video bytes" in
  let run :=
    Utils.preprocess_audio settings healthy "/in/clip.mp4" None (Some report)
      before in
  let converted := "/tmp/whisperrr/whisperrr_job4.wav"%string in
  In (EvRun (Utils.ffmpeg_cmd settings "/in/clip.mp4" converted) 300
        (completed 0 ""))
     (since before (snd run))
  /\ In (EvConverted "convert_video_to_audio" "/in/clip.mp4" true)
       (since before (snd run))
  /\ fst run = Ok "/tmp/whisperrr/whisperrr_job27.wav"%string
  /\ fs before !! converted = None
  /\ fs (snd run) !! converted = Some wav_bytes
  /\ List.filter is_removal (since before (snd run)) = [].
Proof.
  cbv zeta. conjuncts; vm_compute; try reflexivity.
  - find_event.
  - find_event.
Qed.

End ScratchFileSamples.

(** ** Strings as character lists *)

Definition chars_of := list_ascii_of_string.

Lemma chars_app (a b : string) :
  list_ascii_of_string (a ++ b) = list_ascii_of_string a ++ list_ascii_of_string b.
Proof.
  induction a as [|c a IH]; [reflexivity|].
  change (c :: list_ascii_of_string (a ++ b)
          = c :: (list_ascii_of_string a ++ list_ascii_of_string b)).
  rewrite IH. reflexivity.
Qed.

Lemma chars_rev_string (s acc : string) :
  list_ascii_of_string (Py.rev_string s acc)
  = rev (list_ascii_of_string s) ++ list_ascii_of_string acc.
Proof.
  revert acc. induction s as [|c s IH]; intros acc; simpl; [reflexivity|].
  rewrite IH. simpl. rewrite <- app_assoc. reflexivity.
Qed.

Lemma chars_inj (a b : string) :
  list_ascii_of_string a = list_ascii_of_string b -> a = b.
Proof.
  intros H. rewrite <- (string_of_list_ascii_of_string a),
    <- (string_of_list_ascii_of_string b), H. reflexivity.
Qed.

(** [lstrip] drops a prefix, [rstrip] a suffix, a slice from 0 a suffix. *)
Lemma lstrip_suffix (cs : list ascii) (s : string) :
  exists u, s = (u ++ Py.lstrip cs s)%string.
Proof.
  induction s as [|c s [u IH]]; simpl.
  - exists ""%string. reflexivity.
  - destruct (existsb (Ascii.eqb c) cs).
    + exists (String c u). exact (f_equal (String c) IH).
    + exists ""%string. reflexivity.
Qed.

Lemma rstrip_prefix (cs : list ascii) (s : string) :
  exists u, s = (Py.rstrip cs s ++ u)%string.
Proof.
  unfold Py.rstrip.
  destruct (lstrip_suffix cs (Py.rev_string s "")) as [u Hu].
  exists (Py.rev_string u ""). apply chars_inj.
  rewrite chars_app, !chars_rev_string, !app_nil_r.
  rewrite <- rev_app_distr, <- chars_app, <- Hu, chars_rev_string, app_nil_r.
  rewrite rev_involutive. reflexivity.
Qed.

Lemma slice_prefix (n : nat) (s : string) :
  exists u, s = (Py.slice 0 n s ++ u)%string.
Proof.
  unfold Py.slice. rewrite Nat.sub_0_r. revert s.
  induction n as [|n IH]; intros s.
  - exists s. destruct s; reflexivity.
  - destruct s as [|c s]; simpl.
    + exists ""%string. reflexivity.
    + destruct (IH s) as [u Hu]. exists u. exact (f_equal (String c) Hu).
Qed.

Lemma slice_length (n : nat) (s : string) :
  (String.length (Py.slice 0 n s) <= n)%nat.
Proof.
  unfold Py.slice. rewrite Nat.sub_0_r. revert s.
  induction n as [|n IH]; intros s; destruct s as [|c s]; simpl; try lia.
  specialize (IH s). lia.
Qed.


Lemma string_prefix_app (p a b : string) :
  String.prefix p a = true -> String.prefix p (a ++ b) = true.
Proof.
  revert a. induction p as [|c p IH]; intros a H;
    [destruct (a ++ b)%string; reflexivity|].
  destruct a as [|d a]; [discriminate H|].
  simpl in *. destruct (Ascii.ascii_dec c d); [apply IH, H | discriminate H].
Qed.

Lemma contains_app_l (p a b : string) :
  Py.contains p (a ++ b) = false -> Py.contains p a = false.
Proof.
  induction a as [|c a IH]; intros H.
  - destruct p; [destruct b; discriminate H | reflexivity].
  - change (String.prefix p (String c a ++ b)
            || Py.contains p (a ++ b) = false) in H.
    apply orb_false_iff in H. destruct H as [H1 H2].
    change (String.prefix p (String c a) || Py.contains p a = false).
    apply orb_false_iff. split; [|apply IH, H2].
    destruct (String.prefix p (String c a)) eqn:E; [|reflexivity].
    rewrite (string_prefix_app _ _ b E) in H1. discriminate H1.
Qed.

Lemma contains_app_r (p a b : string) :
  Py.contains p (a ++ b) = false -> Py.contains p b = false.
Proof.
  induction a as [|c a IH]; intros H; [exact H|].
  change (String.prefix p (String c a ++ b)
          || Py.contains p (a ++ b) = false) in H.
  apply orb_false_iff in H. apply IH, H.
Qed.

(** ** Dots *)

Lemma string_prefix_cons (a b : ascii) (p s : string) :
  String.prefix (String a p) (String b s)
  = if ascii_dec a b then String.prefix p s else false.
Proof. reflexivity. Qed.

Lemma string_prefix_nil (s : string) : String.prefix "" s = true.
Proof. destruct s; reflexivity. Qed.

Lemma eqb_dec (a b : ascii) :
  Ascii.eqb b a = if ascii_dec a b then true else false.
Proof.
  destruct (ascii_dec a b) as [<-|Hne]; [apply Ascii.eqb_refl|].
  apply Ascii.eqb_neq. congruence.
Qed.

Lemma startswith_dot_cons (c : ascii) (s : string) :
  Py.startswith "." (String c s) = Ascii.eqb c ".".
Proof.
  unfold Py.startswith. rewrite string_prefix_cons, string_prefix_nil, eqb_dec.
  reflexivity.
Qed.

Lemma prefix_dotdot_cons (c : ascii) (s : string) :
  String.prefix ".." (String c s) = Ascii.eqb c "." && Py.startswith "." s.
Proof.
  unfold Py.startswith. rewrite string_prefix_cons, eqb_dec.
  destruct (ascii_dec "." c); reflexivity.
Qed.

Lemma contains_dotdot_cons (c : ascii) (s : string) :
  Py.contains ".." (String c s)
  = (Ascii.eqb c "." && Py.startswith "." s) || Py.contains ".." s.
Proof.
  change (Py.contains ".." (String c s))
    with (String.prefix ".." (String c s) || Py.contains ".." s).
  rewrite prefix_dotdot_cons. reflexivity.
Qed.

Lemma sub_dotdot_cons (c : ascii) (s : string) :
  Re.sub_literal ".." "" (String c s)
  = if Ascii.eqb c "." && Py.startswith "." s
    then Re.sub_literal ".." "" (match s with String _ t => t | EmptyString => EmptyString end)
    else String c (Re.sub_literal ".." "" s).
Proof.
  unfold Re.sub_literal.
  change (Re.sub_literal_from 0 ".." "" (String c s))
    with (if String.prefix ".." (String c s)
          then ("" ++ Re.sub_literal_from 1 ".." "" s)%string
          else String c (Re.sub_literal_from 0 ".." "" s)).
  rewrite prefix_dotdot_cons.
  destruct (Ascii.eqb c "." && Py.startswith "." s); [|reflexivity].
  destruct s; reflexivity.
Qed.

Lemma sub_dotdot_head (s : string) :
  Py.startswith "." s = false ->
  Py.startswith "." (Re.sub_literal ".." "" s) = false.
Proof.
  destruct s as [|c s]; intros H; [reflexivity|].
  rewrite startswith_dot_cons in H.
  rewrite sub_dotdot_cons, H. cbn [andb].
  rewrite startswith_dot_cons. exact H.
Qed.

Lemma sub_dotdot_clean (n : nat) : forall s,
  (String.length s <= n)%nat ->
  Py.contains ".." (Re.sub_literal ".." "" s) = false.
Proof.
  induction n as [|n IH]; intros s Hlen.
  - destruct s; [reflexivity | simpl in Hlen; lia].
  - destruct s as [|c s]; [reflexivity|].
    simpl in Hlen. rewrite sub_dotdot_cons.
    destruct (Ascii.eqb c "." && Py.startswith "." s) eqn:E.
    + apply IH. destruct s; simpl in *; lia.
    + rewrite contains_dotdot_cons, (IH s) by lia.
      rewrite orb_false_r.
      apply andb_false_iff in E. destruct E as [E|E].
      * rewrite E. reflexivity.
      * rewrite (sub_dotdot_head s E). apply andb_false_r.
Qed.

Lemma sub_class_cons (m : ascii -> bool) (c : ascii) (s : string) :
  Re.sub_class m "_" (String c s)
  = String (if m c then "_"%char else c) (Re.sub_class m "_" s).
Proof. simpl. destruct (m c); reflexivity. Qed.

Lemma sub_class_head (m : ascii -> bool) (s : string) :
  m "."%char = false ->
  Py.startswith "." (Re.sub_class m "_" s) = Py.startswith "." s.
Proof.
  intros Hm. destruct s as [|c s]; [reflexivity|].
  rewrite sub_class_cons, !startswith_dot_cons.
  destruct (m c) eqn:E; [|reflexivity].
  symmetry. apply Ascii.eqb_neq. intros ->. congruence.
Qed.

Lemma sub_class_dotdot (m : ascii -> bool) (s : string) :
  m "."%char = false ->
  Py.contains ".." (Re.sub_class m "_" s) = Py.contains ".." s.
Proof.
  intros Hm. induction s as [|c s IH]; [reflexivity|].
  rewrite sub_class_cons, !contains_dotdot_cons, IH, sub_class_head by exact Hm.
  destruct (m c) eqn:E; [|reflexivity].
  replace (Ascii.eqb c ".") with false; [reflexivity|].
  symmetry. apply Ascii.eqb_neq. intros ->. congruence.
Qed.

Lemma sub_run_cons (d : ascii) (s : string) :
  Re.sub_run "_" "_" (String d s)
  = if Ascii.eqb d "_" then
      if Py.startswith "_" s then Re.sub_run "_" "_" s
      else String "_" (Re.sub_run "_" "_" s)
    else String d (Re.sub_run "_" "_" s).
Proof.
  simpl. destruct (Ascii.eqb d "_"); [|reflexivity].
  destruct s as [|d' s]; [reflexivity|].
  unfold Py.startswith. rewrite string_prefix_cons, string_prefix_nil, (eqb_dec "_" d').
  destruct (ascii_dec "_" d'); reflexivity.
Qed.

Lemma sub_run_head (s : string) :
  Py.startswith "." (Re.sub_run "_" "_" s) = Py.startswith "." s.
Proof.
  induction s as [|d s IH]; [reflexivity|].
  rewrite sub_run_cons, startswith_dot_cons.
  destruct (Ascii.eqb d "_") eqn:E.
  - apply Ascii.eqb_eq in E. subst d.
    destruct (Py.startswith "_" s) eqn:E2; [|reflexivity].
    rewrite IH. destruct s as [|d' s]; [discriminate E2|].
    rewrite startswith_dot_cons.
    unfold Py.startswith in E2. rewrite string_prefix_cons in E2.
    destruct (ascii_dec "_" d') as [<-|]; [reflexivity | discriminate E2].
  - rewrite startswith_dot_cons. reflexivity.
Qed.

Lemma sub_run_dotdot (s : string) :
  Py.contains ".." s = false ->
  Py.contains ".." (Re.sub_run "_" "_" s) = false.
Proof.
  induction s as [|d s IH]; intros H; [reflexivity|].
  rewrite contains_dotdot_cons in H. apply orb_false_iff in H.
  destruct H as [H1 H2]. specialize (IH H2).
  rewrite sub_run_cons.
  destruct (Ascii.eqb d "_") eqn:E.
  - destruct (Py.startswith "_" s); [exact IH|].
    rewrite contains_dotdot_cons, IH. reflexivity.
  - rewrite contains_dotdot_cons, IH, sub_run_head, H1. reflexivity.
Qed.

(** ** Characters that survive sanitising *)


Lemma all_chars_app (P : ascii -> bool) (a b : string) :
  all_chars P (a ++ b)%string <-> all_chars P a /\ all_chars P b.
Proof. unfold all_chars. rewrite chars_app. apply Forall_app. Qed.

Lemma sub_class_chars (P : ascii -> bool) (s : string) :
  P "_"%char = true ->
  all_chars P (Re.sub_class (fun c => negb (P c)) "_" s).
Proof.
  intros Hu. induction s as [|c s IH]; [constructor|].
  rewrite sub_class_cons. constructor; [|exact IH].
  destruct (P c) eqn:E; simpl; assumption.
Qed.

Lemma sub_run_chars (P : ascii -> bool) (s : string) :
  all_chars P s -> all_chars P (Re.sub_run "_" "_" s).
Proof.
  induction s as [|d s IH]; intros H; [constructor|].
  inversion H as [|? ? Hd Hs]; subst. specialize (IH Hs).
  rewrite sub_run_cons.
  destruct (Ascii.eqb d "_") eqn:E.
  - apply Ascii.eqb_eq in E. subst d.
    destruct (Py.startswith "_" s); [exact IH | constructor; assumption].
  - constructor; assumption.
Qed.

Lemma lstrip_chars (P : ascii -> bool) (cs : list ascii) (s : string) :
  all_chars P s -> all_chars P (Py.lstrip cs s).
Proof.
  intros H. destruct (lstrip_suffix cs s) as [u Hu].
  rewrite Hu in H. apply all_chars_app in H. apply H.
Qed.

Lemma rstrip_chars (P : ascii -> bool) (cs : list ascii) (s : string) :
  all_chars P s -> all_chars P (Py.rstrip cs s).
Proof.
  intros H. destruct (rstrip_prefix cs s) as [u Hu].
  rewrite Hu in H. apply all_chars_app in H. apply H.
Qed.

Lemma slice_chars (P : ascii -> bool) (n : nat) (s : string) :
  all_chars P s -> all_chars P (Py.slice 0 n s).
Proof.
  intros H. destruct (slice_prefix n s) as [u Hu].
  rewrite Hu in H. apply all_chars_app in H. apply H.
Qed.

(** The first character after the strip is none of the stripped ones. *)
Lemma lstrip_head (cs : list ascii) (s : string) (c : ascii) (t : string) :
  Py.lstrip cs s = String c t -> existsb (Ascii.eqb c) cs = false.
Proof.
  induction s as [|d s IH]; simpl; [discriminate|].
  destruct (existsb (Ascii.eqb d) cs) eqn:E; [exact IH|].
  intros [= <- <-]. exact E.
Qed.

Lemma head_of_prefix (r u s : string) (c : ascii) (t : string) :
  s = (r ++ u)%string -> r = String c t -> exists t', s = String c t'.
Proof. intros -> ->. eexists. reflexivity. Qed.


Lemma safe_char_underscore : Utils.safe_char "_" = true.
Proof. reflexivity. Qed.

Lemma safe_char_dot : Utils.safe_char "." = true.
Proof. reflexivity. Qed.

Lemma truthy_nonempty (s : string) : Py.truthy s = true -> s <> ""%string.
Proof. destruct s; [discriminate | discriminate]. Qed.

Lemma not_in_chars (P : ascii -> bool) (c : ascii) (s : string) :
  all_chars P s -> P c = false -> ~ In c (list_ascii_of_string s).
Proof.
  intros H Hc Hin. unfold all_chars in H. rewrite List.Forall_forall in H.
  specialize (H c Hin). congruence.
Qed.

(** X1.  [safe_filename] always returns a usable name: it is not empty, has at
    most 255 characters, and every character is a letter, a digit, a dot, a
    dash or an underscore; in particular it holds no [/] and no backslash. *)
Theorem safe_filename_is_a_plain_name (filename : string) :
  let safe := Utils.safe_filename filename in
  safe <> ""%string
  /\ (String.length safe <= 255)%nat
  /\ all_chars Utils.safe_char safe
  /\ ~ In "/"%char (list_ascii_of_string safe)
  /\ ~ In Utils.backslash (list_ascii_of_string safe).
Proof.
  cbv zeta.
  assert (Hchars : all_chars Utils.safe_char (Utils.safe_filename filename)).
  { unfold Utils.safe_filename.
    destruct (negb (Py.truthy filename)); [repeat constructor|].
    match goal with
    | |- all_chars _ (if negb (Py.truthy ?s) then _ else _) =>
        assert (Hs : all_chars Utils.safe_char s); [|destruct (negb (Py.truthy s)); [repeat constructor | exact Hs]]
    end.
    match goal with
    | |- all_chars _ (if ?b then Py.slice 0 255 ?s else ?s) =>
        assert (Hs : all_chars Utils.safe_char s); [|destruct b; [apply slice_chars|]; exact Hs]
    end.
    apply rstrip_chars, lstrip_chars, sub_run_chars, sub_class_chars.
    reflexivity. }
  split; [|split; [|split; [exact Hchars|split]]].
  - unfold Utils.safe_filename.
    destruct (negb (Py.truthy filename)); [discriminate|].
    match goal with
    | |- (if negb (Py.truthy ?s) then _ else _) <> _ =>
        destruct (Py.truthy s) eqn:E; [apply truthy_nonempty, E | discriminate]
    end.
  - unfold Utils.safe_filename.
    destruct (negb (Py.truthy filename)); [simpl; lia|].
    match goal with
    | |- (String.length (if negb (Py.truthy ?s) then _ else _) <= _)%nat =>
        assert (Hs : (String.length s <= 255)%nat);
          [|destruct (negb (Py.truthy s)); [simpl; lia | exact Hs]]
    end.
    match goal with
    | |- (String.length (if (255 <? ?n)%nat then _ else _) <= _)%nat =>
        destruct (255 <? n)%nat eqn:E;
          [apply slice_length | apply Nat.ltb_ge in E; exact E]
    end.
  - apply (not_in_chars _ _ _ Hchars). reflexivity.
  - apply (not_in_chars _ _ _ Hchars). reflexivity.
Qed.

(** X2.  [safe_filename] defuses path traversal: the name it returns holds no
    [..], and it does not begin with a dot, an underscore or a space. *)
Theorem safe_filename_has_no_traversal (filename : string) :
  let safe := Utils.safe_filename filename in
  Py.contains ".." safe = false
  /\ exists c rest,
       safe = String c rest
       /\ existsb (Ascii.eqb c) ["."; " "; "_"]%char = false.
Proof.
  cbv zeta. unfold Utils.safe_filename.
  destruct (negb (Py.truthy filename));
    [split; [reflexivity | exists "f"%char, "ile"%string; split; reflexivity]|].
  set (scrubbed :=
         Re.sub_run "_" "_"
           (Re.sub_class (fun c => negb (Utils.safe_char c)) "_"
              (Re.sub_literal ".." "" _))).
  set (stripped := Py.lstrip ["."; " "; "_"]%char scrubbed).
  set (trimmed := Py.rstrip ["."; " "; "_"]%char stripped).
  set (cut := if (255 <? String.length trimmed)%nat
              then Py.slice 0 255 trimmed else trimmed).
  assert (Hclean : Py.contains ".." scrubbed = false).
  { apply sub_run_dotdot. rewrite sub_class_dotdot by reflexivity.
    eapply sub_dotdot_clean. reflexivity. }
  destruct (lstrip_suffix ["."; " "; "_"]%char scrubbed) as [u1 Hu1].
  fold stripped in Hu1.
  destruct (rstrip_prefix ["."; " "; "_"]%char stripped) as [u2 Hu2].
  fold trimmed in Hu2.
  assert (Hcut : exists u3, trimmed = (cut ++ u3)%string).
  { unfold cut. destruct (255 <? String.length trimmed)%nat.
    - apply slice_prefix.
    - exists ""%string. apply chars_inj. rewrite chars_app, app_nil_r. reflexivity. }
  destruct Hcut as [u3 Hu3].
  assert (Hdd : Py.contains ".." cut = false).
  { rewrite Hu1 in Hclean. apply contains_app_r in Hclean.
    rewrite Hu2 in Hclean. apply contains_app_l in Hclean.
    rewrite Hu3 in Hclean. apply contains_app_l in Hclean. exact Hclean. }
  destruct cut as [|c rest] eqn:Ecut.
  - split; [reflexivity | exists "f"%char, "ile"%string; split; reflexivity].
  - cbn [Py.truthy negb]. split; [exact Hdd|].
    exists c, rest. split; [reflexivity|].
    destruct (head_of_prefix _ _ _ c rest Hu3 eq_refl) as [t1 Ht1].
    destruct (head_of_prefix _ _ _ c t1 Hu2 Ht1) as [t2 Ht2].
    eapply lstrip_head. exact Ht2.
Qed.

(** ** File names *)

Lemma split_nonempty (sep : ascii) (s : string) : Py.split sep s <> [].
Proof.
  induction s as [|c s IH]; simpl; [discriminate|].
  destruct (Ascii.eqb c sep); [discriminate|].
  destruct (Py.split sep s); [congruence | discriminate].
Qed.

Lemma split_no_sep (sep : ascii) (s : string) :
  ~ In sep (list_ascii_of_string s) -> Py.split sep s = [s].
Proof.
  induction s as [|c s IH]; intros H; [reflexivity|].
  simpl in *. destruct (Ascii.eqb c sep) eqn:E.
  - apply Ascii.eqb_eq in E. tauto.
  - rewrite IH by tauto. reflexivity.
Qed.

Lemma split_app (sep : ascii) (a b : string) :
  Py.split sep (a ++ String sep b) = Py.split sep a ++ Py.split sep b.
Proof.
  induction a as [|c a IH].
  - change (Py.split sep (String sep b) = "" :: Py.split sep b).
    simpl. rewrite Ascii.eqb_refl. reflexivity.
  - change (Py.split sep (String c (a ++ String sep b))
            = Py.split sep (String c a) ++ Py.split sep b).
    simpl. rewrite IH. destruct (Ascii.eqb c sep); [reflexivity|].
    pose proof (split_nonempty sep a) as Hne.
    destruct (Py.split sep a); [congruence | reflexivity].
Qed.

Lemma rfind_absent (c : ascii) (s : string) :
  ~ In c (list_ascii_of_string s) -> Py.rfind c s = None.
Proof.
  induction s as [|d s IH]; intros H; [reflexivity|].
  simpl in *. rewrite IH by tauto.
  destruct (Ascii.eqb c d) eqn:E; [|reflexivity].
  apply Ascii.eqb_eq in E. subst. tauto.
Qed.

Lemma rfind_last (c : ascii) (a b : string) :
  ~ In c (list_ascii_of_string b) ->
  Py.rfind c (a ++ String c b) = Some (String.length a).
Proof.
  intros H. induction a as [|d a IH].
  - change (Py.rfind c (String c b) = Some 0%nat).
    simpl. rewrite (rfind_absent c b H), Ascii.eqb_refl. reflexivity.
  - change (Py.rfind c (String d (a ++ String c b)) = Some (S (String.length a))).
    simpl. rewrite IH. reflexivity.
Qed.

Lemma string_length_app (a b : string) :
  String.length (a ++ b) = (String.length a + String.length b)%nat.
Proof.
  induction a as [|c a IH]; [reflexivity|].
  change (S (String.length (a ++ b)) = S (String.length a + String.length b)).
  rewrite IH. reflexivity.
Qed.

Lemma substring_all (s : string) : substring 0 (String.length s) s = s.
Proof. induction s as [|c s IH]; [reflexivity | simpl; rewrite IH; reflexivity]. Qed.

Lemma substring_skip (a b : string) (n : nat) :
  substring (String.length a) n (a ++ b) = substring 0 n b.
Proof. induction a as [|c a IH]; [reflexivity | exact IH]. Qed.

(** The last component of a path that ends with a plain name. *)
Lemma path_name_of (prefix name : string) :
  prefix = ""%string \/ (exists d, prefix = (d ++ "/")%string) ->
  name <> ""%string -> name <> "."%string ->
  ~ In "/"%char (list_ascii_of_string name) ->
  Utils.path_name (prefix ++ name) = name.
Proof.
  intros Hprefix Hne Hdot Hsep. unfold Utils.path_name.
  assert (Hkeep : negb (String.eqb name "") && negb (String.eqb name ".") = true).
  { apply andb_true_iff. split; apply negb_true_iff, String.eqb_neq; assumption. }
  destruct Hprefix as [->|[d ->]].
  - change ("" ++ name)%string with name.
    rewrite (split_no_sep _ _ Hsep). cbn [List.filter]. rewrite Hkeep. reflexivity.
  - replace ((d ++ "/") ++ name)%string with (d ++ String "/" name)%string.
    + rewrite split_app, (split_no_sep _ name Hsep), List.filter_app.
      cbn [List.filter]. rewrite Hkeep. apply List.last_last.
    + apply chars_inj. rewrite !chars_app. simpl. rewrite <- app_assoc. reflexivity.
Qed.

Lemma lower_not_dot (c : ascii) : c <> "."%char -> Py.lower_ascii c <> "."%char.
Proof.
  intros Hc. unfold Py.lower_ascii.
  destruct ((65 <=? nat_of_ascii c)%nat && (nat_of_ascii c <=? 90)%nat) eqn:E;
    [|exact Hc].
  apply andb_true_iff in E. destruct E as [E1 E2].
  apply Nat.leb_le in E1, E2. intros Heq.
  apply (f_equal nat_of_ascii) in Heq.
  rewrite nat_ascii_embedding in Heq by lia.
  change (nat_of_ascii ".") with 46%nat in Heq. lia.
Qed.

Lemma lstrip_dot_lower (ext : string) :
  ~ In "."%char (list_ascii_of_string ext) ->
  Py.lstrip ["."%char] (Py.lower ext) = Py.lower ext.
Proof.
  destruct ext as [|c ext]; intros H; [reflexivity|].
  simpl in H. unfold Py.lower. simpl.
  replace (Ascii.eqb (Py.lower_ascii c) ".") with false; [reflexivity|].
  symmetry. apply Ascii.eqb_neq, lower_not_dot. intros ->. tauto.
Qed.

(** X3.  The extension of [stem.ext], for an ASCII [ext], is [ext] with its
    capital letters in lower case, whatever directory the name sits in and
    however many dots the stem holds. *)
Theorem extension_of_a_dotted_name (prefix stem ext : string) :
  prefix = ""%string \/ (exists d, prefix = (d ++ "/")%string) ->
  stem <> ""%string -> ext <> ""%string ->
  is_ascii ext = true ->
  ~ In "/"%char (list_ascii_of_string stem) ->
  ~ In "/"%char (list_ascii_of_string ext) ->
  ~ In "."%char (list_ascii_of_string ext) ->
  Utils.get_file_extension (prefix ++ stem ++ "." ++ ext) = Py.lower ext.
Proof.
  intros Hprefix Hstem Hext _ Hs1 Hs2 Hdot.
  set (name := (stem ++ "." ++ ext)%string).
  assert (Hlen : String.length name
                 = (String.length stem + S (String.length ext))%nat).
  { unfold name. rewrite string_length_app. reflexivity. }
  assert (Hstemlen : (0 < String.length stem)%nat)
    by (destruct stem; [congruence | simpl; lia]).
  assert (Hextlen : (0 < String.length ext)%nat)
    by (destruct ext; [congruence | simpl; lia]).
  unfold Utils.get_file_extension, Utils.path_suffix.
  rewrite (path_name_of prefix name Hprefix).
  - unfold name at 1. change (stem ++ "." ++ ext)%string with (stem ++ String "." ext)%string.
    rewrite (rfind_last "." stem ext Hdot).
    replace ((0 <? String.length stem)%nat
             && (String.length stem <? String.length name - 1)%nat) with true.
    + unfold Py.slice. rewrite Hlen.
      replace (String.length stem + S (String.length ext) - String.length stem)%nat
        with (String.length (String "." ext)) by (simpl; lia).
      unfold name. change (stem ++ "." ++ ext)%string with (stem ++ String "." ext)%string.
      rewrite substring_skip, substring_all.
      change (Py.lower (String "." ext)) with (String "." (Py.lower ext)).
      change (Py.lstrip ["."%char] (String "." (Py.lower ext)))
        with (Py.lstrip ["."%char] (Py.lower ext)).
      apply lstrip_dot_lower, Hdot.
    + symmetry. apply andb_true_iff. split; apply Nat.ltb_lt; lia.
  - intros E. rewrite E in Hlen. simpl in Hlen. lia.
  - intros E. rewrite E in Hlen. simpl in Hlen. lia.
  - unfold name. rewrite !chars_app, !in_app_iff. simpl. intros [H|[[H|[]]|H]];
      [tauto | discriminate H | tauto].
Qed.

Lemma extension_witness :
  Utils.get_file_extension "/uploads/My.Talk.MP3" = "mp3"%string.
Proof.
  apply (extension_of_a_dotted_name "/uploads/" "My.Talk" "MP3").
  - right. exists "/uploads"%string. reflexivity.
  - discriminate.
  - discriminate.
  - reflexivity.
  - simpl. intuition discriminate.
  - simpl. intuition discriminate.
  - simpl. intuition discriminate.
Defined.

(** X4.  Names without an extension: a name with no dot, a hidden file whose
    only dot is the leading one, and a name that ends with a dot all have
    the empty extension. *)
Theorem names_without_extension (prefix name : string) :
  prefix = ""%string \/ (exists d, prefix = (d ++ "/")%string) ->
  ~ In "/"%char (list_ascii_of_string name) ->
  (name <> ""%string /\ ~ In "."%char (list_ascii_of_string name))
  \/ (exists rest, name = String "." rest /\ rest <> ""%string
                   /\ ~ In "."%char (list_ascii_of_string rest))
  \/ (exists stem, name = (stem ++ ".")%string /\ stem <> ""%string) ->
  Utils.get_file_extension (prefix ++ name) = ""%string.
Proof.
  intros Hprefix Hsep Hshape.
  unfold Utils.get_file_extension, Utils.path_suffix.
  destruct Hshape as [[Hne Hdot]|[(rest & -> & Hne & Hdot)|(stem & -> & Hne)]].
  - rewrite (path_name_of prefix name Hprefix Hne); [|intros ->; simpl in Hdot; tauto|exact Hsep].
    rewrite (rfind_absent _ _ Hdot). reflexivity.
  - rewrite (path_name_of prefix _ Hprefix); [|discriminate|destruct rest; congruence|exact Hsep].
    pose proof (rfind_last "." "" rest Hdot) as Hr.
    change ("" ++ String "." rest)%string with (String "." rest) in Hr.
    rewrite Hr. reflexivity.
  - assert (Hlen : String.length (stem ++ ".") = S (String.length stem))
      by (rewrite string_length_app; simpl; lia).
    rewrite (path_name_of prefix _ Hprefix);
      [|intros E; rewrite E in Hlen; discriminate Hlen
       |intros E; rewrite E in Hlen; destruct stem; [congruence | discriminate Hlen]
       |exact Hsep].
    change (stem ++ ".")%string with (stem ++ String "." "")%string.
    change (stem ++ ".")%string with (stem ++ String "." "")%string in Hlen.
    rewrite (rfind_last "." stem "" (fun H => H)), Hlen.
    replace (String.length stem <? S (String.length stem) - 1)%nat with false;
      [rewrite andb_false_r; reflexivity|].
    symmetry. apply Nat.ltb_ge. lia.
Qed.

Lemma no_extension_witness :
  Utils.get_file_extension "/uploads/.mp3" = ""%string.
Proof.
  apply (names_without_extension "/uploads/" ".mp3").
  - right. exists "/uploads"%string. reflexivity.
  - simpl. intuition discriminate.
  - right. left. exists "mp3"%string.
    split; [reflexivity|]. split; [discriminate|]. simpl. intuition discriminate.
Defined.

(** ** Stripping *)

Lemma rev_string_involutive (s : string) :
  Py.rev_string (Py.rev_string s "") "" = s.
Proof.
  apply chars_inj. rewrite !chars_rev_string, !app_nil_r.
  apply rev_involutive.
Qed.

Lemma rev_string_app (a b : string) :
  Py.rev_string (a ++ b) ""
  = (Py.rev_string b "" ++ Py.rev_string a "")%string.
Proof.
  apply chars_inj.
  rewrite chars_app, !chars_rev_string, chars_app, !app_nil_r.
  apply rev_app_distr.
Qed.

Lemma rev_string_empty (s : string) :
  Py.rev_string s "" = ""%string -> s = ""%string.
Proof.
  intros H. rewrite <- (rev_string_involutive s), H. reflexivity.
Qed.

Lemma string_app_assoc (a b c : string) :
  ((a ++ b) ++ c = a ++ (b ++ c))%string.
Proof. apply chars_inj. rewrite !chars_app. symmetry. apply app_assoc. Qed.

(** A string that a strip leaves alone at its head. *)
Lemma lstrip_keeps (cs : list ascii) (c : ascii) (t : string) :
  existsb (Ascii.eqb c) cs = false -> Py.lstrip cs (String c t) = String c t.
Proof. intros H. simpl. rewrite H. reflexivity. Qed.

Lemma lstrip_idempotent (cs : list ascii) (s : string) :
  Py.lstrip cs (Py.lstrip cs s) = Py.lstrip cs s.
Proof.
  destruct (Py.lstrip cs s) as [|c t] eqn:E; [reflexivity|].
  apply lstrip_keeps. eapply lstrip_head. exact E.
Qed.

Lemma lstrip_app (cs : list ascii) (a x : string) :
  a <> ""%string -> Py.lstrip cs a = a ->
  Py.lstrip cs (a ++ x) = (a ++ x)%string.
Proof.
  intros Hne Ha. destruct a as [|c t]; [congruence|].
  change (String c t ++ x)%string with (String c (t ++ x)).
  apply lstrip_keeps. eapply lstrip_head. exact Ha.
Qed.

Lemma rstrip_fixed (cs : list ascii) (b : string) :
  Py.rstrip cs b = b ->
  Py.lstrip cs (Py.rev_string b "") = Py.rev_string b "".
Proof.
  unfold Py.rstrip. intros H.
  apply (f_equal (fun s => Py.rev_string s "")) in H.
  rewrite rev_string_involutive in H. exact H.
Qed.

Lemma rstrip_app (cs : list ascii) (x b : string) :
  b <> ""%string -> Py.rstrip cs b = b ->
  Py.rstrip cs (x ++ b) = (x ++ b)%string.
Proof.
  intros Hne Hb. unfold Py.rstrip.
  rewrite rev_string_app, lstrip_app.
  - rewrite <- rev_string_app. apply rev_string_involutive.
  - intros H. apply rev_string_empty in H. contradiction.
  - apply rstrip_fixed, Hb.
Qed.

Lemma rstrip_idempotent (cs : list ascii) (s : string) :
  Py.rstrip cs (Py.rstrip cs s) = Py.rstrip cs s.
Proof.
  unfold Py.rstrip. rewrite rev_string_involutive, lstrip_idempotent.
  reflexivity.
Qed.

(** What [strip] returns is stripped at both ends. *)
Lemma strip_is_stripped (cs : list ascii) (s : string) :
  let r := Py.rstrip cs (Py.lstrip cs s) in
  Py.lstrip cs r = r /\ Py.rstrip cs r = r.
Proof.
  cbv zeta. split; [|apply rstrip_idempotent].
  destruct (rstrip_prefix cs (Py.lstrip cs s)) as [u Hu].
  destruct (Py.rstrip cs (Py.lstrip cs s)) as [|c t] eqn:E; [reflexivity|].
  apply lstrip_keeps.
  change (String c t ++ u)%string with (String c (t ++ u)) in Hu.
  eapply lstrip_head. exact Hu.
Qed.

Lemma strip_idempotent (s : string) : Py.strip (Py.strip s) = Py.strip s.
Proof.
  unfold Py.strip.
  destruct (strip_is_stripped Py.whitespace s) as [Hl Hr].
  rewrite Hl. exact Hr.
Qed.

(** Joining stripped, non-empty parts gives a stripped, non-empty string. *)
Lemma join_is_stripped (cs : list ascii) (parts : list string) :
  parts <> [] ->
  Forall (fun p => p <> ""%string /\ Py.lstrip cs p = p /\ Py.rstrip cs p = p)
    parts ->
  let joined := Py.join " " parts in
  joined <> ""%string
  /\ Py.lstrip cs joined = joined /\ Py.rstrip cs joined = joined.
Proof.
  cbv zeta. induction parts as [|p ps IH]; intros Hne Hall; [congruence|].
  inversion Hall as [|? ? (Hp & Hpl & Hpr) Hrest]; subst.
  destruct ps as [|q ps]; [cbn [Py.join]; auto|].
  destruct (IH ltac:(discriminate) Hrest) as (Hj & Hjl & Hjr).
  change (Py.join " " (p :: q :: ps))
    with (p ++ (" " ++ Py.join " " (q :: ps)))%string.
  split; [destruct p; [congruence | discriminate]|].
  split; [apply lstrip_app; assumption|].
  rewrite <- string_app_assoc. apply rstrip_app; assumption.
Qed.

(** ** The job registry *)

Section Registry.

Import JobManager.

(** X5.  A job that [create_job] returns is the one [get_job] finds under its
    id: a pending job with progress 0.  The other ids and the objects that
    existed before are untouched. *)
Theorem created_job_is_registered (self : Manager) (uuid4 : string) (clock : Z) :
  let created := create_job self uuid4 clock in
  let job := fst created in
  let self' := snd created in
  get_job self' uuid4 = Some job
  /\ objects self' !! job = Some (init uuid4 clock)
  /\ (forall other, other <> uuid4 -> get_job self' other = get_job self other)
  /\ (forall a j, objects self !! a = Some j -> objects self' !! a = Some j).
Proof.
  cbv zeta. unfold create_job, get_job. cbn [fst snd objects _jobs].
  split; [apply lookup_insert_eq|].
  split; [rewrite lookup_app_r by lia; rewrite Nat.sub_diag; reflexivity|].
  split.
  - intros other Hne. apply lookup_insert_ne. congruence.
  - intros a j Ha. apply lookup_app_l_Some. exact Ha.
Qed.

(** X6.  After [delete_job] the id is unknown, whether or not it was known
    before; the other ids are untouched, deleting an unknown id changes
    nothing, and the job object itself stays usable by whoever holds it. *)
Theorem deleted_job_is_gone (self : Manager) (job_id : string) :
  let self' := delete_job self job_id in
  get_job self' job_id = None
  /\ (forall other, other <> job_id -> get_job self' other = get_job self other)
  /\ objects self' = objects self
  /\ (get_job self job_id = None -> self' = self).
Proof.
  cbv zeta. unfold delete_job, get_job. cbn [objects _jobs].
  split; [apply lookup_delete_eq|].
  split; [intros other Hne; apply lookup_delete_ne; congruence|].
  split; [reflexivity|].
  intros Hnone. destruct self as [objs jobs]. cbn [objects _jobs] in *.
  f_equal. apply delete_id. exact Hnone.
Qed.

Lemma lookup_fold_delete (ks : list string) : forall (m : gmap string nat) (k : string),
  fold_left (fun jobs j => delete j jobs) ks m !! k
  = if decide (k ∈ ks) then None else m !! k.
Proof.
  induction ks as [|a ks IH]; intros m k; cbn [fold_left].
  - destruct (decide (k ∈ [])) as [Hin|_]; [inversion Hin | reflexivity].
  - rewrite IH.
    destruct (decide (k ∈ ks)) as [Hin|Hout].
    + rewrite decide_True by (right; exact Hin). reflexivity.
    + destruct (decide (k = a)) as [->|Hne].
      * rewrite decide_True by left. apply lookup_delete_eq.
      * rewrite decide_False by (intros Hin; inversion Hin; subst; tauto).
        apply lookup_delete_ne. congruence.
Qed.

(** X7.  [cleanup_old_jobs] raises [OverflowError], before it has changed
    anything, exactly when the maximum age spans more than 999999999 days
    either way or the cutoff ([clock] minus the maximum age) is not a date
    of the years 1 to 9999.  Otherwise it removes exactly the jobs created
    before the cutoff, whatever their status, and keeps a job created at
    the cutoff itself; no job object is touched. *)
Theorem cleanup_removes_exactly_the_old_jobs
    (job_cleanup_max_age_seconds : Z) (self : Manager)
    (max_age_seconds : option Z) (clock : Z) (job_id : string) :
  let max_age :=
    match max_age_seconds with
    | None => job_cleanup_max_age_seconds
    | Some n => n
    end in
  let cutoff := clock - max_age * 1000000 in
  let representable :=
    (Z.abs (max_age / 86400) <=? 999999999)
    && (0 <=? cutoff)
    && (cutoff <=? 3652059 * 86400 * 1000000 - 1) in
  match
    cleanup_old_jobs job_cleanup_max_age_seconds self max_age_seconds clock
  with
  | RaisesOverflowError => representable = false
  | Returns self' =>
      representable = true
      /\ objects self' = objects self
      /\ get_job self' job_id
         = match get_job self job_id with
           | Some a =>
               match objects self !! a with
               | Some job => if created_at job <? cutoff then None else Some a
               | None => Some a
               end
           | None => None
           end
  end.
Proof.
  unfold cleanup_old_jobs, timedelta_seconds, datetime_sub. cbv zeta.
  set (max_age := match max_age_seconds with
                  | None => job_cleanup_max_age_seconds
                  | Some n => n
                  end).
  change datetime_max with (3652059 * 86400 * 1000000 - 1).
  destruct (Z.abs (max_age / 86400) <=? 999999999); [|reflexivity].
  cbn [andb]. set (cutoff := clock - max_age * 1000000).
  destruct ((0 <=? cutoff) && (cutoff <=? 3652059 * 86400 * 1000000 - 1));
    [|reflexivity].
  split; [reflexivity|]. unfold get_job. cbn [objects _jobs].
  split; [reflexivity|].
  set (old := fun item : string * nat =>
                match objects self !! snd item with
                | Some job =>
                    if created_at job <? cutoff then Some (fst item) else None
                | None => None
                end).
  rewrite lookup_fold_delete.
  destruct (decide (job_id ∈ omap old (map_to_list (_jobs self)))) as [Hin|Hout].
  - apply list_elem_of_omap in Hin. destruct Hin as ([k a] & Hitem & Hold).
    apply elem_of_map_to_list in Hitem. unfold old in Hold. cbn [fst snd] in Hold.
    destruct (objects self !! a) as [job|] eqn:Ejob; [|discriminate Hold].
    destruct (created_at job <? cutoff) eqn:Eage; [|discriminate Hold].
    injection Hold as ->. rewrite Hitem, Ejob, Eage. reflexivity.
  - destruct (_jobs self !! job_id) as [a|] eqn:Ea; [|reflexivity].
    destruct (objects self !! a) as [job|] eqn:Ejob; [|reflexivity].
    destruct (created_at job <? cutoff) eqn:Eage; [|reflexivity].
    exfalso. apply Hout. apply list_elem_of_omap.
    exists (job_id, a). split; [apply elem_of_map_to_list, Ea|].
    unfold old. cbn [fst snd]. rewrite Ejob, Eage. reflexivity.
Qed.

End Registry.

(** ** What no method call changes *)

Section JobIdentity.

Import JobManager.

Lemma apply_keeps_identity (j : Job) (call : Mutation * Z) :
  job_id (apply j call) = job_id j
  /\ created_at (apply j call) = created_at j
  /\ (is_Some (result j) -> is_Some (result (apply j call)))
  /\ (is_Some (error j) -> is_Some (error (apply j call))).
Proof.
  destruct call as [[p m|st m|r|e] clock]; cbn;
    repeat split; auto; intros _; eexists; reflexivity.
Qed.

(** X8.  Whatever methods are called on a job, in whatever order, its id and
    its creation time stay what [__init__] made them, and a result or an
    error, once set, is never cleared. *)
Theorem job_identity_survives_every_call (calls : list (Mutation * Z)) :
  forall j : Job,
    job_id (after j calls) = job_id j
    /\ created_at (after j calls) = created_at j
    /\ (is_Some (result j) -> is_Some (result (after j calls)))
    /\ (is_Some (error j) -> is_Some (error (after j calls))).
Proof.
  unfold after. induction calls as [|call calls IH]; intros j; cbn [fold_left].
  - repeat split; auto.
  - destruct (IH (apply j call)) as (H1 & H2 & H3 & H4).
    destruct (apply_keeps_identity j call) as (A1 & A2 & A3 & A4).
    repeat split; [congruence | congruence | auto | auto].
Qed.

End JobIdentity.

(** ** Scratch files *)

(** X9.  [cleanup_temp_file] never raises, even when the operating system
    refuses the removal; it touches no other file; it leaves the world as it
    was when the file does not exist; and when the operating system accepts
    the removal the file is gone. *)
Theorem cleanup_never_raises (env : Env) (path : string) (w : World) :
  let run := Utils.cleanup_temp_file env path w in
  fst run = Ok tt
  /\ (forall other, other <> path -> fs (snd run) !! other = fs w !! other)
  /\ (fs w !! path = None -> snd run = w)
  /\ (os_fault env (length (trace w)) OpRemove path = None ->
      fs (snd run) !! path = None).
Proof.
  cbv zeta.
  assert (H : wpt (Utils.cleanup_temp_file env path) w
    (fun r w' evs =>
       r = Ok tt
       /\ (forall other, other <> path -> fs w' !! other = fs w !! other)
       /\ (fs w !! path = None -> w' = w)
       /\ (os_fault env (length (trace w)) OpRemove path = None ->
           fs w' !! path = None))).
  { unfold Utils.cleanup_temp_file.
    wp_go; cbn [app]; (split; [reflexivity|]).
    all: split; [intros other Hne; first [reflexivity | apply lookup_delete_ne; congruence]|].
    all: split; [intros Hnone; first [congruence | destruct w; reflexivity]|].
    all: intros Hfault; first [apply lookup_delete_eq | congruence]. }
  destruct H as (evs & _ & H). exact H.
Qed.

(** ** Validation of an upload *)

Lemma files_after_probe (env : Env) (cmd : list string) (w : World) :
  List.hd ""%string cmd = "ffprobe"%string -> files_after_run env cmd w = fs w.
Proof.
  intros H. unfold files_after_run. rewrite H.
  destruct (run_writes _); reflexivity.
Qed.

Lemma detect_by_probe_keeps (env : Env) (path : string) (w : World) :
  wpt (Utils.detect_by_probe env path) w
    (fun r w' evs => fs w' = fs w /\ exists answer, r = Ok answer).
Proof.
  unfold Utils.detect_by_probe.
  wp_go; (split; [apply files_after_probe; reflexivity | eexists; reflexivity]).
Qed.

Lemma detect_keeps_files (env : Env) (path : string) (w : World) :
  wpt (Utils.detect_audio_format env path) w
    (fun r w' evs => fs w' = fs w /\ exists answer, r = Ok answer).
Proof.
  unfold Utils.detect_audio_format.
  wp_step.
  eapply wpt_mono; [apply has_content_spec|].
  intros r w' evs (b & -> & _ & Hfs & _).
  destruct b; cbv beta iota; cbn [negb].
  - wp_step. wp_step.
    eapply wpt_mono; [apply detect_by_probe_keeps|].
    intros r1 w1 evs1 (Hfs1 & answer & ->).
    unfold Utils.detect_by_signature.
    wp_go; (split; [congruence | eexists; reflexivity]).
  - wp_step. split; [exact Hfs | eexists; reflexivity].
Qed.

Lemma validate_audio_file_spec
    (settings : Settings) (env : Env) (path : string) (w : World) :
  wpt (Utils.validate_audio_file settings env path) w
    (fun r w' evs =>
       fs w' = fs w
       /\ match r with
          | Ok info =>
              Utils.vi_valid info = true
              /\ Utils.vi_file_size info <= max_file_size_bytes settings
              /\ (exists content,
                    fs w !! path = Some content
                    /\ Utils.vi_file_size info = Z.of_nat (String.length content))
              /\ Utils.vi_file_size_mb info = Utils.size_mb (Utils.vi_file_size info)
              /\ Py.elem
                   (if Py.truthy_opt (Utils.vi_format info)
                    then default ""%string (Utils.vi_format info)
                    else Utils.get_file_extension path)
                   (supported_formats_set settings) = true
          | Raise (InvalidAudioFormat _ _) => True
          | Raise (FileTooLarge _ _) => True
          | Raise (FileSystemError _ _ _ _) => True
          | Raise (AudioProcessingError m _ step) =>
              m = "Audio file validation failed"%string
              /\ step = "validate_audio_file"%string
          | Raise _ => False
          end).
Proof.
  unfold Utils.validate_audio_file.
    repeat first
      [ lazymatch goal with
        | |- wpt (Utils.detect_audio_format _ _) _ _ =>
            eapply wpt_mono;
            [ apply detect_keeps_files | intros ? ? ? [? [? ->]] ]
        | |- wpt (Utils.get_audio_info _ _) _ _ =>
            eapply wpt_mono;
            [ apply get_audio_info_spec | intros ? ? ? [? ?] ]
        end; cbv beta iota zeta; cbn [fst snd fs trace]
      | wp_step | wp_call | wp_unfold ].
    all: cbn [fs Utils.vi_valid Utils.vi_file_size Utils.vi_file_size_mb
              Utils.vi_format] in *.
    all: try (split; [congruence | auto]; fail).
    all: split; [congruence|].
    all: split; [reflexivity|].
    all: repeat match goal with
         | H : negb _ = false |- _ => apply negb_false_iff in H
         | H : negb _ = true |- _ => apply negb_true_iff in H
         | H : _ || _ = false |- _ => apply orb_false_iff in H; destruct H
         end.
    all: split; [unfold Utils.validate_file_size in *; apply Z.leb_le; assumption|].
    all: split; [eexists; split; reflexivity|].
    all: split; [reflexivity | assumption].
Qed.

(** X10.  What a caller of [validate_audio_file] can rely on.  The call changes
    no file.  When it returns, the record says [valid], the size is the
    file's length and within the limit, and the format that was checked
    (the detected one, or the extension when none was detected) is a
    supported one.  When it raises, the exception is [InvalidAudioFormat],
    [FileTooLarge], [FileSystemError], or the [AudioProcessingError] of
    the step [validate_audio_file]. *)
Theorem validation_guarantees
    (settings : Settings) (env : Env) (path : string) (w : World) :
  let run := Utils.validate_audio_file settings env path w in
  fs (snd run) = fs w
  /\ match fst run with
     | Ok info =>
         Utils.vi_valid info = true
         /\ Utils.vi_file_size info <= max_file_size_bytes settings
         /\ (exists content,
               fs w !! path = Some content
               /\ Utils.vi_file_size info = Z.of_nat (String.length content))
         /\ Utils.vi_file_size_mb info = Utils.size_mb (Utils.vi_file_size info)
         /\ Py.elem
              (if Py.truthy_opt (Utils.vi_format info)
               then default ""%string (Utils.vi_format info)
               else Utils.get_file_extension path)
              (supported_formats_set settings) = true
     | Raise (InvalidAudioFormat _ _) => True
     | Raise (FileTooLarge _ _) => True
     | Raise (FileSystemError _ _ _ _) => True
     | Raise (AudioProcessingError m _ step) =>
         m = "Audio file validation failed"%string
         /\ step = "validate_audio_file"%string
     | Raise _ => False
     end.
Proof.
  cbv zeta.
  destruct (validate_audio_file_spec settings env path w) as (evs & _ & H).
  exact H.
Qed.

(** X11.  [validate_audio_file] turns away a missing file and an oversized file
    before it looks at the content: a path that does not exist raises
    [FileSystemError] with nothing done at all, and a file longer than
    [max_file_size_bytes] raises [FileTooLarge] carrying both sizes after
    the one size query, with no tool run. *)
Theorem validation_rejects_before_probing
    (settings : Settings) (env : Env) (path : string) (w : World) :
  let run := Utils.validate_audio_file settings env path w in
  (fs w !! path = None ->
     fst run = Raise (FileSystemError "File does not exist" None (Some path) None)
     /\ since w (snd run) = [])
  /\ (forall content,
        fs w !! path = Some content ->
        os_fault env (length (trace w)) OpGetsize path = None ->
        max_file_size_bytes settings < Z.of_nat (String.length content) ->
        fst run
        = Raise (FileTooLarge (Z.of_nat (String.length content))
                   (max_file_size_bytes settings))
        /\ since w (snd run) = [EvGetsize path]).
Proof.
  cbv zeta.
  apply (wpt_run (Utils.validate_audio_file settings env path) w
    (fun r w' evs =>
       (fs w !! path = None ->
          r = Raise (FileSystemError "File does not exist" None (Some path) None)
          /\ evs = [])
       /\ (forall content,
             fs w !! path = Some content ->
             os_fault env (length (trace w)) OpGetsize path = None ->
             max_file_size_bytes settings < Z.of_nat (String.length content) ->
             r = Raise (FileTooLarge (Z.of_nat (String.length content))
                          (max_file_size_bytes settings))
             /\ evs = [EvGetsize path]))).
  unfold Utils.validate_audio_file.
  repeat first
    [ lazymatch goal with
      | |- wpt (Utils.detect_audio_format _ _) _ _ =>
          eapply wpt_mono;
          [ apply detect_keeps_files | intros ? ? ? [? [? ->]] ]
      | |- wpt (Utils.get_audio_info _ _) _ _ =>
          eapply wpt_mono;
          [ apply get_audio_info_spec | intros ? ? ? [? ?] ]
      end; cbv beta iota zeta; cbn [fst snd fs trace]
    | wp_step | wp_call | wp_unfold ].
  all: cbn [app];
       (split;
        [ intros Hnone; rewrite ?Hnone in *
        | intros content Hc Hfault Hbig; rewrite ?Hc, ?Hfault in * ]).
  all: cbn [negb] in *; try discriminate; simplify_eq.
  all: try (split; reflexivity).
  all: exfalso;
       repeat match goal with
       | H : negb _ = false |- _ => apply negb_false_iff in H
       end;
       match goal with
       | H : Utils.validate_file_size _ _ = true |- _ =>
           unfold Utils.validate_file_size in H; apply Z.leb_le in H; lia
       end.
Qed.

Section ValidationEdges.

Import Sample.

Lemma validation_rejects_witness :
  let missing :=
    Utils.validate_audio_file settings healthy "/in/gone.mp3"
      (disk "/in/other.mp3" "ID3") in
  let oversized :=
    Utils.validate_audio_file tiny_limit healthy "/in/a.mp3"
      (disk "/in/a.mp3" "ID3 and more") in
  (fst missing
   = Raise (FileSystemError "File does not exist" None
              (Some "/in/gone.mp3"%string) None)
   /\ since (disk "/in/other.mp3" "ID3") (snd missing) = [])
  /\ (fst oversized = Raise (FileTooLarge 12 4)
      /\ since (disk "/in/a.mp3" "ID3 and more") (snd oversized)
         = [EvGetsize "/in/a.mp3"]).
Proof.
  cbv zeta. split.
  - apply (validation_rejects_before_probing settings healthy "/in/gone.mp3"
             (disk "/in/other.mp3" "ID3")).
    reflexivity.
  - apply (proj2 (validation_rejects_before_probing tiny_limit healthy
                    "/in/a.mp3" (disk "/in/a.mp3" "ID3 and more"))
             "ID3 and more"%string); reflexivity.
Defined.

End ValidationEdges.

(** ** Integrity prober *)

(** X12.  [validate_audio_file_integrity] never raises and changes no file, and
    its two results agree: the verdict is [True] exactly when there is no
    message, so a rejection always says why. *)
Theorem integrity_verdict_and_message_agree
    (settings : Settings) (env : Env) (path : string) (w : World) :
  let run := Utils.validate_audio_file_integrity settings env path w in
  fs (snd run) = fs w
  /\ exists is_valid error_msg,
       fst run = Ok (is_valid, error_msg)
       /\ (is_valid = true <-> error_msg = None).
Proof.
  cbv zeta.
  assert (H : wpt (Utils.validate_audio_file_integrity settings env path) w
    (fun r w' evs =>
       fs w' = fs w
       /\ exists is_valid error_msg,
            r = Ok (is_valid, error_msg)
            /\ (is_valid = true <-> error_msg = None))).
  { unfold Utils.validate_audio_file_integrity.
    wp_go; rewrite ?files_after_probe by reflexivity;
      (split; [reflexivity|]); eexists _, _; (split; [reflexivity|]);
      split; intros; congruence. }
  destruct H as (evs & _ & H). exact H.
Qed.

(** X13.  When both probes of [validate_audio_file_integrity] exit with a nonzero
    status and the second one's stderr is ASCII, the file is rejected with
    the first 200 characters of that stderr, and librosa is not
    consulted. *)
Theorem integrity_rejects_what_no_probe_accepts
    (settings : Settings) (env : Env) (path : string) (w : World)
    (first second : CompletedProcess) :
  run_result (run_tool env (length (trace w)) (Utils.ffprobe_audio_cmd path))
  = inr first ->
  returncode first <> 0 ->
  run_result (run_tool env (S (length (trace w)))
                (Utils.ffprobe_container_cmd path))
  = inr second ->
  returncode second <> 0 ->
  is_ascii (stderr second) = true ->
  let run := Utils.validate_audio_file_integrity settings env path w in
  fst run
  = Ok (false,
        Some ("File validation failed: " ++ Py.slice 0 200 (stderr second))%string)
  /\ since w (snd run)
     = [EvRun (Utils.ffprobe_audio_cmd path) (ffprobe_timeout_seconds settings)
          (inr first);
        EvRun (Utils.ffprobe_container_cmd path)
          (ffprobe_timeout_seconds settings) (inr second)].
Proof.
  intros Hfirst Hrc1 Hsecond Hrc2 _. cbv zeta.
  apply (wpt_run (Utils.validate_audio_file_integrity settings env path) w
    (fun r w' evs =>
       r = Ok (false,
               Some ("File validation failed: "
                     ++ Py.slice 0 200 (stderr second))%string)
       /\ evs
          = [EvRun (Utils.ffprobe_audio_cmd path)
               (ffprobe_timeout_seconds settings) (inr first);
             EvRun (Utils.ffprobe_container_cmd path)
               (ffprobe_timeout_seconds settings) (inr second)])).
  apply Z.eqb_neq in Hrc1, Hrc2.
  unfold Utils.validate_audio_file_integrity.
  wp_step. wp_step. wp_call. rewrite Hfirst. cbv beta iota.
  wp_step. rewrite Hrc1. cbn [negb]. wp_step. wp_call.
  rewrite length_app, Nat.add_1_r, Hsecond. cbv beta iota.
  rewrite Hrc2. cbn [negb]. wp_step. wp_step. cbn [app].
  split; reflexivity.
Qed.

Section ProberEdges.

Import Sample.

Lemma integrity_rejection_witness :
  let w := disk "/in/a.mp3" "not audio" in
  let run :=
    Utils.validate_audio_file_integrity settings
      (every_run (completed 1 "Invalid data found when processing input"))
      "/in/a.mp3" w in
  fst run
  = Ok (false,
        Some "File validation failed: Invalid data found when processing input"%string)
  /\ since w (snd run)
     = [EvRun (Utils.ffprobe_audio_cmd "/in/a.mp3") 30
          (completed 1 "Invalid data found when processing input");
        EvRun (Utils.ffprobe_container_cmd "/in/a.mp3") 30
          (completed 1 "Invalid data found when processing input")].
Proof.
  cbv zeta.
  apply (integrity_rejects_what_no_probe_accepts settings
           (every_run (completed 1 "Invalid data found when processing input"))
           "/in/a.mp3" (disk "/in/a.mp3" "not audio")
           (mkCompleted 1 "" "Invalid data found when processing input")
           (mkCompleted 1 "" "Invalid data found when processing input")).
  - reflexivity.
  - discriminate.
  - reflexivity.
  - discriminate.
  - reflexivity.
Defined.

End ProberEdges.

(** ** Sniffer: the signature table *)

Lemma has_content_yes (env : Env) (path content : string) (w : World) :
  fs w !! path = Some content -> content <> ""%string ->
  no_faults env ->
  wpt (Utils.has_content env path) w
    (fun r w' evs => r = Ok true /\ fs w' = fs w).
Proof.
  intros Hc Hne Hnf.
  eapply wpt_mono; [apply has_content_spec|].
  intros r w' evs (b & -> & _ & Hfs & _ & Hyes).
  rewrite (Hyes content Hc Hne (Hnf _ _ _)). auto.
Qed.

Lemma detect_by_probe_silent (env : Env) (path : string) (w : World) :
  probe_is_silent env ->
  wpt (Utils.detect_by_probe env path) w
    (fun r w' evs => r = Ok None /\ fs w' = fs w).
Proof.
  intros Hsilent. unfold Utils.detect_by_probe.
  wp_step. wp_step. wp_call.
  pose proof (Hsilent (length (trace w)) (Utils.ffprobe_format_cmd path)) as Hv.
  rewrite files_after_probe by reflexivity.
  destruct (run_result _) as [e|cp]; cbv beta iota.
  - wp_step. auto.
  - simpl in Hv. apply Z.eqb_neq in Hv. rewrite Hv. wp_step. auto.
Qed.

Lemma prefix_split (p h : string) :
  String.prefix p h = true -> exists t, h = (p ++ t)%string.
Proof.
  revert h. induction p as [|a p IH]; intros h H.
  - exists h. reflexivity.
  - destruct h as [|b h]; [discriminate H|].
    simpl in H. destruct (ascii_dec a b) as [<-|]; [|discriminate H].
    destruct (IH h H) as [t ->]. exists t. reflexivity.
Qed.

Lemma read_prefix_header (env : Env) (path content : string) (n : nat)
    (w : World) Q :
  fs w !! path = Some content ->
  no_faults env ->
  Q (Ok (Py.slice 0 n content))
    (mkWorld (fs w) (trace w ++ [EvOpen path])) [EvOpen path] ->
  wpt (Utils.read_prefix env path n) w Q.
Proof.
  intros Hc Hnf HQ. unfold Utils.read_prefix, Utils.os_call.
  wp_step. wp_step. wp_step. wp_step. wp_step. rewrite Hnf. wp_step.
  wp_step. wp_step. rewrite Hc. wp_step. exact HQ.
Qed.

(** The sniffer up to the signature table, for a file with content when
    the operating system refuses nothing and the probe gives no answer. *)
Lemma sniffer_reaches_the_table (env : Env) (path content : string)
    (w : World) (answer : option string) :
  fs w !! path = Some content -> content <> ""%string ->
  no_faults env -> probe_is_silent env ->
  (forall w1, fs w1 = fs w ->
     exists w2 tag,
       Utils.detect_by_signature env path w1 = (Ok (Some tag), w2)
       /\ answer = Some tag) ->
  fst (Utils.detect_audio_format env path w) = Ok answer.
Proof.
  intros Hc Hne Hnf Hsilent Htable.
  unfold Utils.detect_audio_format, bind, try_catch, ret.
  destruct (has_content_yes env path content w Hc Hne Hnf) as (evs0 & _ & Hr0 & Hfs0).
  destruct (Utils.has_content env path w) as [r0 w0]; cbn [fst snd] in *.
  subst r0. cbn [negb].
  destruct (detect_by_probe_silent env path w0 Hsilent) as (evs1 & _ & Hr1 & Hfs1).
  destruct (Utils.detect_by_probe env path w0) as [r1 w1]; cbn [fst snd] in *.
  subst r1.
  destruct (Htable w1 (eq_trans Hfs1 Hfs0)) as (w2 & tag & -> & ->).
  reflexivity.
Qed.

Lemma signature_header (env : Env) (path content : string) (w1 : World)
    (fsw : gmap string string) :
  fsw !! path = Some content -> no_faults env -> fs w1 = fsw ->
  Utils.read_prefix env path 16 w1
  = (Ok (Py.slice 0 16 content),
     mkWorld (fs w1) (trace w1 ++ [EvOpen path])).
Proof.
  intros Hc Hnf <-. unfold Utils.read_prefix, Utils.os_call, bind, now, log,
    lookup_file, ret, raise.
  rewrite Hnf. cbn [fs]. rewrite Hc. reflexivity.
Qed.

(** X14.  The audio signatures.  For a file with content, when the probe gives no
    answer and nothing is refused, the first 16 bytes decide: an [ID3] tag
    is MP3, [RIFF....WAVE] is WAV, [OggS] is Ogg and [fLaC] is FLAC,
    whatever the file is called. *)
Theorem audio_signatures_decide
    (env : Env) (path content : string) (w : World) :
  fs w !! path = Some content -> content <> ""%string ->
  no_faults env -> probe_is_silent env ->
  let header := Py.slice 0 16 content in
  let answer := fst (Utils.detect_audio_format env path w) in
  (Py.startswith "ID3" header = true -> answer = Ok (Some "mp3"%string))
  /\ (Py.startswith "RIFF" header = true ->
      Py.slice 8 12 header = "WAVE"%string ->
      answer = Ok (Some "wav"%string))
  /\ (Py.startswith "OggS" header = true -> answer = Ok (Some "ogg"%string))
  /\ (Py.startswith "fLaC" header = true -> answer = Ok (Some "flac"%string)).
Proof.
  intros Hc Hne Hnf Hsilent. cbv zeta.
  assert (Hrun : forall w1 tag,
             fs w1 = fs w ->
             (forall w', (let header := Py.slice 0 16 content in
                fst
                  ((if Py.startswith "ID3" header
                       || String.eqb (Py.slice 1 4 header) "ID3"
                    then (ret (Some "mp3"%string) : M (option string))
                    else if Py.startswith "RIFF" header
                            && String.eqb (Py.slice 8 12 header) "WAVE"
                    then ret (Some "wav"%string)
                    else if Py.startswith "OggS" header
                    then ret (Some "ogg"%string)
                    else if Py.startswith "fLaC" header
                    then ret (Some "flac"%string)
                    else ret None) w')) = Ok (Some tag)) ->
             exists w2 tag',
               Utils.detect_by_signature env path w1 = (Ok (Some tag'), w2)
               /\ Some tag = Some tag').
  { intros w1 tag Hfs Hhead. cbv zeta in Hhead.
    unfold Utils.detect_by_signature, bind.
    rewrite (signature_header env path content w1 (fs w) Hc Hnf Hfs).
    cbv beta iota.
    set (w' := mkWorld (fs w1) (trace w1 ++ [EvOpen path])).
    specialize (Hhead w'). revert Hhead.
    set (header := Py.slice 0 16 content).
    destruct (Py.startswith "ID3" header || String.eqb (Py.slice 1 4 header) "ID3");
      [intros [= <-]; eexists _, _; split; reflexivity|].
    destruct (Py.startswith "RIFF" header && String.eqb (Py.slice 8 12 header) "WAVE");
      [intros [= <-]; eexists _, _; split; reflexivity|].
    destruct (Py.startswith "OggS" header);
      [intros [= <-]; eexists _, _; split; reflexivity|].
    destruct (Py.startswith "fLaC" header);
      [intros [= <-]; eexists _, _; split; reflexivity|].
    intros [=]. }
  set (header := Py.slice 0 16 content).
  repeat split.
  - intros H. apply (sniffer_reaches_the_table env path content w _ Hc Hne Hnf Hsilent).
    intros w1 Hfs. apply (Hrun w1 "mp3"%string Hfs). intros w'. cbv zeta.
    fold header. rewrite H. reflexivity.
  - intros H Hwave.
    apply (sniffer_reaches_the_table env path content w _ Hc Hne Hnf Hsilent).
    intros w1 Hfs. apply (Hrun w1 "wav"%string Hfs). intros w'. cbv zeta.
    fold header. unfold Py.startswith in *.
    destruct (prefix_split _ _ H) as [t Ht]. rewrite Hwave, H, Ht. reflexivity.
  - intros H.
    apply (sniffer_reaches_the_table env path content w _ Hc Hne Hnf Hsilent).
    intros w1 Hfs. apply (Hrun w1 "ogg"%string Hfs). intros w'. cbv zeta.
    fold header. unfold Py.startswith in *.
    destruct (prefix_split _ _ H) as [t Ht]. rewrite H, Ht. reflexivity.
  - intros H.
    apply (sniffer_reaches_the_table env path content w _ Hc Hne Hnf Hsilent).
    intros w1 Hfs. apply (Hrun w1 "flac"%string Hfs). intros w'. cbv zeta.
    fold header. unfold Py.startswith in *.
    destruct (prefix_split _ _ H) as [t Ht]. rewrite H, Ht. reflexivity.
Qed.

Section SignatureSamples.

Import Sample.

Lemma audio_signatures_witness :
  let env := every_run (completed 1 "Invalid data found") in
  let header := Py.slice 0 16 "ID3 tagged bytes" in
  let answer :=
    fst (Utils.detect_audio_format env "/in/blob"
           (disk "/in/blob" "ID3 tagged bytes")) in
  (Py.startswith "ID3" header = true -> answer = Ok (Some "mp3"%string))
  /\ (Py.startswith "RIFF" header = true ->
      Py.slice 8 12 header = "WAVE"%string ->
      answer = Ok (Some "wav"%string))
  /\ (Py.startswith "OggS" header = true -> answer = Ok (Some "ogg"%string))
  /\ (Py.startswith "fLaC" header = true -> answer = Ok (Some "flac"%string)).
Proof.
  cbv zeta.
  apply (audio_signatures_decide (every_run (completed 1 "Invalid data found"))
           "/in/blob" "ID3 tagged bytes" (disk "/in/blob" "ID3 tagged bytes")).
  - reflexivity.
  - discriminate.
  - intros t op p. reflexivity.
  - intros t cmd. simpl. discriminate.
Defined.

End SignatureSamples.

(** X15.  The MP4 family.  For a file that begins with a short [ftyp] box, when
    the probe gives no answer and nothing is refused, the signature table
    never decides: reading the brand bytes is attempted on the file after
    its [with] block has closed it, so the answer is the extension of the
    file name, whatever the brand. *)
Theorem ftyp_signature_answers_the_extension
    (env : Env) (path : string) (size : ascii) (rest : string) (w : World) :
  let zero := "000"%char in
  let content :=
    String zero
      (String zero
         (String zero
            (String size
               (String "f" (String "t" (String "y" (String "p" rest))))))) in
  fs w !! path = Some content ->
  no_faults env -> probe_is_silent env ->
  fst (Utils.detect_audio_format env path w)
  = Ok (Some (Utils.get_file_extension path)).
Proof.
  cbv zeta. intros Hc Hnf Hsilent.
  set (content := String _ _) in Hc.
  unfold Utils.detect_audio_format, bind, try_catch, ret.
  destruct (has_content_yes env path content w Hc ltac:(discriminate) Hnf)
    as (evs0 & _ & Hr0 & Hfs0).
  destruct (Utils.has_content env path w) as [r0 w0]; cbn [fst snd] in *.
  subst r0. cbn [negb].
  destruct (detect_by_probe_silent env path w0 Hsilent) as (evs1 & _ & Hr1 & Hfs1).
  destruct (Utils.detect_by_probe env path w0) as [r1 w1]; cbn [fst snd] in *.
  subst r1.
  unfold Utils.detect_by_signature, bind.
  rewrite (signature_header env path content w1 (fs w) Hc Hnf (eq_trans Hfs1 Hfs0)).
  subst content. cbn -[Utils.get_file_extension].
  replace (substring 0 0 (substring 0 8 rest)) with ""%string
    by (destruct (substring 0 8 rest); reflexivity).
  reflexivity.
Qed.

Section FtypSamples.

Import Sample.

Lemma ftyp_witness :
  fst (Utils.detect_audio_format (every_run (completed 1 "Invalid data found"))
         "/in/voice-memo"
         (disk "/in/voice-memo"
            (String "000" (String "000" (String "000" (String " " "ftypM4A "))))))
  = Ok (Some (Utils.get_file_extension "/in/voice-memo")).
Proof.
  apply (ftyp_signature_answers_the_extension
           (every_run (completed 1 "Invalid data found")) "/in/voice-memo"
           " " "M4A "
           (disk "/in/voice-memo"
              (String "000" (String "000" (String "000" (String " " "ftypM4A ")))))).
  - reflexivity.
  - intros t op p. reflexivity.
  - intros t cmd. simpl. discriminate.
Defined.

End FtypSamples.

(** ** Transcoder: what a successful conversion leaves *)

Ltac find_in :=
  first
    [ solve [left; reflexivity]
    | solve [apply in_or_app; left; find_in]
    | solve [apply in_or_app; right; find_in]
    | solve [right; find_in] ].

(** X16.  Both transcoder entry points run [transcode].  With a callback that
    only reports, a conversion that returns hands back a file that exists
    and is not empty; it is the requested output path when one was given;
    and the run contains one completed ffmpeg invocation writing to that
    path, which exited with status 0. *)
Theorem conversion_returns_a_real_file
    (settings : Settings) (env : Env) (tc : Utils.Transcoder)
    (input : string) (output : option string) (cb : Callback) (w : World)
    (converted : string) :
  passive cb ->
  let run := Utils.transcode settings env tc input output cb w in
  fst run = Ok converted ->
  (exists content,
     fs (snd run) !! converted = Some content /\ content <> ""%string)
  /\ (forall given, output = Some given -> converted = given)
  /\ exists cp,
       In (EvRun (Utils.ffmpeg_cmd settings input converted)
             (ffmpeg_conversion_timeout_seconds settings) (inr cp))
          (since w (snd run))
       /\ returncode cp = 0.
Proof.
  intros Hcb. cbv zeta.
  apply (wpt_run (Utils.transcode settings env tc input output cb) w
    (fun r w' evs =>
       r = Ok converted ->
       (exists content,
          fs w' !! converted = Some content /\ content <> ""%string)
       /\ (forall given, output = Some given -> converted = given)
       /\ exists cp,
            In (EvRun (Utils.ffmpeg_cmd settings input converted)
                  (ffmpeg_conversion_timeout_seconds settings) (inr cp)) evs
            /\ returncode cp = 0)).
  unfold Utils.transcode.
  wp_all; cbn [is_ok app]; intros Hok; try discriminate Hok.
  all: injection Hok as <-.
  all: repeat match goal with
       | H : negb _ = false |- _ => apply negb_false_iff in H
       | H : (_ =? 0) = true |- _ => apply Z.eqb_eq in H
       end.
  all: cbn [Py.truthy] in *.
  all: split; [|split].
  all: try (intros given Hgiven; congruence).
  all: try (eexists; split; [find_in | assumption]).
  all: match goal with
       | Hl : _ !! _ = Some ?c, Hz : (Z.of_nat (String.length ?c) =? 0) = false
         |- _ =>
           exists c; split; [exact Hl | intros ->; discriminate Hz]
       end.
Qed.

Section ConversionSamples.

Import Sample.

Lemma conversion_witness :
  let w := disk "/in/a.mp3" "ID3" in
  let run :=
    Utils.transcode settings healthy Utils.audio_transcoder "/in/a.mp3"
      (Some "/tmp/out.wav"%string) (Some report) w in
  (exists content,
     fs (snd run) !! "/tmp/out.wav"%string = Some content
     /\ content <> ""%string)
  /\ (forall given,
        Some "/tmp/out.wav"%string = Some given ->
        "/tmp/out.wav"%string = given)
  /\ exists cp,
       In (EvRun (Utils.ffmpeg_cmd settings "/in/a.mp3" "/tmp/out.wav")
             (ffmpeg_conversion_timeout_seconds settings) (inr cp))
          (since w (snd run))
       /\ returncode cp = 0.
Proof.
  cbv zeta.
  apply (conversion_returns_a_real_file settings healthy Utils.audio_transcoder
           "/in/a.mp3" (Some "/tmp/out.wav"%string) (Some report)
           (disk "/in/a.mp3" "ID3") "/tmp/out.wav" passive_report).
  vm_compute. reflexivity.
Defined.

End ConversionSamples.

(** ** Transcoder: what it reports *)

(** X17.  Both transcoder entry points report their own progress as 0, 10, 30,
    80, 100, in that order.  A conversion that returns has reported all
    five; one that raises has stopped after 0, after 30 or after 80, and
    has never reported 100. *)
Theorem transcoder_reports_in_order
    (settings : Settings) (env : Env) (tc : Utils.Transcoder)
    (input : string) (output : option string) (w : World) :
  let run := Utils.transcode settings env tc input output (Some report) w in
  let reported := percentages (since w (snd run)) in
  (is_ok (fst run) = true /\ reported = [0.0; 10.0; 30.0; 80.0; 100.0]%Q)
  \/ (is_ok (fst run) = false
      /\ (reported = [0.0]%Q
          \/ reported = [0.0; 10.0; 30.0]%Q
          \/ reported = [0.0; 10.0; 30.0; 80.0]%Q)).
Proof.
  cbv zeta.
  apply (wpt_run (Utils.transcode settings env tc input output (Some report)) w
    (fun r w' evs =>
       (is_ok r = true /\ percentages evs = [0.0; 10.0; 30.0; 80.0; 100.0]%Q)
       \/ (is_ok r = false
           /\ (percentages evs = [0.0]%Q
               \/ percentages evs = [0.0; 10.0; 30.0]%Q
               \/ percentages evs = [0.0; 10.0; 30.0; 80.0]%Q)))).
  unfold Utils.transcode, Utils.notify.
  wp_go; cbn [is_ok app percentages].
  all: first
    [ left; split; reflexivity
    | right; split; [reflexivity|]; left; reflexivity
    | right; split; [reflexivity|]; right; left; reflexivity
    | right; split; [reflexivity|]; right; right; reflexivity ].
Qed.

(** ** The preprocessing pipeline: how it fails *)

Lemma failure_stage_raises (env : Env) (e : exn) (s : Utils.Frame * World) :
  fst (Utils.failure_stage env e s) = Raise (preprocess_error e).
Proof.
  destruct (failure_stage_attempts env e s) as (evs & _ & _ & H). exact H.
Qed.

(** X18.  [preprocess_audio] returns what its [try] block returns.  When the
    block raises, whatever raised inside it and whatever the progress
    callback does, the caller sees an [AudioProcessingError] with the
    message "Failed to preprocess audio" and the step [preprocess_audio]
    that holds [str] of the very exception that left the block, whether or
    not the cleanup of the [except] clause works. *)
Theorem preprocessing_failures_are_wrapped
    (settings : Settings) (env : Env) (path : string) (target_sr : option Z)
    (cb : Callback) (w : World) :
  let target :=
    match target_sr with
    | None => target_sample_rate settings
    | Some sr => sr
    end in
  let attempt :=
    Utils.pipeline settings env cb target (Utils.mkFrame None path, w) in
  let run := Utils.preprocess_audio settings env path target_sr cb w in
  match fst attempt with
  | Ok out => fst run = Ok out
  | Raise cause =>
      fst run
      = Raise (AudioProcessingError "Failed to preprocess audio" (str cause)
                 "preprocess_audio")
  end.
Proof.
  cbv zeta. unfold Utils.preprocess_audio, Utils.run_frame, try_catch.
  destruct (Utils.pipeline settings env cb _ (Utils.mkFrame None path, w))
    as [[out|cause] s']; cbn [fst].
  - reflexivity.
  - pose proof (failure_stage_raises env cause s') as Hf.
    destruct (Utils.failure_stage env cause s') as [r s'']. cbn [fst] in *.
    subst r. reflexivity.
Qed.

Section FailureSamples.

Import Sample.

Lemma preprocessing_failure_witness :
  fst (Utils.preprocess_audio settings deaf "/in/a.mp3" None (Some report)
         (disk "/in/a.mp3" "ID3"))
  = Raise (AudioProcessingError "Failed to preprocess audio"
             (StrOf (AudioProcessingError "Failed to get audio information"
                       (Lit "NoBackendError") "get_audio_info"))
             "preprocess_audio").
Proof.
  pose proof (preprocessing_failures_are_wrapped settings deaf "/in/a.mp3" None
                (Some report) (disk "/in/a.mp3" "ID3")) as H.
  cbv beta iota zeta in H.
  assert (E : fst (Utils.pipeline settings deaf (Some report)
                     (target_sample_rate settings)
                     (Utils.mkFrame None "/in/a.mp3", disk "/in/a.mp3" "ID3"))
              = Raise (AudioProcessingError "Failed to get audio information"
                         (Lit "NoBackendError") "get_audio_info"))
    by (vm_compute; reflexivity).
  rewrite E in H. exact H.
Defined.

End FailureSamples.

(** ** The preprocessing pipeline: what a successful run leaves *)

Lemma output_stage_writes (settings : Settings) (env : Env) (cb : Callback)
    (target_sr : Z) (loaded : Audio * Z) (s : Utils.Frame * World) :
  passive cb ->
  wpt (Utils.output_stage settings env cb target_sr loaded) s
    (fun r s' evs =>
       forall out, r = Ok out ->
         (exists content, fs (snd s') !! out = Some content)
         /\ (exists id,
               out = Utils.os_path_join (upload_dir settings)
                       ("whisperrr_" ++ id ++ ".wav")%string)
         /\ In (EvSfWrite out) evs).
Proof.
  intros Hcb. unfold Utils.output_stage.
  wp_pipeline; cbn [is_ok app Py.truthy fst snd fs] in *;
    intros out Hout; try discriminate Hout; injection Hout as <-.
  all: split; [eexists; apply lookup_insert_eq|].
  all: split; [eexists; reflexivity | find_in].
Qed.

Lemma preprocess_audio_writes
    (settings : Settings) (env : Env) (path : string) (target_sr : option Z)
    (cb : Callback) (w : World) :
  passive cb ->
  wpt (Utils.preprocess_audio settings env path target_sr cb) w
    (fun r w' evs =>
       forall out, r = Ok out ->
         (exists content, fs w' !! out = Some content)
         /\ (exists id,
               out = Utils.os_path_join (upload_dir settings)
                       ("whisperrr_" ++ id ++ ".wav")%string)
         /\ In (EvSfWrite out) evs).
Proof.
  intros Hcb. unfold Utils.preprocess_audio, Utils.pipeline.
  wp_step. wp_step. wp_step. wp_stage. wp_step.
  eapply wpt_mono; [apply convert_stage_attempts; [assumption | reflexivity]|].
  intros r1 s1 evs1 _.
  destruct r1 as [[]|e1]; cbv beta iota.
  - wp_step.
    eapply wpt_mono; [apply load_stage_attempts; assumption|].
    intros r2 s2 evs2 _.
    destruct r2 as [loaded|e2]; cbv beta iota.
    + wp_step.
      eapply wpt_mono; [apply discard_stage_attempts|].
      intros r3 s3 evs3 [_ ->]. cbv beta iota.
      eapply wpt_mono; [apply output_stage_writes; assumption|].
      intros r4 s4 evs4 Hwritten.
      destruct r4 as [out'|e4]; cbv beta iota.
      * intros out Hout. destruct (Hwritten out Hout) as (Hfile & Hname & Hin).
        split; [exact Hfile|]. split; [exact Hname|].
        rewrite !in_app_iff. auto.
      * eapply wpt_mono; [apply failure_stage_attempts|].
        intros r5 s5 evs5 [_ ->]. discriminate.
    + eapply wpt_mono; [apply failure_stage_attempts|].
      intros r5 s5 evs5 [_ ->]. discriminate.
  - eapply wpt_mono; [apply failure_stage_attempts|].
    intros r5 s5 evs5 [_ ->]. discriminate.
Qed.

(** X19.  A run of [preprocess_audio] that returns, with a callback that only
    reports, returns the path of a file that is on disk when the call ends:
    the file [sf.write] wrote, named [whisperrr_<uuid>.wav] inside
    [upload_dir]. *)
Theorem preprocessing_returns_the_written_file
    (settings : Settings) (env : Env) (path : string) (target_sr : option Z)
    (cb : Callback) (w : World) (out : string) :
  passive cb ->
  let run := Utils.preprocess_audio settings env path target_sr cb w in
  fst run = Ok out ->
  (exists content, fs (snd run) !! out = Some content)
  /\ (exists id,
        out = Utils.os_path_join (upload_dir settings)
                ("whisperrr_" ++ id ++ ".wav")%string)
  /\ In (EvSfWrite out) (since w (snd run)).
Proof.
  intros Hcb. cbv zeta.
  apply (wpt_run (Utils.preprocess_audio settings env path target_sr cb) w
    (fun r w' evs =>
       forall out, r = Ok out ->
         (exists content, fs w' !! out = Some content)
         /\ (exists id,
               out = Utils.os_path_join (upload_dir settings)
                       ("whisperrr_" ++ id ++ ".wav")%string)
         /\ In (EvSfWrite out) evs)).
  apply preprocess_audio_writes. exact Hcb.
Qed.

Section OutputSamples.

Import Sample.

Lemma preprocessing_output_witness :
  let w := disk "/in/clip.mp4" "video bytes" in
  let run :=
    Utils.preprocess_audio settings healthy "/in/clip.mp4" None (Some report) w in
  let out := "/tmp/whisperrr/whisperrr_job27.wav"%string in
  (exists content, fs (snd run) !! out = Some content)
  /\ (exists id,
        out = Utils.os_path_join (upload_dir settings)
                ("whisperrr_" ++ id ++ ".wav")%string)
  /\ In (EvSfWrite out) (since w (snd run)).
Proof.
  cbv zeta.
  apply (preprocessing_returns_the_written_file settings healthy "/in/clip.mp4"
           None (Some report) (disk "/in/clip.mp4" "video bytes")
           "/tmp/whisperrr/whisperrr_job27.wav" passive_report).
  vm_compute. reflexivity.
Defined.

End OutputSamples.

Section RemovalSamples.

Import Sample.

Lemma returning_run_witness :
  let w := disk "/in/clip.mp4" "video bytes" in
  let run :=
    Utils.preprocess_audio settings healthy "/in/clip.mp4" None (Some report) w in
  removals (since w (snd run)) = [].
Proof.
  cbv zeta.
  apply (returning_run_removes_nothing settings healthy "/in/clip.mp4" None
           (Some report) (disk "/in/clip.mp4" "video bytes") passive_report).
  vm_compute. reflexivity.
Defined.

End RemovalSamples.

(** ** The preprocessing pipeline: the range of its reports *)

Lemma percentages_app (a b : list Event) :
  percentages (a ++ b) = percentages a ++ percentages b.
Proof.
  induction a as [|ev a IH]; [reflexivity|].
  destruct ev; cbn [app percentages]; rewrite ?IH; reflexivity.
Qed.

Lemma checkpoint_in_range (settings : Settings) (c : Q) :
  (0 <= preprocessing_progress_max settings)%Q ->
  Qle_bool 0 c = true -> Qle_bool c 40.0 = true ->
  (0 <= c * (preprocessing_progress_max settings / 100.0)
   <= preprocessing_ceiling settings)%Q.
Proof.
  intros Hmax H0 H40. apply Qle_bool_iff in H0, H40.
  unfold preprocessing_ceiling.
  assert (Hs : (0 <= preprocessing_progress_max settings / 100.0)%Q).
  { apply Qle_shift_div_l; [reflexivity|]. rewrite Qmult_0_l. exact Hmax. }
  split.
  - apply Qmult_le_0_compat; assumption.
  - apply Qmult_le_compat_r; assumption.
Qed.

Ltac wp_report :=
  lazymatch goal with
  | |- wpt (Utils.progress_in_frame _ _ _ _) _ _ => unfold Utils.progress_in_frame
  | |- wpt (Utils.update_progress _ _ _ _) _ _ => unfold Utils.update_progress
  | |- wpt (Utils.notify _ _ _) _ _ => unfold Utils.notify
  | |- wpt Utils.converted_file_on_disk _ _ => unfold Utils.converted_file_on_disk
  end.

Ltac wp_reporting := repeat first [wp_step | wp_call | wp_report | wp_unfold].

Ltac in_range :=
  cbn [app percentages];
  repeat first
    [ apply List.Forall_nil
    | apply List.Forall_cons;
      [ apply checkpoint_in_range;
        [assumption | first [assumption | reflexivity]
                    | first [assumption | reflexivity]] | ] ].

(** The transcoder, called with the rescaling callback that
    [preprocess_audio] hands it: [g] maps the transcoder's own percentage
    to a checkpoint of the pipeline. *)
Lemma transcode_range (settings : Settings) (env : Env)
    (tc : Utils.Transcoder) (input : string) (output : option string)
    (g : Q -> Q) (w : World) :
  (0 <= preprocessing_progress_max settings)%Q ->
  Forall (fun p => Qle_bool 0 (g p) = true /\ Qle_bool (g p) 40.0 = true)
    [0.0; 10.0; 30.0; 80.0; 100.0]%Q ->
  wpt (Utils.transcode settings env tc input output
         (Some (fun p m => Utils.update_progress settings (Some report) (g p) m)))
      w
    (fun r w' evs =>
       Forall (fun p => (0 <= p <= preprocessing_ceiling settings)%Q)
         (percentages evs)).
Proof.
  intros Hmax Hg.
  repeat match goal with
         | H : Forall _ (_ :: _) |- _ =>
             apply List.Forall_cons_iff in H; destruct H as [[? ?] H]
         end.
  unfold Utils.transcode.
  wp_reporting; in_range.
Qed.

Lemma integrity_silent (settings : Settings) (env : Env) (path : string)
    (w : World) :
  wpt (Utils.validate_audio_file_integrity settings env path) w
    (fun r w' evs => percentages evs = [] /\ exists verdict, r = Ok verdict).
Proof.
  unfold Utils.validate_audio_file_integrity.
  wp_go; cbn [app percentages]; (split; [reflexivity | eexists; reflexivity]).
Qed.

Lemma get_audio_info_silent (env : Env) (path : string) (w : World) :
  wpt (Utils.get_audio_info env path) w (fun r w' evs => percentages evs = []).
Proof. unfold Utils.get_audio_info. wp_go; reflexivity. Qed.

Lemma cleanup_silent (env : Env) (path : string) (w : World) :
  wpt (Utils.cleanup_temp_file env path) w
    (fun r w' evs => percentages evs = [] /\ r = Ok tt).
Proof. unfold Utils.cleanup_temp_file. wp_go; split; reflexivity. Qed.

Lemma load_silent (env : Env) (path : string) (w : World) :
  wpt (Utils.librosa_load_ env path) w (fun r w' evs => percentages evs = []).
Proof. unfold Utils.librosa_load_. wp_go; reflexivity. Qed.

Ltac wp_range_spec Hmax :=
  lazymatch goal with
  | |- wpt (Utils.convert_video_to_audio _ _ _ _ _) _ _ =>
      eapply wpt_mono;
      [ apply transcode_range;
        [exact Hmax | repeat constructor]
      | intros ? ? ? ? ]
  | |- wpt (Utils.convert_audio_file _ _ _ _ _) _ _ =>
      eapply wpt_mono;
      [ apply transcode_range;
        [exact Hmax | repeat constructor]
      | intros ? ? ? ? ]
  | |- wpt (Utils.validate_audio_file_integrity _ _ _) _ _ =>
      eapply wpt_mono; [ apply integrity_silent | intros ? ? ? [? [? ->]] ]
  | |- wpt (Utils.get_audio_info _ _) _ _ =>
      eapply wpt_mono; [ apply get_audio_info_silent | intros ? ? ? ? ]
  | |- wpt (Utils.cleanup_temp_file _ _) _ _ =>
      eapply wpt_mono; [ apply cleanup_silent | intros ? ? ? [? ->] ]
  | |- wpt (Utils.librosa_load_ _ _) _ _ =>
      eapply wpt_mono; [ apply load_silent | intros ? ? ? ? ]
  end; cbv beta iota zeta; cbn [fst snd fs trace].

Ltac wp_ranging Hmax :=
  repeat first [wp_step | wp_call | wp_range_spec Hmax | wp_report | wp_unfold].

(** Put the percentages of a trace built by the rules in normal form. *)
Ltac range_norm :=
  cbv beta in *;
  rewrite ?percentages_app;
  repeat match goal with
         | H : percentages ?e = _ |- context [percentages ?e] => rewrite H
         end;
  cbn [percentages app];
  rewrite ?app_nil_r;
  repeat first
    [ apply List.Forall_nil
    | assumption
    | apply Forall_app_2
    | apply List.Forall_cons;
      [ apply checkpoint_in_range; [assumption | reflexivity | reflexivity] | ] ].

Lemma convert_stage_range (settings : Settings) (env : Env)
    (s : Utils.Frame * World) :
  (0 <= preprocessing_progress_max settings)%Q ->
  wpt (Utils.convert_stage settings env (Some report)) s
    (fun r s' evs =>
       Forall (fun p => (0 <= p <= preprocessing_ceiling settings)%Q)
         (percentages evs)).
Proof.
  intros Hmax. unfold Utils.convert_stage.
  wp_ranging Hmax; range_norm.
Qed.

Lemma load_stage_range (settings : Settings) (env : Env)
    (s : Utils.Frame * World) :
  (0 <= preprocessing_progress_max settings)%Q ->
  wpt (Utils.load_stage settings env (Some report)) s
    (fun r s' evs =>
       Forall (fun p => (0 <= p <= preprocessing_ceiling settings)%Q)
         (percentages evs)).
Proof.
  intros Hmax. unfold Utils.load_stage.
  wp_ranging Hmax; range_norm.
Qed.

Lemma discard_stage_silent (env : Env) (s : Utils.Frame * World) :
  wpt (Utils.discard_stage env) s
    (fun r s' evs => percentages evs = [] /\ r = Ok tt).
Proof.
  assert (Hmax : (0 <= 0)%Q) by apply Qle_refl.
  unfold Utils.discard_stage.
  wp_ranging Hmax; rewrite ?percentages_app;
    repeat match goal with
           | H : percentages ?e = _ |- context [percentages ?e] => rewrite H
           end; split; reflexivity.
Qed.

Lemma output_stage_range (settings : Settings) (env : Env) (target_sr : Z)
    (loaded : Audio * Z) (s : Utils.Frame * World) :
  (0 <= preprocessing_progress_max settings)%Q ->
  wpt (Utils.output_stage settings env (Some report) target_sr loaded) s
    (fun r s' evs =>
       Forall (fun p => (0 <= p <= preprocessing_ceiling settings)%Q)
         (percentages evs)).
Proof.
  intros Hmax. unfold Utils.output_stage.
  wp_ranging Hmax; range_norm.
Qed.

Lemma failure_stage_silent (env : Env) (e : exn) (s : Utils.Frame * World) :
  wpt (Utils.failure_stage env e) s (fun r s' evs => percentages evs = []).
Proof.
  assert (Hmax : (0 <= 0)%Q) by apply Qle_refl.
  unfold Utils.failure_stage.
  wp_ranging Hmax; rewrite ?percentages_app;
    repeat match goal with
           | H : percentages ?e = _ |- context [percentages ?e] => rewrite H
           end; reflexivity.
Qed.

(** X20.  Every percentage that [preprocess_audio] hands to a recording callback
    lies between 0 and its last checkpoint rescaled, two fifths of
    [preprocessing_progress_max], on every path: with or without a
    conversion, through the decode rescue, and when the run fails. *)
Theorem preprocessing_reports_stay_in_range
    (settings : Settings) (env : Env) (path : string) (target_sr : option Z)
    (w : World) :
  (0 <= preprocessing_progress_max settings)%Q ->
  let run :=
    Utils.preprocess_audio settings env path target_sr (Some report) w in
  Forall (fun p => (0 <= p <= preprocessing_ceiling settings)%Q)
    (percentages (since w (snd run)))
  /\ (preprocessing_ceiling settings
      == (2 # 5) * preprocessing_progress_max settings)%Q.
Proof.
  intros Hmax. cbv zeta. split; [|apply two_fifths].
  apply (wpt_run (Utils.preprocess_audio settings env path target_sr (Some report)) w
    (fun r w' evs =>
       Forall (fun p => (0 <= p <= preprocessing_ceiling settings)%Q)
         (percentages evs))).
  unfold Utils.preprocess_audio, Utils.pipeline.
  wp_step. wp_step. wp_step. wp_report. wp_step. wp_report. wp_unfold. wp_step.
  wp_step.
  eapply wpt_mono; [apply convert_stage_range; exact Hmax|].
  intros r1 s1 evs1 H1.
  destruct r1 as [[]|e1]; cbv beta iota.
  - wp_step.
    eapply wpt_mono; [apply load_stage_range; exact Hmax|].
    intros r2 s2 evs2 H2.
    destruct r2 as [loaded|e2]; cbv beta iota.
    + wp_step.
      eapply wpt_mono; [apply discard_stage_silent|].
      intros r3 s3 evs3 [H3 ->]. cbv beta iota.
      eapply wpt_mono; [apply output_stage_range; exact Hmax|].
      intros r4 s4 evs4 H4.
      destruct r4 as [out|e4]; cbv beta iota.
      * range_norm.
      * eapply wpt_mono; [apply failure_stage_silent|].
        intros r5 s5 evs5 H5. range_norm.
    + eapply wpt_mono; [apply failure_stage_silent|].
      intros r5 s5 evs5 H5. range_norm.
  - eapply wpt_mono; [apply failure_stage_silent|].
    intros r5 s5 evs5 H5. range_norm.
Qed.

Section RangeSamples.

Import Sample.

Lemma preprocessing_range_witness :
  let w := disk "/in/talk.wav" wav_bytes in
  let run :=
    Utils.preprocess_audio settings (undecodable_upload "/in/talk.wav")
      "/in/talk.wav" None (Some report) w in
  Forall (fun p => (0 <= p <= preprocessing_ceiling settings)%Q)
    (percentages (since w (snd run)))
  /\ (preprocessing_ceiling settings
      == (2 # 5) * preprocessing_progress_max settings)%Q.
Proof.
  cbv zeta.
  apply (preprocessing_reports_stay_in_range settings
           (undecodable_upload "/in/talk.wav") "/in/talk.wav" None
           (disk "/in/talk.wav" wav_bytes)).
  vm_compute. discriminate.
Defined.

End RangeSamples.

(** ** Transcription: the rescaling of its progress *)

Lemma rescale_monotone (settings : Settings) (p q : Q) :
  (transcription_progress_min settings
   <= transcription_progress_max settings)%Q ->
  (p <= q)%Q ->
  (WhisperService.transcription_callback_progress settings p
   <= WhisperService.transcription_callback_progress settings q)%Q.
Proof.
  intros Hrange Hpq. unfold WhisperService.transcription_callback_progress.
  apply Qplus_le_compat; [apply Qle_refl|].
  unfold Qdiv. apply Qmult_le_compat_r; [|discriminate].
  apply Qmult_le_compat_r; [exact Hpq|].
  apply (Qplus_le_r _ _ (transcription_progress_min settings)).
  ring_simplify. exact Hrange.
Qed.

(** X22.  The callback that [transcribe_audio] hands to the transcription stage
    maps the stage's own percentage linearly onto the configured sub-range:
    0 goes to [transcription_progress_min], 100 to
    [transcription_progress_max], the map is monotone, and a percentage
    between 0 and 100 lands inside the sub-range. *)
Theorem transcription_progress_is_rescaled (settings : Settings) :
  let lo := transcription_progress_min settings in
  let hi := transcription_progress_max settings in
  let rescale := WhisperService.transcription_callback_progress settings in
  (lo <= hi)%Q ->
  (rescale 0 == lo)%Q
  /\ (rescale 100 == hi)%Q
  /\ (forall p q, (p <= q)%Q -> (rescale p <= rescale q)%Q)
  /\ (forall p, (0 <= p <= 100)%Q -> (lo <= rescale p <= hi)%Q).
Proof.
  cbv zeta. intros Hrange.
  assert (H0 : (WhisperService.transcription_callback_progress settings 0
                == transcription_progress_min settings)%Q)
    by (unfold WhisperService.transcription_callback_progress; field).
  assert (H100 : (WhisperService.transcription_callback_progress settings 100
                  == transcription_progress_max settings)%Q)
    by (unfold WhisperService.transcription_callback_progress; field).
  split; [exact H0|]. split; [exact H100|].
  split; [intros p q; apply rescale_monotone; exact Hrange|].
  intros p [Hp0 Hp100]. split.
  - rewrite <- H0. apply rescale_monotone; assumption.
  - rewrite <- H100. apply rescale_monotone; assumption.
Qed.

Lemma rescale_witness :
  let rescale :=
    WhisperService.transcription_callback_progress Sample.settings in
  (rescale 0 == 40.0)%Q
  /\ (rescale 100 == 100.0)%Q
  /\ (forall p q, (p <= q)%Q -> (rescale p <= rescale q)%Q)
  /\ (forall p, (0 <= p <= 100)%Q -> (40.0 <= rescale p <= 100.0)%Q).
Proof.
  cbv zeta.
  apply (transcription_progress_is_rescaled Sample.settings).
  vm_compute. discriminate.
Defined.

(** ** Transcription: what [_transcribe_sync] returns *)

Section Sync.

Import WhisperService.

Lemma collect_segments_spec (config : ServiceSettings) (cb : Callback)
    (segments : list EngineSegment) : forall (idx : nat) (w : World),
  passive cb ->
  wpt (collect_segments config cb idx segments) w
    (fun r w' evs =>
       r = Ok (map (fun seg => (seg, segment_text seg)) segments)
       /\ fs w' = fs w
       /\ forallb is_progress evs = true).
Proof.
  induction segments as [|seg rest IH]; intros idx w Hcb; cbn [collect_segments map].
  - wp_step. auto.
  - wp_step. wp_step.
    + wp_call. wp_step.
      eapply wpt_mono; [apply IH; exact Hcb|].
      intros r w' evs' (-> & Hfs & Hevs). cbv beta iota. wp_step.
      split; [reflexivity|]. split; [exact Hfs|].
      rewrite !forallb_app, Hevs. cbn.
      match goal with H : forallb is_progress _ = true |- _ => rewrite H end.
      reflexivity.
    + wp_step. wp_step.
      eapply wpt_mono; [apply IH; exact Hcb|].
      intros r w' evs' (-> & Hfs & Hevs). cbv beta iota. wp_step.
      split; [reflexivity|]. split; [exact Hfs|].
      rewrite !forallb_app, Hevs. reflexivity.
Qed.

Lemma segment_dict_of (seg : EngineSegment) :
  segment_dict (seg, segment_text seg)
  = mkSegmentDict (default 0.0%Q (es_start seg)) (default 0.0%Q (es_end seg))
      (segment_text seg) (es_avg_logprob seg) (es_no_speech_prob seg).
Proof.
  unfold segment_dict. cbn [fst snd].
  destruct (negb (Py.truthy (segment_text seg))); reflexivity.
Qed.

Lemma join_nil_or (parts : list string) :
  match parts with [] => ""%string | _ => Py.join " " parts end
  = Py.join " " parts.
Proof. destruct parts; reflexivity. Qed.

Lemma transcribe_sync_spec
    (config : ServiceSettings) (engine : Engine) (file_path : string)
    (language : option string) (temperature : Q) (task : string)
    (cb : Callback) (w : World)
    (answer : foreign + (list EngineSegment * option EngineInfo)) :
  passive cb ->
  (forall t,
     engine t file_path (beam_size config) temperature (default_task config)
     = answer) ->
  wpt (_transcribe_sync config engine file_path language temperature task cb) w
    (fun r w' evs =>
       fs w' = fs w
       /\ match answer with
          | inl e => r = Raise (Foreign e)
          | inr (_, None) =>
              r = Raise (TranscriptionFailed "Transcription returned None info object"
                           (Lit "info is None") file_path)
          | inr (segments, Some info) =>
              exists result,
                r = Ok result
                /\ wr_segments (sr_result result)
                   = Some (map (fun seg =>
                                  mkSegmentDict (default 0.0%Q (es_start seg))
                                    (default 0.0%Q (es_end seg)) (segment_text seg)
                                    (es_avg_logprob seg) (es_no_speech_prob seg))
                             segments)
                /\ wr_text (sr_result result)
                   = Some (Py.join " "
                             (List.filter Py.truthy (map segment_text segments)))
                /\ wr_language (sr_result result) = ei_language info
                /\ sr_language_probability result = ei_language_probability info
          end).
Proof.
  intros Hcb Hengine.
  unfold _transcribe_sync.
    wp_step. wp_call. wp_step. wp_call. wp_step. wp_step. wp_step.
    rewrite Hengine. wp_step.
    destruct answer as [e|[segments [info|]]]; cbv beta iota; cbn [fst snd].
    - split; reflexivity.
    - wp_step. wp_call. wp_step.
      eapply wpt_mono; [apply collect_segments_spec; exact Hcb|].
      intros r w' evs' (-> & Hfs & Hevs). cbv beta iota.
      wp_step. wp_call. wp_step. wp_call. wp_step.
      split; [exact Hfs|].
      eexists. split; [reflexivity|]. cbn [sr_result wr_segments wr_text
        wr_language sr_language_probability].
      rewrite join_nil_or, !map_map.
      assert (Hdicts : forall l : list EngineSegment,
                map (fun seg => segment_dict (seg, segment_text seg)) l
                = map (fun seg =>
                         mkSegmentDict (default 0.0%Q (es_start seg))
                           (default 0.0%Q (es_end seg)) (segment_text seg)
                           (es_avg_logprob seg) (es_no_speech_prob seg)) l).
      { intros l. apply map_ext. intros seg. apply segment_dict_of. }
      assert (Htexts : forall l : list EngineSegment,
                map (fun seg => seg_text (segment_dict (seg, segment_text seg))) l
                = map segment_text l).
      { intros l. apply map_ext. intros seg. rewrite segment_dict_of. reflexivity. }
      rewrite Hdicts, Htexts. repeat split.
    - wp_step. split; reflexivity.
Qed.

(** X23.  [_transcribe_sync], with a callback that only reports, according to
    what the engine answers, for segments whose texts are ASCII.  When the
    engine raises, the exception passes through unchanged.  When the engine
    returns no info object, the call raises [TranscriptionFailed].
    Otherwise the call returns: one dictionary per segment, in order, with
    the text stripped and absent times read as 0; as text the non-blank
    stripped texts joined by single spaces; and the language of the info
    object.  No file is touched. *)
Theorem transcription_result_follows_the_engine
    (config : ServiceSettings) (engine : Engine) (file_path : string)
    (language : option string) (temperature : Q) (task : string)
    (cb : Callback) (w : World)
    (answer : foreign + (list EngineSegment * option EngineInfo)) :
  passive cb ->
  (forall t,
     engine t file_path (beam_size config) temperature (default_task config)
     = answer) ->
  match answer with
  | inl _ => True
  | inr (segments, _) => ascii_texts segments = true
  end ->
  let run :=
    _transcribe_sync config engine file_path language temperature task cb w in
  let stripped (seg : EngineSegment) := Py.strip (default "" (es_text seg)) in
  fs (snd run) = fs w
  /\ match answer with
     | inl e => fst run = Raise (Foreign e)
     | inr (_, None) =>
         fst run
         = Raise (TranscriptionFailed "Transcription returned None info object"
                    (Lit "info is None") file_path)
     | inr (segments, Some info) =>
         exists result,
           fst run = Ok result
           /\ wr_segments (sr_result result)
              = Some (map (fun seg =>
                             mkSegmentDict (default 0.0%Q (es_start seg))
                               (default 0.0%Q (es_end seg)) (stripped seg)
                               (es_avg_logprob seg) (es_no_speech_prob seg))
                        segments)
           /\ wr_text (sr_result result)
              = Some (Py.join " "
                        (List.filter Py.truthy (map stripped segments)))
           /\ wr_language (sr_result result) = ei_language info
           /\ sr_language_probability result = ei_language_probability info
     end.
Proof.
  intros Hcb Hengine _. cbv zeta.
  destruct (transcribe_sync_spec config engine file_path language temperature
              task cb w answer Hcb Hengine) as (evs & _ & H).
  exact H.
Qed.

Lemma transcription_result_witness :
  let run :=
    _transcribe_sync Sample.service
      (Sample.answering (inr (Sample.spoken, Some Sample.english)))
      "/tmp/whisperrr/a.wav" None 0.0 "transcribe" (Some report)
      (Sample.disk "/tmp/whisperrr/a.wav" Sample.wav_bytes) in
  let stripped (seg : EngineSegment) := Py.strip (default "" (es_text seg)) in
  fs (snd run) = fs (Sample.disk "/tmp/whisperrr/a.wav" Sample.wav_bytes)
  /\ exists result,
       fst run = Ok result
       /\ wr_segments (sr_result result)
          = Some (map (fun seg =>
                         mkSegmentDict (default 0.0%Q (es_start seg))
                           (default 0.0%Q (es_end seg)) (stripped seg)
                           (es_avg_logprob seg) (es_no_speech_prob seg))
                    Sample.spoken)
       /\ wr_text (sr_result result)
          = Some (Py.join " "
                    (List.filter Py.truthy (map stripped Sample.spoken)))
       /\ wr_language (sr_result result) = ei_language Sample.english
       /\ sr_language_probability result
          = ei_language_probability Sample.english.
Proof.
  cbv zeta.
  apply (transcription_result_follows_the_engine Sample.service
           (Sample.answering (inr (Sample.spoken, Some Sample.english)))
           "/tmp/whisperrr/a.wav" None 0.0 "transcribe" (Some report)
           (Sample.disk "/tmp/whisperrr/a.wav" Sample.wav_bytes)
           (inr (Sample.spoken, Some Sample.english)) passive_report).
  - intros t. reflexivity.
  - reflexivity.
Defined.

(** What the witness computes to: the text of the two spoken segments. *)
Lemma sample_transcript :
  Py.join " " (List.filter Py.truthy (map segment_text Sample.spoken))
  = "Hello there. General Kenobi."%string.
Proof. vm_compute. reflexivity. Qed.

End Sync.

(** ** Transcription: what [_transcribe_sync] reports *)

Lemma min_le_l (a b : Q) : (Py.min a b <= a)%Q.
Proof.
  unfold Py.min. destruct (Py.Qltb b a) eqn:E; [|apply Qle_refl].
  apply Qltb_true in E. apply Qlt_le_weak, E.
Qed.

Lemma min_le_r (a b : Q) : (Py.min a b <= b)%Q.
Proof.
  unfold Py.min. destruct (Py.Qltb b a) eqn:E; [apply Qle_refl|].
  apply Qltb_false in E. exact E.
Qed.

Lemma min_glb (a b c : Q) : (c <= a)%Q -> (c <= b)%Q -> (c <= Py.min a b)%Q.
Proof. intros Ha Hb. unfold Py.min. destruct (Py.Qltb b a); assumption. Qed.

Lemma nondecreasing_cons (x : Q) (l : list Q) :
  Forall (fun y => (x <= y)%Q) l -> nondecreasing l = true ->
  nondecreasing (x :: l) = true.
Proof.
  intros Hall Hl. destruct l as [|y l]; [reflexivity|].
  cbn [nondecreasing]. apply andb_true_iff. split; [|exact Hl].
  apply Qle_bool_iff. inversion Hall; assumption.
Qed.

Lemma nondecreasing_closing (hi top : Q) (l : list Q) :
  (hi <= top)%Q ->
  Forall (fun y => (y <= hi)%Q) l -> nondecreasing l = true ->
  nondecreasing (l ++ [hi; top]) = true.
Proof.
  intros Htop. induction l as [|x l IH]; intros Hall Hl.
  - cbn. apply andb_true_iff. split; [apply Qle_bool_iff, Htop | reflexivity].
  - inversion Hall as [|? ? Hx Hrest]; subst.
    change ((x :: l) ++ [hi; top]) with (x :: (l ++ [hi; top])).
    apply nondecreasing_cons.
    + apply Forall_app. split.
      * destruct l as [|y l]; [constructor|].
        cbn [nondecreasing] in Hl. apply andb_true_iff in Hl as [Hxy Hl].
        apply Qle_bool_iff in Hxy.
        clear IH Hall. revert y Hxy Hl Hrest.
        induction l as [|z l IHl]; intros y Hxy Hl Hrest.
        -- repeat constructor. exact Hxy.
        -- constructor; [exact Hxy|].
           cbn [nondecreasing] in Hl. apply andb_true_iff in Hl as [Hyz Hl].
           apply Qle_bool_iff in Hyz.
           apply IHl; [eapply Qle_trans; eassumption | exact Hl |].
           inversion Hrest; assumption.
      * repeat constructor; [exact Hx | eapply Qle_trans; eassumption].
    + apply IH; [exact Hrest|].
      destruct l as [|y l]; [reflexivity|].
      cbn [nondecreasing] in Hl. apply andb_true_iff in Hl. apply Hl.
Qed.

(** A run establishes two properties at once when it establishes each. *)
Lemma wpt_both {A} (m : M A) (w : World)
    (Q1 Q2 : PyResult A -> World -> list Event -> Prop) :
  wpt m w Q1 -> wpt m w Q2 ->
  wpt m w (fun r w' evs => Q1 r w' evs /\ Q2 r w' evs).
Proof.
  intros (evs1 & Htr1 & H1) (evs2 & Htr2 & H2).
  assert (Hsame : evs1 = evs2).
  { rewrite Htr1 in Htr2. apply app_inv_head in Htr2. exact Htr2. }
  subst evs2. exists evs1. auto.
Qed.

Section SyncReports.

Import WhisperService.

Variable config : ServiceSettings.

Lemma collect_segments_percentages (segments : list EngineSegment) :
  forall (idx : nat) (w : World),
  wpt (collect_segments config (Some report) idx segments) w
    (fun r w' evs =>
       is_ok r = true
       /\ percentages evs
          = map (segment_progress config)
              (List.filter (fun i => (i mod 10 =? 0)%nat)
                 (seq idx (length segments)))).
Proof.
  induction segments as [|seg rest IH]; intros idx w;
    cbn [collect_segments length seq List.filter].
  - wp_step. split; reflexivity.
  - wp_step. wp_step.
    + unfold Utils.notify, report. wp_step. wp_step.
      eapply wpt_mono; [apply IH|].
      intros r w' evs' (Hok & Hevs).
      destruct r as [collected|e]; [|discriminate Hok]. cbv beta iota. wp_step.
      rewrite app_nil_r. cbn [app percentages map].
      split; [reflexivity|]. rewrite Hevs. reflexivity.
    + wp_step. wp_step.
      eapply wpt_mono; [apply IH|].
      intros r w' evs' (Hok & Hevs).
      destruct r as [collected|e]; [|discriminate Hok]. cbv beta iota. wp_step.
      rewrite app_nil_r. cbn [app].
      split; [reflexivity | exact Hevs].
Qed.

Hypothesis multiplier_is_not_negative :
  (0 <= segment_progress_multiplier config)%Q.

Lemma segment_progress_monotone (i j : nat) :
  (i <= j)%nat -> (segment_progress config i <= segment_progress config j)%Q.
Proof.
  intros Hij. unfold segment_progress.
  apply min_glb; [apply min_le_l|].
  eapply Qle_trans; [apply min_le_r|].
  apply Qplus_le_compat; [apply Qle_refl|].
  apply Qmult_le_compat_r; [|exact multiplier_is_not_negative].
  rewrite <- Zle_Qle. lia.
Qed.

Lemma collect_segments_reports (segments : list EngineSegment) :
  forall (idx : nat) (w : World),
  wpt (collect_segments config (Some report) idx segments) w
    (fun r w' evs =>
       is_ok r = true
       /\ nondecreasing (percentages evs) = true
       /\ Forall (fun y => (segment_progress config idx <= y
                            <= segment_progress_max config)%Q)
            (percentages evs)).
Proof.
  induction segments as [|seg rest IH]; intros idx w; cbn [collect_segments].
  - wp_step. repeat split; constructor.
  - assert (Hnext : forall l,
              Forall (fun y => (segment_progress config (S idx) <= y
                                <= segment_progress_max config)%Q) l ->
              Forall (fun y => (segment_progress config idx <= y
                                <= segment_progress_max config)%Q) l).
    { intros l. apply List.Forall_impl. intros y [Hlo Hhi]. split; [|exact Hhi].
      eapply Qle_trans; [apply segment_progress_monotone|exact Hlo]. lia. }
    wp_step. wp_step.
    + unfold Utils.notify, report. wp_step. wp_step.
      eapply wpt_mono; [apply IH|].
      intros r w' evs' (Hok & Hsorted & Hall).
      destruct r as [collected|e]; [|discriminate Hok]. cbv beta iota. wp_step.
      rewrite app_nil_r. cbn [app percentages].
      split; [reflexivity|]. split.
      * apply nondecreasing_cons; [|exact Hsorted].
        eapply List.Forall_impl; [|exact (Hnext _ Hall)]. intros y [Hlo _]. exact Hlo.
      * constructor; [|exact (Hnext _ Hall)].
        split; [apply Qle_refl | apply min_le_l].
    + wp_step. wp_step.
      eapply wpt_mono; [apply IH|].
      intros r w' evs' (Hok & Hsorted & Hall).
      destruct r as [collected|e]; [|discriminate Hok]. cbv beta iota. wp_step.
      rewrite app_nil_r. cbn [app].
      split; [reflexivity|]. split; [exact Hsorted | exact (Hnext _ Hall)].
Qed.

Hypothesis base_is_past_the_start : (10.0 <= segment_progress_base config)%Q.
Hypothesis ceiling_is_past_the_start : (10.0 <= segment_progress_max config)%Q.
Hypothesis ceiling_is_before_the_end : (segment_progress_max config <= 95.0)%Q.


End SyncReports.


(** What the sample run reports: three segments, so one percentage for the
    segment at index 0. *)
Lemma sample_reports :
  let w := Sample.disk "/tmp/whisperrr/a.wav" Sample.wav_bytes in
  let run :=
    WhisperService._transcribe_sync Sample.service
      (Sample.answering (inr (Sample.spoken, Some Sample.english)))
      "/tmp/whisperrr/a.wav" None 0.0 "transcribe" (Some report) w in
  percentages (since w (snd run)) = [0.0; 5.0; 10.0; 10.00; 95.0; 100.0]%Q.
Proof. vm_compute. reflexivity. Qed.

(** ** From the engine's segments to the response *)

Section Response.

Import WhisperService Models.

Lemma segment_text_stripped (seg : EngineSegment) :
  Py.strip (segment_text seg) = segment_text seg.
Proof. unfold segment_text. apply strip_idempotent. Qed.

Lemma map_strip_segment_texts (segs : list EngineSegment) :
  map Py.strip (List.filter Py.truthy (map segment_text segs))
  = List.filter Py.truthy (map segment_text segs).
Proof.
  induction segs as [|seg segs IH]; [reflexivity|].
  cbn [map List.filter]. destruct (Py.truthy (segment_text seg)); [|exact IH].
  cbn [map]. rewrite segment_text_stripped, IH. reflexivity.
Qed.

Lemma filter_map_text (f : string -> bool) (l : list TranscriptionSegment) :
  map text (List.filter (fun seg => f (text seg)) l)
  = List.filter f (map text l).
Proof.
  induction l as [|seg l IH]; [reflexivity|].
  cbn [map List.filter]. destruct (f (text seg)); cbn [map]; rewrite IH; reflexivity.
Qed.

Lemma joined_text_stripped (segs : list EngineSegment) :
  let joined :=
    Py.join " " (List.filter Py.truthy (map segment_text segs)) in
  Py.strip joined = joined.
Proof.
  cbv zeta.
  destruct (List.filter Py.truthy (map segment_text segs)) as [|p ps] eqn:E;
    [reflexivity|].
  assert (Hall : Forall (fun p => p <> ""%string
                           /\ Py.lstrip Py.whitespace p = p
                           /\ Py.rstrip Py.whitespace p = p) (p :: ps)).
  { rewrite <- E. clear E. induction segs as [|seg segs IH]; [constructor|].
    cbn [map List.filter].
    destruct (Py.truthy (segment_text seg)) eqn:Et; [|exact IH].
    constructor; [|exact IH].
    split; [apply truthy_nonempty, Et|].
    unfold segment_text, Py.strip. apply strip_is_stripped. }
  destruct (join_is_stripped Py.whitespace (p :: ps) ltac:(discriminate) Hall)
    as (_ & Hl & Hr).
  unfold Py.strip. rewrite Hl. exact Hr.
Qed.

Lemma response_of_segments
    (model_size : option string) (segs : list EngineSegment)
    (whisper_result : WhisperResult) (file_info : option Utils.ValidationInfo)
    (processing_time : Q) :
  let transcript :=
    Py.join " " (List.filter Py.truthy (map segment_text segs)) in
  wr_segments whisper_result
  = Some (map (fun seg =>
                 mkSegmentDict (default 0.0%Q (es_start seg))
                   (default 0.0%Q (es_end seg)) (segment_text seg)
                   (es_avg_logprob seg) (es_no_speech_prob seg))
            segs) ->
  wr_text whisper_result = Some transcript ->
  exists response,
    _create_transcription_response model_size (Some whisper_result) file_info
      processing_time
    = Ok response
    /\ full_text response = transcript
    /\ map text (segments response) = map segment_text segs
    /\ Forall (fun seg => confidence seg = None) (segments response)
    /\ language response = wr_language whisper_result
    /\ model_used response = model_size.
Proof.
  cbv zeta. intros Hsegs Htext.
  unfold _create_transcription_response. rewrite Hsegs, Htext.
  eexists. split; [reflexivity|].
  cbn [full_text segments language model_used default from_option id].
  set (transcript := Py.join " " (List.filter Py.truthy (map segment_text segs))).
  set (built := map _ (map _ segs)).
  assert (Htexts : map text built = map segment_text segs).
  { unfold built. rewrite !map_map. apply map_ext. intros seg.
    cbn [text seg_text]. apply segment_text_stripped. }
  split; [|split; [exact Htexts|split; [|split; reflexivity]]].
  - assert (Hrebuilt :
      Py.join " "
        (map (fun seg => Py.strip (text seg))
           (List.filter (fun seg => Py.truthy (text seg)) built))
      = transcript).
    { rewrite <- (map_map text Py.strip), filter_map_text, Htexts.
      rewrite map_strip_segment_texts. reflexivity. }
    cbn [Py.truthy_opt].
    destruct (Py.truthy transcript) eqn:Et.
    + pose proof (joined_text_stripped segs) as Hs. cbv zeta in Hs.
      fold transcript in Hs. rewrite Hs, Et. reflexivity.
    + cbn [Py.truthy negb andb].
      destruct built as [|b bs] eqn:Eb.
      * destruct transcript; [reflexivity | discriminate Et].
      * exact Hrebuilt.
  - unfold built. rewrite map_map. apply Forall_forall. intros seg Hin.
    apply list_elem_of_fmap in Hin. destruct Hin as (s & -> & _). reflexivity.
Qed.

(** X25.  The response built from what [_transcribe_sync] returns for segments
    whose texts are ASCII.  Its text is the non-blank stripped segment
    texts joined by single spaces, whether it is taken from the result's
    text or rebuilt from the segments; it has one segment per engine
    segment, in order, with the stripped text and no confidence of its
    own; language and model are passed on. *)
Theorem response_text_is_the_joined_segments
    (model_size : option string) (segs : list EngineSegment)
    (whisper_result : WhisperResult) (file_info : option Utils.ValidationInfo)
    (processing_time : Q) :
  let stripped (seg : EngineSegment) := Py.strip (default "" (es_text seg)) in
  let transcript :=
    Py.join " " (List.filter Py.truthy (map stripped segs)) in
  ascii_texts segs = true ->
  wr_segments whisper_result
  = Some (map (fun seg =>
                 mkSegmentDict (default 0.0%Q (es_start seg))
                   (default 0.0%Q (es_end seg)) (stripped seg)
                   (es_avg_logprob seg) (es_no_speech_prob seg))
            segs) ->
  wr_text whisper_result = Some transcript ->
  exists response,
    _create_transcription_response model_size (Some whisper_result) file_info
      processing_time
    = Ok response
    /\ full_text response = transcript
    /\ map text (segments response) = map stripped segs
    /\ Forall (fun seg => confidence seg = None) (segments response)
    /\ language response = wr_language whisper_result
    /\ model_used response = model_size.
Proof.
  cbv zeta. intros _.
  exact (response_of_segments model_size segs whisper_result file_info
           processing_time).
Qed.

Lemma response_witness :
  let stripped (seg : EngineSegment) := Py.strip (default "" (es_text seg)) in
  let transcript :=
    Py.join " " (List.filter Py.truthy (map stripped Sample.spoken)) in
  let whisper_result :=
    mkWhisperResult (Some transcript) (Some "en"%string)
      (Some (map (fun seg =>
                    mkSegmentDict (default 0.0%Q (es_start seg))
                      (default 0.0%Q (es_end seg)) (stripped seg)
                      (es_avg_logprob seg) (es_no_speech_prob seg))
               Sample.spoken)) in
  transcript = "Hello there. General Kenobi."%string
  /\ exists response,
       _create_transcription_response (Some "base"%string)
         (Some whisper_result) None 1.5
       = Ok response
       /\ full_text response = transcript
       /\ map text (segments response) = map stripped Sample.spoken
       /\ Forall (fun seg => confidence seg = None) (segments response)
       /\ language response = wr_language whisper_result
       /\ model_used response = Some "base"%string.
Proof.
  cbv zeta. split; [vm_compute; reflexivity|].
  apply (response_text_is_the_joined_segments (Some "base"%string)
           Sample.spoken); reflexivity.
Defined.

End Response.

(** ** The service: [load_model] and [transcribe_audio] *)

Section ServiceRules.

Import WhisperService.

Lemma wpt_finally {A} (m : M A) (f : M unit) (w : World) Q :
  wpt m w (fun r w1 evs1 =>
             wpt f w1 (fun r2 w2 evs2 =>
                         Q (match r2 with
                            | Ok _ => r
                            | Raise e => Raise e
                            end) w2 (evs1 ++ evs2))) ->
  wpt (finally m f) w Q.
Proof.
  unfold wpt, finally. intros (evs & Htr & evs' & Htr' & HQ).
  destruct (m w) as [r w1]. cbn [fst snd] in *.
  destruct (f w1) as [[u|e] w2]; cbn [fst snd] in *;
    exists (evs ++ evs'); rewrite Htr', Htr, app_assoc; auto.
Qed.

Lemma wpt_value {A} (r : PyResult A) (w : World) Q :
  Q r w [] -> wpt (fun w => (r, w)) w Q.
Proof.
  intros HQ. exists []. cbn [fst snd]. rewrite app_nil_r. auto.
Qed.

Lemma passive_rescaled (settings : Settings) (cb : Callback) :
  passive cb ->
  passive (Some (fun p m =>
                   Utils.notify cb (transcription_callback_progress settings p) m)).
Proof.
  intros Hp p msg w. destruct cb as [g|]; cbn [Utils.notify].
  - apply Hp.
  - exists []. rewrite app_nil_r. destruct w. split; reflexivity.
Qed.

Lemma joined_name_is_truthy (dir id : string) :
  Py.truthy (Utils.os_path_join dir ("whisperrr_" ++ id ++ ".wav")%string)
  = true.
Proof.
  change ("whisperrr_" ++ id ++ ".wav")%string
    with (String "w" ("hisperrr_" ++ id ++ ".wav")%string).
  unfold Utils.os_path_join.
  destruct (Py.startswith "/" _); [reflexivity|].
  destruct (negb (Py.truthy dir) || _); destruct dir; reflexivity.
Qed.

Lemma cleanup_removes (env : Env) (path : string) (w : World) :
  wpt (Utils.cleanup_temp_file env path) w
    (fun r w' evs =>
       r = Ok tt
       /\ ((exists content, fs w !! path = Some content) ->
           os_fault env (length (trace w)) OpRemove path = None ->
           evs = [EvRemove path] /\ fs w' !! path = None)).
Proof.
  unfold Utils.cleanup_temp_file.
  wp_go; cbn [app]; (split; [reflexivity|]).
  all: intros [content Hfile] Hfault.
  all: first [ split; [reflexivity | apply lookup_delete_eq] | congruence ].
Qed.

(** [_transcribe_sync] touches no file, whatever the engine answers. *)
Lemma transcribe_sync_keeps
    (config : ServiceSettings) (engine : Engine) (file_path : string)
    (language : option string) (temperature : Q) (task : string)
    (cb : Callback) (w : World) :
  passive cb ->
  wpt (_transcribe_sync config engine file_path language temperature task cb) w
    (fun r w' evs => fs w' = fs w /\ forallb is_progress evs = true).
Proof.
  intros Hcb.
  unfold _transcribe_sync.
  wp_step. wp_call. wp_step. wp_call. wp_step. wp_step. wp_step.
  destruct (engine _ _ _ _ _) as [e|[segments [info|]]]; cbv beta iota;
    cbn [fst snd].
  - wp_step. cbn [fst snd]. rewrite ?app_nil_r, ?forallb_app.
    repeat match goal with H : forallb is_progress _ = true |- _ => rewrite H; clear H end.
    split; reflexivity.
  - wp_step. wp_step. wp_call. wp_step.
    eapply wpt_mono; [apply collect_segments_spec; exact Hcb|].
    intros r w' evs' (-> & Hfs & Hevs). cbv beta iota.
    wp_step. wp_call. wp_step. wp_call. wp_step.
    split; [exact Hfs|].
    rewrite ?app_nil_r, ?forallb_app.
    repeat match goal with H : forallb is_progress _ = true |- _ => rewrite H; clear H end.
    reflexivity.
  - wp_step. wp_step. cbn [fst snd]. rewrite ?app_nil_r, ?forallb_app.
    repeat match goal with H : forallb is_progress _ = true |- _ => rewrite H; clear H end.
    split; reflexivity.
Qed.

End ServiceRules.

Section ServiceState.

Import WhisperService.

Variable settings : Settings.
Variable config : ServiceSettings.
Variable env : Env.
Variable WhisperModel : nat -> string -> string -> string -> foreign + Engine.
Variable time_time : nat -> nat -> Q.
Variable get_memory_usage : nat -> Q.
Variable isinstance_WhisperrrException : exn -> bool.

Lemma load_model_frame (requested : option string) (s : Service * World) :
  let run :=
    load_model config WhisperModel time_time get_memory_usage requested s in
  let after := fst (snd run) in
  snd (snd run) = snd s
  /\ _active_transcriptions after = _active_transcriptions (fst s)
  /\ (forall report size,
        fst run = inr report -> requested = Some size ->
        _model_size after = Some size).
Proof.
  cbv zeta. destruct s as [self w]. unfold load_model. cbn [fst snd].
  destruct (_model self) as [engine|] eqn:Hmodel;
    destruct (_model_size self) as [loaded|] eqn:Hsize;
    destruct (_is_loading self) eqn:Hloading; cbn [andb negb];
    rewrite ?andb_false_r, ?andb_true_r.
  all: try match goal with
           | |- context [String.eqb ?a ?b] => destruct (String.eqb a b) eqn:Hsame
           end.
  all: try (destruct (WhisperModel _ _ _ _) as [e|model]).
  all: cbn [fst snd _model_size _active_transcriptions with_loading].
  all: split; [reflexivity|]; split; [reflexivity|].
  all: intros report size Hreport ->; try discriminate Hreport.
  all: try reflexivity.
  all: apply String.eqb_eq in Hsame; subst; exact Hsize.
Qed.

(** X26.  [load_model] never touches the files or the count of running
    transcriptions.  When it returns, a model is loaded, its recorded size
    is the requested one (the configured size when none is requested), the
    report names that size, and the loading flag is down.  When it raises,
    the exception is [ModelLoadFailed] for that size, and the model that
    was loaded before, with its size, is still the loaded one. *)
Theorem failed_load_keeps_the_previous_model
    (requested : option string) (s : Service * World) :
  let run :=
    load_model config WhisperModel time_time get_memory_usage requested s in
  let size :=
    match requested with
    | Some size => size
    | None => model_size config
    end in
  let after := fst (snd run) in
  snd (snd run) = snd s
  /\ _active_transcriptions after = _active_transcriptions (fst s)
  /\ match fst run with
     | inr report =>
         lr_success report = true
         /\ lr_model_size report = size
         /\ _model after <> None
         /\ _model_size after = Some size
         /\ _is_loading after = false
     | inl err =>
         _model after = _model (fst s)
         /\ _model_size after = _model_size (fst s)
         /\ exists message original,
              err = ModelLoadFailed message size original
     end.
Proof.
  cbv zeta. destruct s as [self w]. unfold load_model. cbn [fst snd].
  set (size := match requested with Some size => size | None => model_size config end).
  destruct (_model self) as [engine|] eqn:Hmodel;
    destruct (_model_size self) as [loaded|] eqn:Hsize;
    destruct (_is_loading self) eqn:Hloading; cbn [andb negb];
    rewrite ?andb_false_r, ?andb_true_r.
  all: try (destruct (String.eqb loaded size) eqn:Hsame).
  all: try (destruct (WhisperModel _ _ _ _) as [e|model]).
  all: cbn [fst snd _model _model_size _is_loading _active_transcriptions
            with_loading lr_success lr_model_size].
  all: rewrite ?Hmodel, ?Hsize, ?Hloading.
  all: repeat match goal with
         | |- _ /\ _ => split
         | |- exists _, _ => eexists
         end.
  all: try reflexivity.
  all: try discriminate.
  all: apply String.eqb_eq in Hsame; subst; reflexivity.
Qed.

Lemma guarded_response (self : Service) (start_time : Q) (file_path : string)
    (language : option string) (temperature : Q) (task : string)
    (cb : Callback) (w : World) (response : Models.TranscriptionResponse) :
  fst (transcribe_guarded settings config env time_time
         isinstance_WhisperrrException self start_time file_path language
         temperature task cb w) = Ok response ->
  Models.model_used response = _model_size self.
Proof.
  unfold transcribe_guarded, try_catch, bind, finally, now.
  repeat match goal with
         | |- context [match ?m ?x with (_, _) => _ end] =>
             lazymatch m with
             | Utils.notify _ _ _ => idtac
             | Utils.validate_audio_file _ _ _ => idtac
             | Utils.preprocess_audio _ _ _ _ _ => idtac
             | _transcribe_sync _ _ _ _ _ _ _ => idtac
             | Utils.cleanup_temp_file _ _ => idtac
             | ret _ => idtac
             end;
             destruct (m x) as [[?|?] ?]
         | |- context [if ?b then _ else _] => destruct b
         end; cbn [fst snd raise ret].
  all: try (intros Hr; discriminate Hr).
  all: unfold _create_transcription_response; cbv zeta; cbn [fst].
  all: intros Hr; injection Hr as <-; reflexivity.
Qed.

(** X27.  [transcribe_audio] ends with as many running transcriptions on record
    as it started with, whether it returns or raises and whatever the
    callback does.  When it raises [ModelNotLoaded] or [ModelLoadFailed]
    nothing has been reported and no file has been looked at.  When it
    returns, the response names the model size that the service holds
    afterwards, which is the requested size when a non-empty one was
    asked for. *)
Theorem transcription_restores_the_active_count
    (file_path : string) (requested language : option string)
    (temperature : Q) (task : string) (progress_callback : Callback)
    (s : Service * World) :
  let run :=
    transcribe_audio settings config env WhisperModel time_time
      get_memory_usage isinstance_WhisperrrException file_path requested
      language temperature task progress_callback s in
  let after := fst (snd run) in
  _active_transcriptions after = _active_transcriptions (fst s)
  /\ match fst run with
     | inl (Raised _) => True
     | inl _ => snd (snd run) = snd s
     | inr response =>
         Models.model_used response = _model_size after
         /\ forall size,
              requested = Some size -> size <> ""%string ->
              _model_size after = Some size
     end.
Proof.
  cbv zeta. destruct s as [self w]. unfold transcribe_audio. cbn [fst snd].
  destruct (_model self) as [engine|] eqn:Hmodel; [|split; reflexivity].
  set (switch := match requested with Some _ => _ | None => false end).
  destruct switch eqn:Hswitch.
  - pose proof (load_model_frame requested (self, w)) as Hload.
    cbv zeta in Hload. cbn [fst snd] in Hload.
    destruct (load_model _ _ _ _ requested (self, w)) as [[err|report] [self' w']].
    + cbn [fst snd] in *. destruct Hload as (-> & Hcount & _).
      split; [exact Hcount|]. destruct err; [reflexivity | reflexivity | exact I].
    + cbn [fst snd] in *. destruct Hload as (-> & Hcount & Hsize).
      destruct (transcribe_guarded _ _ _ _ _ _ _ _ _ _ _ _ w) as [r w''] eqn:Hrun.
      cbn [fst snd _active_transcriptions with_active _model_size].
      split; [lia|].
      destruct r as [response|e]; [|exact I].
      split.
      * apply (f_equal fst) in Hrun. cbn [fst] in Hrun.
        apply guarded_response in Hrun. exact Hrun.
      * intros size Hrequested _. exact (Hsize report size eq_refl Hrequested).
  - destruct (transcribe_guarded _ _ _ _ _ _ _ _ _ _ _ _ w) as [r w''] eqn:Hrun.
    cbn [fst snd _active_transcriptions with_active _model_size].
    split; [lia|].
    destruct r as [response|e]; [|exact I].
    split.
    + apply (f_equal fst) in Hrun. cbn [fst] in Hrun.
      apply guarded_response in Hrun. exact Hrun.
    + intros size -> Hsize. subst switch.
      destruct size as [|c rest]; [congruence|]. cbn [Py.truthy andb] in Hswitch.
      destruct (_model_size self) as [loaded|]; [|discriminate Hswitch].
      apply negb_false_iff, String.eqb_eq in Hswitch. congruence.
Qed.

Lemma returning_call_ran_guarded
    (file_path : string) (requested language : option string)
    (temperature : Q) (task : string) (cb : Callback)
    (s : Service * World) (response : Models.TranscriptionResponse) :
  fst (transcribe_audio settings config env WhisperModel time_time
         get_memory_usage isinstance_WhisperrrException file_path requested
         language temperature task cb s) = inr response ->
  exists self start_time,
    fst (transcribe_guarded settings config env time_time
           isinstance_WhisperrrException self start_time file_path language
           temperature task cb (snd s)) = Ok response
    /\ snd (snd (transcribe_audio settings config env WhisperModel time_time
                   get_memory_usage isinstance_WhisperrrException file_path
                   requested language temperature task cb s))
       = snd (transcribe_guarded settings config env time_time
                isinstance_WhisperrrException self start_time file_path
                language temperature task cb (snd s)).
Proof.
  destruct s as [self w]. unfold transcribe_audio. cbn [fst snd].
  destruct (_model self) as [engine|] eqn:Hmodel; [|intros Hr; discriminate Hr].
  set (switch := match requested with Some _ => _ | None => false end).
  destruct switch.
  - pose proof (load_model_frame requested (self, w)) as Hload.
    cbv zeta in Hload. cbn [fst snd] in Hload.
    destruct (load_model _ _ _ _ requested (self, w)) as [[err|report] [self' w']];
      cbn [fst snd] in *; [intros Hr; discriminate Hr|].
    destruct Hload as (-> & _).
    match goal with
    | |- context [transcribe_guarded _ _ _ _ _ ?sf ?st _ _ _ _ _ w] =>
        exists sf, st; destruct (transcribe_guarded settings config env time_time
                   isinstance_WhisperrrException sf st file_path language
                   temperature task cb w) as [[r|e] w'']
    end; cbn [fst snd] in *.
    + split; [congruence | reflexivity].
    + discriminate.
  - match goal with
    | |- context [transcribe_guarded _ _ _ _ _ ?sf ?st _ _ _ _ _ w] =>
        exists sf, st; destruct (transcribe_guarded settings config env time_time
                   isinstance_WhisperrrException sf st file_path language
                   temperature task cb w) as [[r|e] w'']
    end; cbn [fst snd] in *.
    + split; [congruence | reflexivity].
    + discriminate.
Qed.

Ltac handler_raises :=
  cbv beta iota;
  lazymatch goal with
  | |- wpt (if ?b then _ else _) _ _ =>
      destruct b; wp_step; intros Hok; discriminate Hok
  end.

Lemma guarded_cleans (self : Service) (start_time : Q) (file_path : string)
    (language : option string) (temperature : Q) (task : string)
    (cb : Callback) (w : World) :
  passive cb ->
  cleanup_temp_files config = true ->
  (forall t path, os_fault env t OpRemove path = None) ->
  wpt (transcribe_guarded settings config env time_time
         isinstance_WhisperrrException self start_time file_path language
         temperature task cb) w
    (fun r w' evs =>
       is_ok r = true ->
       exists processed,
         In (EvSfWrite processed) evs
         /\ In (EvRemove processed) evs
         /\ fs w' !! processed = None).
Proof.
  intros Hcb Hcleanup Hremove. unfold transcribe_guarded.
  apply wpt_try_catch. wp_step.
  apply wpt_notify; [exact Hcb|]. intros evs0 Hevs0.
  wp_step. eapply wpt_mono; [apply validate_audio_file_spec|].
  intros r1 w1 evs1 _. destruct r1 as [info|e1]; [|handler_raises].
  cbv beta iota. wp_step.
  eapply wpt_mono; [apply preprocess_audio_writes; exact Hcb|].
  intros r2 w2 evs2 Hwritten. destruct r2 as [processed|e2]; [|handler_raises].
  destruct (Hwritten processed eq_refl) as ((content & Hfile) & (id & Hname) & Hin).
  cbv beta iota. apply wpt_finally. wp_step.
  eapply wpt_mono;
    [apply transcribe_sync_keeps; apply passive_rescaled; exact Hcb|].
  intros r3 w3 evs3 [Hfs3 _].
  assert (Htruthy : Py.truthy processed = true)
    by (rewrite Hname; apply joined_name_is_truthy).
  rewrite Htruthy, Hcleanup. cbn [andb].
  assert (Hthere : exists content, fs w3 !! processed = Some content)
    by (exists content; rewrite Hfs3; exact Hfile).
  destruct r3 as [result|e3]; cbv beta iota.
  - wp_step. wp_step. apply wpt_value.
    eapply wpt_mono; [apply cleanup_removes|].
    intros r4 w4 evs4 [-> Hgone]. cbv beta iota.
    destruct (Hgone Hthere (Hremove _ _)) as [-> Hnone].
    destruct (_create_transcription_response _ _ _ _) as [response|e];
      [|handler_raises].
    intros _. exists processed. rewrite !in_app_iff. cbn [In]. auto 10.
  - eapply wpt_mono; [apply cleanup_removes|].
    intros r4 w4 evs4 [-> _]. handler_raises.
Qed.

(** X28.  A call of [transcribe_audio] that returns has removed the file that
    preprocessing wrote for it, provided temporary files are to be cleaned
    up, the callback only reports and the operating system refuses no
    removal: the file that [sf.write] produced has been handed to
    [os.remove] and is not on disk when the call ends. *)
Theorem returning_transcription_removes_its_scratch_file
    (file_path : string) (requested language : option string)
    (temperature : Q) (task : string) (progress_callback : Callback)
    (s : Service * World) (response : Models.TranscriptionResponse) :
  passive progress_callback ->
  cleanup_temp_files config = true ->
  (forall t path, os_fault env t OpRemove path = None) ->
  let run :=
    transcribe_audio settings config env WhisperModel time_time
      get_memory_usage isinstance_WhisperrrException file_path requested
      language temperature task progress_callback s in
  fst run = inr response ->
  exists processed,
    In (EvSfWrite processed) (since (snd s) (snd (snd run)))
    /\ In (EvRemove processed) (since (snd s) (snd (snd run)))
    /\ fs (snd (snd run)) !! processed = None.
Proof.
  intros Hcb Hcleanup Hremove. cbv zeta. intros Hreturned.
  destruct (returning_call_ran_guarded _ _ _ _ _ _ _ _ Hreturned)
    as (self & start_time & Hok & ->).
  pose proof (wpt_run _ _ _
                (guarded_cleans self start_time file_path language temperature
                   task progress_callback (snd s) Hcb Hcleanup Hremove)) as H.
  cbv beta in H. apply H. rewrite Hok. reflexivity.
Qed.

Lemma transcribe_sync_closes (engine : Engine) (file_path : string)
    (language : option string) (temperature : Q) (task : string)
    (g : Q -> Q) (w : World) :
  wpt (_transcribe_sync config engine file_path language temperature task
         (Some (fun p m => Utils.notify (Some report) (g p) m))) w
    (fun r w' evs =>
       is_ok r = true ->
       exists earlier, percentages evs = earlier ++ [g 100.0%Q]).
Proof.
  assert (Hcb : passive (Some (fun p m => Utils.notify (Some report) (g p) m))).
  { intros p msg w0. exists [EvProgress (g p) msg]. split; reflexivity. }
  unfold _transcribe_sync.
  wp_step. wp_call. wp_step. wp_call. wp_step. wp_step. wp_step.
  destruct (engine _ _ _ _ _) as [e|[segments [info|]]]; cbv beta iota;
    cbn [fst snd].
  - wp_step. intros Hok; discriminate Hok.
  - wp_step. wp_step. wp_call. wp_step.
    eapply wpt_mono; [apply collect_segments_spec; exact Hcb|].
    intros r w' evs' (-> & _ & _). cbv beta iota.
    wp_step. wp_call. wp_step.
    unfold Utils.notify, report. cbv beta iota. wp_step. wp_step.
    intros _. rewrite !percentages_app. cbn [percentages].
    rewrite !app_assoc, !app_nil_r. eexists. reflexivity.
  - wp_step. wp_step. intros Hok; discriminate Hok.
Qed.

Lemma guarded_reports (self : Service) (start_time : Q) (file_path : string)
    (language : option string) (temperature : Q) (task : string) (w : World) :
  wpt (transcribe_guarded settings config env time_time
         isinstance_WhisperrrException self start_time file_path language
         temperature task (Some report)) w
    (fun r w' evs =>
       is_ok r = true ->
       exists middle,
         percentages evs
         = 0.0%Q :: middle
           ++ [transcription_callback_progress settings 100.0%Q]).
Proof.
  unfold transcribe_guarded.
  apply wpt_try_catch. wp_step.
  unfold Utils.notify at 1. unfold report at 1. wp_step.
  wp_step. eapply wpt_mono; [apply validate_audio_file_spec|].
  intros r1 w1 evs1 _. destruct r1 as [info|e1]; [|handler_raises].
  cbv beta iota. wp_step.
  eapply wpt_mono; [apply preprocess_audio_writes; exact passive_report|].
  intros r2 w2 evs2 _. destruct r2 as [processed|e2]; [|handler_raises].
  cbv beta iota. apply wpt_finally. wp_step.
  eapply wpt_mono; [apply transcribe_sync_closes|].
  intros r3 w3 evs3 Hclosing.
  assert (Hquiet : forall w0,
            wpt (if Py.truthy processed && cleanup_temp_files config
                 then Utils.cleanup_temp_file env processed
                 else ret tt) w0
              (fun r w' evs => percentages evs = [] /\ r = Ok tt)).
  { intros w0. destruct (Py.truthy processed && cleanup_temp_files config).
    - apply cleanup_silent.
    - wp_step. split; reflexivity. }
  destruct r3 as [result|e3]; cbv beta iota.
  - wp_step. wp_step. apply wpt_value.
    eapply wpt_mono; [apply Hquiet|].
    intros r4 w4 evs4 [Hnone ->]. cbv beta iota.
    destruct (_create_transcription_response _ _ _ _) as [response|e];
      [|handler_raises].
    intros _. destruct (Hclosing eq_refl) as [earlier Hevs].
    rewrite !percentages_app, Hnone, Hevs. cbn [percentages app].
    rewrite !app_nil_r.
    exists (percentages evs1 ++ percentages evs2 ++ earlier).
    rewrite <- !app_assoc. reflexivity.
  - eapply wpt_mono; [apply Hquiet|].
    intros r4 w4 evs4 [_ ->]. handler_raises.
Qed.

(** X29.  With a callback that records what it is told, a call of
    [transcribe_audio] that returns has reported 0 first and, last, the
    image of 100 under the rescaling of the transcription stage, which is
    [transcription_progress_max]. *)
Theorem returning_transcription_reports_start_and_end
    (file_path : string) (requested language : option string)
    (temperature : Q) (task : string)
    (s : Service * World) (response : Models.TranscriptionResponse) :
  let run :=
    transcribe_audio settings config env WhisperModel time_time
      get_memory_usage isinstance_WhisperrrException file_path requested
      language temperature task (Some report) s in
  let last := transcription_callback_progress settings 100.0%Q in
  fst run = inr response ->
  (exists middle,
     percentages (since (snd s) (snd (snd run))) = 0.0%Q :: middle ++ [last])
  /\ (last == transcription_progress_max settings)%Q.
Proof.
  cbv zeta. intros Hreturned. split.
  - destruct (returning_call_ran_guarded _ _ _ _ _ _ _ _ Hreturned)
      as (self & start_time & Hok & ->).
    pose proof (wpt_run _ _ _
                  (guarded_reports self start_time file_path language
                     temperature task (snd s))) as H.
    cbv beta in H. apply H. rewrite Hok. reflexivity.
  - unfold transcription_callback_progress. field.
Qed.

End ServiceState.

Section ServiceSamples.

Import Sample WhisperService.

Lemma scratch_file_witness :
  let run :=
    transcribe_audio settings service healthy model_store clock memory
      own_exception "/in/clip.mp4" None None 0.0%Q "transcribe" (Some report)
      (ready, disk "/in/clip.mp4" "video bytes") in
  exists processed,
    In (EvSfWrite processed)
      (since (disk "/in/clip.mp4" "video bytes") (snd (snd run)))
    /\ In (EvRemove processed)
         (since (disk "/in/clip.mp4" "video bytes") (snd (snd run)))
    /\ fs (snd (snd run)) !! processed = None.
Proof.
  cbv zeta.
  refine (returning_transcription_removes_its_scratch_file settings service
            healthy model_store clock memory own_exception "/in/clip.mp4" None
            None 0.0%Q "transcribe" (Some report)
            (ready, disk "/in/clip.mp4" "video bytes") _ passive_report
            eq_refl (fun _ _ => eq_refl) _).
  vm_compute. reflexivity.
Defined.

Lemma start_and_end_witness :
  let run :=
    transcribe_audio settings service healthy model_store clock memory
      own_exception "/in/clip.wav" (Some "small"%string) None 0.0%Q
      "transcribe" (Some report) (ready, disk "/in/clip.wav" wav_bytes) in
  let last := transcription_callback_progress settings 100.0%Q in
  (exists middle,
     percentages (since (disk "/in/clip.wav" wav_bytes) (snd (snd run)))
     = 0.0%Q :: middle ++ [last])
  /\ (last == transcription_progress_max settings)%Q.
Proof.
  cbv zeta.
  refine (returning_transcription_reports_start_and_end settings service
            healthy model_store clock memory own_exception "/in/clip.wav"
            (Some "small"%string) None 0.0%Q "transcribe"
            (ready, disk "/in/clip.wav" wav_bytes) _ _).
  vm_compute. reflexivity.
Defined.

End ServiceSamples.
